(** * image-to-3d: the foundation pipeline, embedded and verified

    A shallow embedding of the three scripts under [blender-scripts/]:

    - [add_foundation_blender.py]  (module [Foundation]),
    - [glb_to_stl.py]              (module [Repair]),
    - [process_with_foundation.py] (module [Pipeline]).

    Python floats are an interface ([PyFloat]) with two instances: IEEE
    binary64 as the kernel's primitive floats, which is what the interpreter
    computes with, and an exact one (rationals extended with the two
    infinities and NaN), in which the algebraic laws of the sizing formulas
    are stated.  Calls into the modelling host, the mesh library and external
    processes are recorded as events; what they answer is a parameter of each
    run. *)

From Stdlib Require Import ZArith QArith Qcanon Floats List String Ascii Bool Lia Permutation.
From stdpp Require Import base decidable gmap sets strings.
Import ListNotations.

Set Warnings "-inexact-float".
Local Open Scope string_scope.
Local Open Scope list_scope.

(* ================================================================== *)
(** ** Python floats *)

(** The operations the scripts use on floats: [+ - * /], the comparison
    behind the two-argument [min] and [max], [float('inf')],
    [float('-inf')] and the conversion of an int literal.  Python raises
    [ZeroDivisionError] on a zero divisor, where [fdiv] answers as IEEE 754
    does; the scripts divide by the literal [2] only. *)
Class PyFloat (A : Type) := {
  fadd : A -> A -> A;
  fsub : A -> A -> A;
  fmul : A -> A -> A;
  fdiv : A -> A -> A;
  flt : A -> A -> bool;
  inf : A;
  neg_inf : A;
  of_int : Z -> A
}.

Declare Scope py_scope.
Delimit Scope py_scope with py.
Infix "+" := fadd : py_scope.
Infix "-" := fsub : py_scope.
Infix "*" := fmul : py_scope.
Infix "/" := fdiv : py_scope.
Infix "<?" := flt : py_scope.

(** [min(a, b)] keeps its first argument unless the second compares strictly
    smaller; [max(a, b)] keeps its first argument unless the second compares
    strictly greater (CPython's [min_max] loop on two items). *)
Definition py_min {A} `{PyFloat A} (a b : A) : A := if flt b a then b else a.
Definition py_max {A} `{PyFloat A} (a b : A) : A := if flt a b then b else a.

(** *** IEEE binary64 *)

#[export] Instance float_PyFloat : PyFloat float := {
  fadd := PrimFloat.add;
  fsub := PrimFloat.sub;
  fmul := PrimFloat.mul;
  fdiv := PrimFloat.div;
  flt := PrimFloat.ltb;
  inf := PrimFloat.infinity;
  neg_inf := PrimFloat.neg_infinity;
  of_int := fun z => match z with
                     | Z0 => PrimFloat.zero
                     | Zpos _ => PrimFloat.of_uint63 (Uint63.of_Z z)
                     | Zneg p => PrimFloat.opp (PrimFloat.of_uint63 (Uint63.of_Z (Zpos p)))
                     end
}.

(** Derived notions on binary64, for the statements below.  [is_number x]
    is [x == x]: [x] is no NaN.  [fkey] sends what a float stands for to a
    triple whose lexicographic order is the order of the numbers (the two
    zeros share a key); [feqv] is equality as [==] sees it, or being the
    same float. *)
Definition is_number (x : float) : Prop := PrimFloat.eqb x x = true.

Definition fkey (f : spec_float) : Z * Z * Z :=
  match f with
  | S754_zero _ => (0, 0, 0)%Z
  | S754_infinity s => (if s then (-2)%Z else 2%Z, 0%Z, 0%Z)
  | S754_nan => (3, 0, 0)%Z
  | S754_finite s m e => if s then ((-1)%Z, (- e)%Z, (- Zpos m)%Z) else (1%Z, e, Zpos m)
  end.

Definition key_lt (a b : Z * Z * Z) : Prop :=
  let '(a1, a2, a3) := a in
  let '(b1, b2, b3) := b in
  (a1 < b1 \/ (a1 = b1 /\ (a2 < b2 \/ (a2 = b2 /\ a3 < b3))))%Z.

(** A float that is zero or finite (no NaN, no infinity). *)
Definition is_finite_float (x : float) : Prop :=
  match Prim2SF x with
  | S754_zero _ | S754_finite _ _ _ => True
  | _ => False
  end.

(** The converse of the comparison of floats, the one behind [max]. *)
Definition fgt (a b : float) : bool := PrimFloat.ltb b a.

Definition feqv (x y : float) : Prop :=
  x = y \/ (is_number x /\ is_number y /\ fkey (Prim2SF x) = fkey (Prim2SF y)).

(** *** Exact arithmetic with the IEEE special values

    Finite values are canonical rationals, so that equal numbers are equal
    terms; rounding and overflow are absent.  The special cases follow IEEE
    754 ([inf - inf], [0 * inf] and [inf / inf] are NaN, every comparison with
    NaN is false); a zero divisor, which the scripts never have, gives
    NaN. *)
Inductive xnum : Type :=
| XNaN
| XNInf
| XFin (q : Qc)
| XPInf.

Definition Qc_ltb (p q : Qc) : bool :=
  match (p ?= q)%Qc with Lt => true | _ => false end.

Definition xneg (a : xnum) : xnum :=
  match a with
  | XNaN => XNaN
  | XNInf => XPInf
  | XFin q => XFin (- q)%Qc
  | XPInf => XNInf
  end.

Definition xadd (a b : xnum) : xnum :=
  match a, b with
  | XNaN, _ | _, XNaN => XNaN
  | XFin p, XFin q => XFin (p + q)%Qc
  | XPInf, XNInf | XNInf, XPInf => XNaN
  | XPInf, _ | _, XPInf => XPInf
  | XNInf, _ | _, XNInf => XNInf
  end.

Definition xsub (a b : xnum) : xnum := xadd a (xneg b).

(** The infinity of the sign of [q] times the sign [pos], NaN for [q = 0]. *)
Definition xinf_signed (pos : bool) (q : Qc) : xnum :=
  match (q ?= 0)%Qc with
  | Eq => XNaN
  | Gt => if pos then XPInf else XNInf
  | Lt => if pos then XNInf else XPInf
  end.

Definition xmul (a b : xnum) : xnum :=
  match a, b with
  | XNaN, _ | _, XNaN => XNaN
  | XFin p, XFin q => XFin (p * q)%Qc
  | XPInf, XFin q | XFin q, XPInf => xinf_signed true q
  | XNInf, XFin q | XFin q, XNInf => xinf_signed false q
  | XPInf, XPInf | XNInf, XNInf => XPInf
  | XPInf, XNInf | XNInf, XPInf => XNInf
  end.

Definition xdiv (a b : xnum) : xnum :=
  match a, b with
  | XNaN, _ | _, XNaN => XNaN
  | XFin p, XFin q => if Qc_eq_dec q 0%Qc then XNaN else XFin (p / q)%Qc
  | XFin _, (XPInf | XNInf) => XFin 0%Qc
  | XPInf, XFin q => xinf_signed true q
  | XNInf, XFin q => xinf_signed false q
  | (XPInf | XNInf), (XPInf | XNInf) => XNaN
  end.

Definition xlt (a b : xnum) : bool :=
  match a, b with
  | XNaN, _ | _, XNaN => false
  | XNInf, XNInf => false
  | XNInf, _ => true
  | XFin _, XNInf => false
  | XFin p, XFin q => Qc_ltb p q
  | XFin _, XPInf => true
  | XPInf, _ => false
  end.

#[export] Instance xnum_PyFloat : PyFloat xnum := {
  fadd := xadd;
  fsub := xsub;
  fmul := xmul;
  fdiv := xdiv;
  flt := xlt;
  inf := XPInf;
  neg_inf := XNInf;
  of_int := fun z => XFin (Q2Qc (inject_Z z))
}.

(** A rational literal [n/d] of the exact instance. *)
Definition xq (n : Z) (d : positive) : xnum := XFin (Q2Qc (n # d)).

(** Derived notions on the exact numbers, for the statements below: the
    IEEE [<=], not being NaN, a decision of equality, and the larger of two
    rationals as [max] picks it. *)
Definition xle (a b : xnum) : bool :=
  match a, b with
  | XNaN, _ | _, XNaN => false
  | _, _ => negb (xlt b a)
  end.

Definition not_nan (a : xnum) : Prop :=
  match a with XNaN => False | _ => True end.

Definition xnum_eqb (a b : xnum) : bool :=
  match a, b with
  | XNaN, XNaN | XNInf, XNInf | XPInf, XPInf => true
  | XFin p, XFin q => Qeq_bool p q
  | _, _ => false
  end.

Definition Qc_max (p q : Qc) : Qc := if Qc_ltb p q then q else p.

(** The converse of [xlt], the comparison behind [max]. *)
Definition xgt (a b : xnum) : bool := xlt b a.

(** [pick lt a b] keeps [a] unless [b] is strictly below it in [lt]: [py_min]
    for [lt := flt] and [py_max] for the converse of [flt]. *)
Definition pick {T : Type} (lt : T -> T -> bool) (a b : T) : T :=
  if lt b a then b else a.

(* ================================================================== *)
(** ** Python control flow and effects *)

(** The exception classes that play a part in the scripts.  [Exception] is
    the base of all of them but [KeyboardInterrupt] and [SystemExit], which
    derive from [BaseException] only. *)
Inductive exn_class : Type :=
| NameError
| IndexError
| ValueError
| AttributeError
| ImportError
| RuntimeError
| OSError
| FileNotFoundError
| CalledProcessError
| KeyboardInterrupt
| SystemExit (code : Z).

Record exn : Type := Exn { cls : exn_class; text : string }.

Definition is_Exception (e : exn) : bool :=
  match cls e with KeyboardInterrupt | SystemExit _ => false | _ => true end.

Definition is_AttributeError (e : exn) : bool :=
  match cls e with AttributeError => true | _ => false end.

Definition is_CalledProcessError (e : exn) : bool :=
  match cls e with CalledProcessError => true | _ => false end.

(** A printed line, as the pieces of its f-string: literal text, an
    interpolated string, an interpolated exception. *)
Inductive piece : Type :=
| Lit (s : string)
| Str (s : string)
| Exc (e : exn).

(** How a block of statements ends: it falls through with a value, it
    executes [return], or it raises. *)
Inductive outcome (R X : Type) : Type :=
| Normal (x : X)
| Return (r : R)
| Raised (e : exn).
Arguments Normal {R X} x.
Arguments Return {R X} r.
Arguments Raised {R X} e.

(** The files that exist, by path. *)
Definition files : Type := gset string.

(** A block of statements: from the state it finds (the files, for one
    script also the mesh it holds), the events it emits (in order), the state
    it leaves, and how it ends. *)
Definition py (S E R X : Type) : Type := S -> list E * S * outcome R X.

Definition ret {S E R X} (x : X) : py S E R X := fun fs => ([], fs, Normal x).

Definition bind {S E R X Y} (m : py S E R X) (k : X -> py S E R Y) : py S E R Y :=
  fun fs =>
    let '(t1, fs1, o) := m fs in
    match o with
    | Normal x => let '(t2, fs2, o2) := k x fs1 in (t1 ++ t2, fs2, o2)
    | Return r => (t1, fs1, Return r)
    | Raised e => (t1, fs1, Raised e)
    end.

Declare Scope py_monad_scope.
Delimit Scope py_monad_scope with pym.
Notation "x <- m ;; k" := (bind m (fun x => k))
  (at level 100, m at next level, right associativity) : py_monad_scope.
Notation "m ;;; k" := (bind m (fun _ => k))
  (at level 100, right associativity) : py_monad_scope.

Definition emit {S E R} (e : E) : py S E R unit := fun fs => ([e], fs, Normal tt).
Definition return_ {S E R X} (r : R) : py S E R X := fun fs => ([], fs, Return r).
Definition raise {S E R X} (e : exn) : py S E R X := fun fs => ([], fs, Raised e).
Definition pass {S E R} : py S E R unit := ret tt.

(** [try: body / except <catches> as e: handler e]: an exception of the body
    that the clause catches runs the handler; anything else passes. *)
Definition try_except {S E R X} (body : py S E R X) (catches : exn -> bool)
  (handler : exn -> py S E R X) : py S E R X :=
  fun fs =>
    let '(t1, fs1, o) := body fs in
    match o with
    | Raised e =>
        if catches e
        then let '(t2, fs2, o2) := handler e fs1 in (t1 ++ t2, fs2, o2)
        else (t1, fs1, Raised e)
    | _ => (t1, fs1, o)
    end.

(** [try: body / finally: final]: the final block runs however the body
    ended; the body's ending stands unless the final block itself returns or
    raises. *)
Definition try_finally {S E R X} (body : py S E R X) (final : py S E R unit) : py S E R X :=
  fun fs =>
    let '(t1, fs1, o) := body fs in
    let '(t2, fs2, o2) := final fs1 in
    (t1 ++ t2, fs2,
     match o2 with
     | Normal _ => o
     | Return r => Return r
     | Raised e => Raised e
     end).

(** A call of a function whose body is [body]: a [return r] of the body is
    the value of the call, falling off the end answers [none]. *)
Definition call {S E R R'} (none : R) (body : py S E R unit) : py S E R' R :=
  fun fs =>
    let '(t, fs1, o) := body fs in
    (t, fs1,
     match o with
     | Normal _ => Normal none
     | Return r => Normal r
     | Raised e => Raised e
     end).

(** [for x in l: body x]. *)
Fixpoint for_each {S E R X} (l : list X) (body : X -> py S E R unit) : py S E R unit :=
  match l with
  | [] => ret tt
  | x :: l' => bind (body x) (fun _ => for_each l' body)
  end.

(** [os.path.exists(p)] and [os.remove(p)]. *)
Definition path_exists {E R} (p : string) : py files E R bool :=
  fun fs => ([], fs, Normal (bool_decide (p ∈ fs))).

Definition os_remove {E R} (removed : string -> E) (p : string) : py files E R unit :=
  fun fs =>
    if bool_decide (p ∈ fs)
    then ([removed p], fs ∖ {[p]}, Normal tt)
    else ([], fs, Raised (Exn FileNotFoundError p)).

(** The exit status of an interpreter that ran a script to this ending. *)
Definition exit_status {R X} (o : outcome R X) : Z :=
  match o with
  | Normal _ | Return _ => 0
  | Raised e => match cls e with SystemExit code => code | _ => 1 end
  end.

(** [os.path.join(a, b)] and [os.path.splitext(p)] of [posixpath], and
    [str.lower] on ASCII letters (no character outside ASCII lower-cases to
    a letter of ".stl", ".glb" or ".gltf"). *)
Definition starts_with_slash (s : string) : bool :=
  match s with String c _ => Ascii.eqb c "/" | EmptyString => false end.

Fixpoint ends_with_slash (s : string) : bool :=
  match s with
  | EmptyString => false
  | String c EmptyString => Ascii.eqb c "/"
  | String _ s' => ends_with_slash s'
  end.

Definition path_join (a b : string) : string :=
  if starts_with_slash b then b
  else if orb (String.eqb a "") (ends_with_slash a) then a +:+ b
  else a +:+ "/" +:+ b.

(** [s.rfind(c)], [-1] when [c] does not occur; [i] is the index of the
    head of [s]. *)
Fixpoint rfind_from (c : ascii) (s : string) (i : Z) : Z :=
  match s with
  | EmptyString => (-1)%Z
  | String a s' =>
      let r := rfind_from c s' (i + 1)%Z in
      if (0 <=? r)%Z then r else if Ascii.eqb a c then i else (-1)%Z
  end.

Definition rfind (c : ascii) (s : string) : Z := rfind_from c s 0%Z.

(** The [while filenameIndex < dotIndex] loop of [genericpath._splitext]:
    is some character of [p[filenameIndex:dotIndex]] not a dot?  [n] counts
    the characters left to look at. *)
Fixpoint has_non_dot (p : string) (filenameIndex n : nat) : bool :=
  match n with
  | O => false
  | S n' =>
      match String.get filenameIndex p with
      | Some c => if Ascii.eqb c "." then has_non_dot p (S filenameIndex) n' else true
      | None => true
      end
  end.

Definition splitext (p : string) : string * string :=
  let sepIndex := rfind "/" p in
  let dotIndex := rfind "." p in
  if (sepIndex <? dotIndex)%Z
  then
    let filenameIndex := Z.to_nat (sepIndex + 1) in
    if has_non_dot p filenameIndex (Z.to_nat dotIndex - filenameIndex)
    then (String.substring 0 (Z.to_nat dotIndex) p,
          String.substring (Z.to_nat dotIndex) (String.length p - Z.to_nat dotIndex) p)
    else (p, "")
  else (p, "").

Definition lower_ascii (c : ascii) : ascii :=
  let n := nat_of_ascii c in
  if andb (65 <=? n)%nat (n <=? 90)%nat then ascii_of_nat (n + 32) else c.

Fixpoint lower (s : string) : string :=
  match s with
  | EmptyString => EmptyString
  | String c s' => String (lower_ascii c) (lower s')
  end.

(** [str.isascii]: on such strings [lower] above is [str.lower]; on others
    [str.lower] also changes characters outside ASCII, which [lower] leaves
    as they are. *)
Fixpoint isascii (s : string) : bool :=
  match s with
  | EmptyString => true
  | String c s' => (nat_of_ascii c <? 128)%nat && isascii s'
  end.

(** Derived notions on strings, for the statements below: whether a
    character occurs in a string, and whether a string is made of dots
    only. *)
Fixpoint occurs (c : ascii) (s : string) : bool :=
  match s with
  | EmptyString => false
  | String a s' => Ascii.eqb a c || occurs c s'
  end.

Fixpoint all_dots (s : string) : bool :=
  match s with
  | EmptyString => true
  | String a s' => Ascii.eqb a "." && all_dots s'
  end.

(** An external process, as one run meets it: it ran, did to the files
    whatever it did and exited with a status, or it could not be started
    ([OSError], for instance [FileNotFoundError] for a missing executable). *)
Inductive process : Type :=
| Exits (code : Z) (effect : files -> files)
| CannotStart (e : exn).

(** [subprocess.run(cmd, check=True)]: [CalledProcessError] on a status
    other than zero. *)
Definition subprocess_run {E R} (ran : list string -> E) (cmd : list string)
  (p : process) : py files E R unit :=
  fun fs =>
    match p with
    | Exits code effect =>
        ([ran cmd], effect fs,
         if (code =? 0)%Z then Normal tt
         else Raised (Exn CalledProcessError "returned non-zero exit status"))
    | CannotStart e => ([ran cmd], fs, Raised e)
    end.

(** [l[i]]: [IndexError] out of range. *)
Definition subscript {S E R} (l : list string) (i : nat) : py S E R string :=
  match nth_error l i with
  | Some x => ret x
  | None => raise (Exn IndexError "list index out of range")
  end.

(** [l.index(x)], the first position of [x]; [None] when [x not in l]. *)
Fixpoint index_of (x : string) (l : list string) : option nat :=
  match l with
  | [] => None
  | y :: l' => if String.eqb y x then Some O else option_map S (index_of x l')
  end.

(* ================================================================== *)
(** ** [add_foundation_blender.py] *)

Module Foundation.

(** A [mathutils.Vector] of three components, a 3-element list of floats
    ([min_coords], [max_coords]) and a corner of [bound_box] alike; [axis] is
    an index of [range(3)]. *)
Inductive axis : Type := I0 | I1 | I2.

Definition range3 : list axis := [I0; I1; I2].

Record vec3 (A : Type) : Type := Vec { vx : A; vy : A; vz : A }.
Arguments Vec {A} vx vy vz.
Arguments vx {A} v.
Arguments vy {A} v.
Arguments vz {A} v.

Definition vget {A} (v : vec3 A) (i : axis) : A :=
  match i with I0 => vx v | I1 => vy v | I2 => vz v end.

Definition vset {A} (v : vec3 A) (i : axis) (a : A) : vec3 A :=
  match i with
  | I0 => Vec a (vy v) (vz v)
  | I1 => Vec (vx v) a (vz v)
  | I2 => Vec (vx v) (vy v) a
  end.

(** A scene object as the script reads it: [obj.type], [obj.matrix_world]
    (by what [matrix_world @ v] answers) and [obj.bound_box] (eight corners in
    the host). *)
Record object (A : Type) : Type := Object {
  obj_type : string;
  matrix_world : vec3 A -> vec3 A;
  bound_box : list (vec3 A)
}.
Arguments Object {A} obj_type matrix_world bound_box.
Arguments obj_type {A} o.
Arguments matrix_world {A} o v.
Arguments bound_box {A} o.

(** What the script asks of the host, and what it prints. *)
Inductive event (A : Type) : Type :=
| Print (line : list piece)
| PrintDimensions (x_size y_size : A)
| PrintFoundation (radius thickness : A)
| SelectAll
| Delete
| ImportGltf (filepath : string)
| CylinderAdd (radius depth : A) (location : A * A * A) (vertices : Z)
| Rename (name : string)
| SetActive (obj : object A)
| Join
| StlExport (filepath : string)
| GltfExport (filepath export_format : string).
Arguments Print {A} line.
Arguments PrintDimensions {A} x_size y_size.
Arguments PrintFoundation {A} radius thickness.
Arguments SelectAll {A}.
Arguments Delete {A}.
Arguments ImportGltf {A} filepath.
Arguments CylinderAdd {A} radius depth location vertices.
Arguments Rename {A} name.
Arguments SetActive {A} obj.
Arguments Join {A}.
Arguments StlExport {A} filepath.
Arguments GltfExport {A} filepath export_format.

(** The values lines 51-64 compute. *)
Record sizing (A : Type) : Type := Sizing {
  x_size : A;
  y_size : A;
  max_dimension : A;
  foundation_radius : A;
  foundation_thickness : A;
  center_x : A;
  center_y : A;
  foundation_z : A
}.
Arguments Sizing {A}.
Arguments x_size {A} s.
Arguments y_size {A} s.
Arguments max_dimension {A} s.
Arguments foundation_radius {A} s.
Arguments foundation_thickness {A} s.
Arguments center_x {A} s.
Arguments center_y {A} s.
Arguments foundation_z {A} s.

Definition is_export {A} (e : event A) : bool :=
  match e with StlExport _ | GltfExport _ _ => true | _ => false end.

Definition is_cylinder {A} (e : event A) : bool :=
  match e with CylinderAdd _ _ _ _ => true | _ => false end.

(** An event that is a call into the host (everything but printing). *)
Definition is_host_call {A} (e : event A) : bool :=
  match e with Print _ | PrintDimensions _ _ | PrintFoundation _ _ => false | _ => true end.

Section WithFloat.
Context {A : Type} `{PyFloat A}.
Local Open Scope py_scope.

(** The literals [0.1] and [0.05]: the quotient of two small integers is
    correctly rounded, hence the literal's value in binary64. *)
Definition lit_0_1 : A := of_int 1 / of_int 10.
Definition lit_0_05 : A := of_int 5 / of_int 100.

(** What [bpy.context.scene.objects] holds once the file at a path has been
    imported into the cleared scene. *)
Variable gltf_objects : string -> list (object A).

(** The file the host's glTF exporter writes when it is called with a
    [filepath] and [export_format='GLB']: the exporter fits the extension of
    the path to the format, so the name of the file is the host's to
    choose, not the script's. *)
Variable glb_file : string -> string.

(** [float(s)]: [None] is [ValueError]. *)
Variable float_of_str : string -> option A.

Definition clear_scene {R} : py files (event A) R unit :=
  (emit SelectAll ;;; emit Delete)%pym.

(** A call of one of the host's exporters, and the file it writes. *)
Definition export {R} (e : event A) (written : string) : py files (event A) R unit :=
  fun fs => ([e], {[written]} ∪ fs, Normal tt).

(** Lines 46-49: one corner against the running bounds. *)
Definition update_bounds (acc : vec3 A * vec3 A) (corner : vec3 A) : vec3 A * vec3 A :=
  fold_left
    (fun '(min_coords, max_coords) i =>
       (vset min_coords i (py_min (vget min_coords i) (vget corner i)),
        vset max_coords i (py_max (vget max_coords i) (vget corner i))))
    range3 acc.

(** Line 44. *)
Definition bbox_corners (obj : object A) : list (vec3 A) :=
  map (fun corner => matrix_world obj corner) (bound_box obj).

(** Lines 39-49. *)
Definition bounding_box (mesh_objects : list (object A)) : vec3 A * vec3 A :=
  fold_left
    (fun acc obj => fold_left update_bounds (bbox_corners obj) acc)
    mesh_objects
    (Vec inf inf inf, Vec neg_inf neg_inf neg_inf).

(** Lines 52-64. *)
Definition foundation_sizing (min_coords max_coords : vec3 A)
  (margin_ratio thickness_ratio min_thickness : A) : sizing A :=
  let x_size := vget max_coords I0 - vget min_coords I0 in
  let y_size := vget max_coords I1 - vget min_coords I1 in
  let z_min := vget min_coords I2 in
  let max_dimension := py_max x_size y_size in
  let foundation_radius := (max_dimension / of_int 2) * (of_int 1 + margin_ratio) in
  let foundation_thickness := py_max (max_dimension * thickness_ratio) min_thickness in
  let center_x := (vget min_coords I0 + vget max_coords I0) / of_int 2 in
  let center_y := (vget min_coords I1 + vget max_coords I1) / of_int 2 in
  let foundation_z := z_min - foundation_thickness / of_int 2 in
  Sizing x_size y_size max_dimension foundation_radius foundation_thickness
         center_x center_y foundation_z.

Definition is_mesh (obj : object A) : bool := String.eqb (obj_type obj) "MESH".

(** Line 86. *)
Definition file_ext (output_path : string) : string :=
  lower (snd (splitext output_path)).

(** Lines 85-97: the export by extension.  The STL exporter writes the
    file at the path it is given; the glTF exporter, given the same path and
    the format GLB, writes [glb_file output_path]. *)
Definition export_result (output_path : string) : py files (event A) bool unit :=
  let file_ext := file_ext output_path in
  if String.eqb file_ext ".stl" then
    (emit (Print [Lit "Exporting to STL: "; Str output_path]) ;;;
     export (StlExport output_path) output_path)%pym
  else if orb (String.eqb file_ext ".glb") (String.eqb file_ext ".gltf") then
    (emit (Print [Lit "Exporting to GLB: "; Str output_path]) ;;;
     export (GltfExport output_path "GLB") (glb_file output_path))%pym
  else
    (emit (Print [Lit "Unsupported format: "; Str file_ext]) ;;;
     return_ false)%pym.

(** Lines 12-100.  The host's operations are taken to complete; the script
    has no handler around any of them. *)
Definition add_circular_foundation {R} (glb_path output_path : string)
  (margin_ratio thickness_ratio min_thickness : A) : py files (event A) R bool :=
  call false
    (clear_scene ;;;
     emit (Print [Lit "Importing "; Str glb_path; Lit "..."]) ;;;
     emit (ImportGltf glb_path) ;;;
     let mesh_objects := List.filter is_mesh (gltf_objects glb_path) in
     match mesh_objects with
     | [] =>
         emit (Print [Lit "No mesh objects found in GLB file!"]) ;;;
         return_ false
     | first :: _ =>
         let '(min_coords, max_coords) := bounding_box mesh_objects in
         let s := foundation_sizing min_coords max_coords
                    margin_ratio thickness_ratio min_thickness in
         emit (PrintDimensions (x_size s) (y_size s)) ;;;
         emit (PrintFoundation (foundation_radius s) (foundation_thickness s)) ;;;
         emit (CylinderAdd (foundation_radius s) (foundation_thickness s)
                 (center_x s, center_y s, foundation_z s) 64) ;;;
         emit (Rename "Foundation") ;;;
         emit SelectAll ;;;
         emit (SetActive first) ;;;
         emit Join ;;;
         export_result output_path ;;;
         emit (Print [Lit "Foundation added successfully!"]) ;;;
         return_ true
     end)%pym.

Definition usage_line : string :=
  "Usage in Blender: blender --background --python add_foundation_blender.py -- input.glb output.stl [margin_ratio] [thickness_ratio]".

Definition example_line : string :=
  "Example: blender --background --python add_foundation_blender.py -- model.glb model_with_base.stl 0.15 0.08".

(** Lines 110-112: the arguments after ["--"]. *)
Definition positional (argv : list string) : list string :=
  match index_of "--" argv with
  | Some i => skipn (i + 1) argv
  | None => argv
  end.

Definition float_ {R} (s : string) : py files (event A) R A :=
  match float_of_str s with
  | Some a => ret a
  | None => raise (Exn ValueError ("could not convert string to float: " +:+ s))
  end.

(** Lines 102-128. *)
Definition main {R} (sys_argv : list string) : py files (event A) R unit :=
  call tt
    (if (length sys_argv <? 6)%nat then
       emit (Print [Lit usage_line]) ;;;
       emit (Print [Lit example_line]) ;;;
       return_ tt
     else
       let argv := positional sys_argv in
       input_file <- subscript argv 0 ;;
       output_file <- subscript argv 1 ;;
       margin_ratio <-
         (if (2 <? length argv)%nat then a <- subscript argv 2 ;; float_ a
          else ret lit_0_1) ;;
       thickness_ratio <-
         (if (3 <? length argv)%nat then a <- subscript argv 3 ;; float_ a
          else ret lit_0_05) ;;
       found <- path_exists input_file ;;
       if negb found then
         emit (Print [Lit "Input file not found: "; Str input_file]) ;;;
         return_ tt
       else
         success <- add_circular_foundation input_file output_file
                      margin_ratio thickness_ratio lit_0_05 ;;
         if success then emit (Print [Lit "Successfully created "; Str output_file])
         else emit (Print [Lit "Failed to create foundation"]))%pym.

(** *** Derived notions, for the statements below *)

(** Lines 116-117 as a value: the optional ratio at position [i], its
    default when absent, [None] when [float] raises. *)
Definition ratio_arg (argv : list string) (i : nat) (default : A) : option A :=
  if (i <? length argv)%nat then
    match nth_error argv i with
    | Some a => float_of_str a
    | None => None
    end
  else Some default.

(** The events up to the import, and from the sizing to the join. *)
Definition import_events (glb_path : string) : list (event A) :=
  [SelectAll; Delete; Print [Lit "Importing "; Str glb_path; Lit "..."];
   ImportGltf glb_path].

Definition build_events (first : object A) (s : sizing A) : list (event A) :=
  [PrintDimensions (x_size s) (y_size s);
   PrintFoundation (foundation_radius s) (foundation_thickness s);
   CylinderAdd (foundation_radius s) (foundation_thickness s)
     (center_x s, center_y s, foundation_z s) 64;
   Rename "Foundation"; SelectAll; SetActive first; Join].

(** The mesh objects of the scene imported from a path (line 32), their
    world-space corners, and the sizing the stage computes for them. *)
Definition mesh_objects (glb_path : string) : list (object A) :=
  List.filter is_mesh (gltf_objects glb_path).

Definition all_corners (objs : list (object A)) : list (vec3 A) :=
  flat_map bbox_corners objs.

Definition scene_sizing (glb_path : string)
  (margin_ratio thickness_ratio min_thickness : A) : sizing A :=
  let '(min_coords, max_coords) := bounding_box (mesh_objects glb_path) in
  foundation_sizing min_coords max_coords margin_ratio thickness_ratio min_thickness.

End WithFloat.

Definition supported (ext : string) : bool :=
  orb (String.eqb ext ".stl") (orb (String.eqb ext ".glb") (String.eqb ext ".gltf")).


Definition vfin (v : vec3 Qc) : vec3 xnum :=
  Vec (XFin (vx v)) (XFin (vy v)) (XFin (vz v)).

Definition vnot_nan (v : vec3 xnum) : Prop :=
  not_nan (vx v) /\ not_nan (vy v) /\ not_nan (vz v).

Definition vis_number (v : vec3 float) : Prop :=
  is_number (vx v) /\ is_number (vy v) /\ is_number (vz v).

(** The coordinates of a list of points along one axis. *)
Definition coords {A} (i : axis) (cs : list (vec3 A)) : list A :=
  map (fun c => vget c i) cs.



End Foundation.

(* ================================================================== *)
(** ** [glb_to_stl.py] *)

Module Repair.

(** What the script asks of the converter and of the mesh library, and what
    it prints; [Export] carries the mesh that is written. *)
Inductive event (mesh : Type) : Type :=
| Print (line : list piece)
| Run (cmd : list string)
| Load (path : string)
| FillHoles
| UniqueFaces
| UpdateFaces
| RemoveUnreferencedVertices
| Smoothed
| FilterLaplacian
| Export (m : mesh) (path : string)
| Removed (path : string).
Arguments Print {mesh} line.
Arguments Run {mesh} cmd.
Arguments Load {mesh} path.
Arguments FillHoles {mesh}.
Arguments UniqueFaces {mesh}.
Arguments UpdateFaces {mesh}.
Arguments RemoveUnreferencedVertices {mesh}.
Arguments Smoothed {mesh}.
Arguments FilterLaplacian {mesh}.
Arguments Export {mesh} m path.
Arguments Removed {mesh} path.

(** What one run of the script meets.  A method that works in place answers
    the mesh as the call leaves it and the exception it raised, if any;
    [smoothed] answers a new mesh or raises. *)
Record world (mesh faces : Type) : Type := World {
  assimp : process;
  load : mesh + exn;
  fill_holes : mesh -> mesh * option exn;
  unique_faces : mesh -> faces + exn;
  update_faces : mesh -> faces -> mesh * option exn;
  remove_unreferenced_vertices : mesh -> mesh * option exn;
  import_smoothing : option exn;
  smoothed : mesh -> mesh + exn;
  import_filter_laplacian : option exn;
  filter_laplacian : mesh -> mesh * option exn;
  export : mesh -> option exn
}.
Arguments World {mesh faces}.
Arguments assimp {mesh faces} w.
Arguments load {mesh faces} w.
Arguments fill_holes {mesh faces} w m.
Arguments unique_faces {mesh faces} w m.
Arguments update_faces {mesh faces} w m f.
Arguments remove_unreferenced_vertices {mesh faces} w m.
Arguments import_smoothing {mesh faces} w.
Arguments smoothed {mesh faces} w m.
Arguments import_filter_laplacian {mesh faces} w.
Arguments filter_laplacian {mesh faces} w m.
Arguments export {mesh faces} w m.

(** An event of the repair steps: a call into the mesh library or a printed
    line. *)
Definition is_mesh_step {mesh} (e : event mesh) : bool :=
  match e with
  | Print _ | FillHoles | UniqueFaces | UpdateFaces | RemoveUnreferencedVertices
  | Smoothed | FilterLaplacian => true
  | _ => false
  end.

Section WithMesh.
Context {mesh faces : Type}.
Variable w : world mesh faces.

(** The files and the object the variable [mesh] is bound to. *)
Definition state : Type := files * option mesh.

Definition block (X : Type) : Type := py state (event mesh) unit X.

Local Open Scope py_monad_scope.

Definition on_files {X} (m : py files (event mesh) unit X) : block X :=
  fun '(fs, cell) => let '(t, fs', o) := m fs in (t, (fs', cell), o).

Definition raise_if (failed : option exn) : block unit :=
  match failed with Some e => raise e | None => ret tt end.

(** The mesh [mesh] is bound to; the name is unbound before [trimesh.load]. *)
Definition the_mesh : block mesh :=
  fun '(fs, cell) =>
    match cell with
    | Some m => ([], (fs, cell), Normal m)
    | None => ([], (fs, cell), Raised (Exn NameError "name 'mesh' is not defined"))
    end.

(** [mesh = <value or exception>]. *)
Definition assign (e : event mesh) (r : mesh + exn) : block unit :=
  fun '(fs, cell) =>
    match r with
    | inl m => ([e], (fs, Some m), Normal tt)
    | inr x => ([e], (fs, cell), Raised x)
    end.

(** [mesh.method()] working in place. *)
Definition in_place (e : event mesh) (method : mesh -> mesh * option exn) : block unit :=
  (m <- the_mesh ;;
   fun '(fs, _) =>
     let '(m', failed) := method m in
     ([e], (fs, Some m'),
      match failed with Some x => Raised x | None => Normal tt end))%pym.

(** [mesh.export(output_stl)] writes the file when it does not raise. *)
Definition export_mesh (output_stl : string) : block unit :=
  (m <- the_mesh ;;
   fun '(fs, cell) =>
     match export w m with
     | None => ([Export m output_stl], ({[output_stl]} ∪ fs, cell), Normal tt)
     | Some x => ([Export m output_stl], (fs, cell), Raised x)
     end)%pym.

Definition warn (what : string) (e : exn) : block unit :=
  emit (Print [Lit what; Exc e]).

(** Lines 24-27. *)
Definition fill_holes_step : block unit :=
  try_except (in_place FillHoles (fill_holes w)) is_Exception
    (warn "Warning: Could not fill holes: ").

(** Line 28: [mesh.update_faces(mesh.unique_faces())]. *)
Definition unique_faces_step : block unit :=
  (m <- the_mesh ;;
   emit UniqueFaces ;;;
   match unique_faces w m with
   | inl f => in_place UpdateFaces (fun m => update_faces w m f)
   | inr x => raise x
   end)%pym.

(** Line 29. *)
Definition remove_unreferenced_step : block unit :=
  in_place RemoveUnreferencedVertices (remove_unreferenced_vertices w).

(** Lines 33-43.  The clauses of a [try] are tried in order:
    [AttributeError] first, then any other [Exception]. *)
Definition smoothing_step : block unit :=
  try_except
    (raise_if (import_smoothing w) ;;;
     m <- the_mesh ;;
     assign Smoothed (smoothed w m))
    is_Exception
    (fun e =>
       if is_AttributeError e then
         try_except
           (raise_if (import_filter_laplacian w) ;;;
            in_place FilterLaplacian (filter_laplacian w))
           is_Exception
           (warn "Warning: Could not smooth mesh: ")
       else warn "Warning: Could not smooth mesh: " e)%pym.

Definition temp_stl : string := "temp.stl".

(** *** Derived notions, for the statements below *)

(** How the fallback of the smoothing (lines 37-41) goes on the mesh [m]. *)
Definition fallback_run (fs : files) (m : mesh)
  : list (event mesh) * state * outcome unit unit :=
  match import_filter_laplacian w with
  | Some e =>
      if is_Exception e
      then ([Print [Lit "Warning: Could not smooth mesh: "; Exc e]], (fs, Some m), Normal tt)
      else ([], (fs, Some m), Raised e)
  | None =>
      let '(m', failed) := filter_laplacian w m in
      match failed with
      | None => ([FilterLaplacian], (fs, Some m'), Normal tt)
      | Some e =>
          if is_Exception e
          then ([FilterLaplacian; Print [Lit "Warning: Could not smooth mesh: "; Exc e]],
                (fs, Some m'), Normal tt)
          else ([FilterLaplacian], (fs, Some m'), Raised e)
      end
  end.

(** What an exception [e] of the first attempt at smoothing leads to, after
    the events [t] of that attempt. *)
Definition handled_run (fs : files) (m : mesh) (t : list (event mesh)) (e : exn)
  : list (event mesh) * state * outcome unit unit :=
  if is_Exception e then
    if is_AttributeError e then
      let '(t', st, o) := fallback_run fs m in (t ++ t', st, o)
    else (t ++ [Print [Lit "Warning: Could not smooth mesh: "; Exc e]], (fs, Some m), Normal tt)
  else (t, (fs, Some m), Raised e).

(** Lines 45-50, from the mesh to export to the end of the script. *)
Definition finish (output_stl : string) : block unit :=
  (export_mesh output_stl ;;;
   emit (Print [Lit "Repaired and smoothed STL saved as "; Str output_stl]) ;;;
   on_files (os_remove Removed temp_stl))%pym.

(** A block that works on the mesh only: run with a mesh bound, it leaves
    the files as they are and a mesh bound, and its events are calls into the
    mesh library and printed lines. *)
Definition mesh_only {X} (b : block X) : Prop :=
  forall (fs : files) (m : mesh),
    exists t m' o, b (fs, Some m) = (t, (fs, Some m'), o)
                   /\ Forall (fun e => is_mesh_step e = true) t.

(** Lines 23-43, from the loaded mesh to the mesh to export. *)
Definition repair_steps : block unit :=
  (fill_holes_step ;;;
   unique_faces_step ;;;
   remove_unreferenced_step ;;;
   emit (Print [Lit "Smoothing mesh..."]) ;;;
   smoothing_step)%pym.

(** The script, lines 7-50. *)
Definition script (sys_argv : list string) : block unit :=
  ((if negb (length sys_argv =? 3)%nat then
      emit (Print [Lit "Usage: python glb_to_stl.py input.glb output.stl"]) ;;;
      raise (Exn (SystemExit 1) "1")
    else pass) ;;;
   input_glb <- subscript sys_argv 1 ;;
   output_stl <- subscript sys_argv 2 ;;
   emit (Print [Lit "Converting "; Str input_glb; Lit " to STL..."]) ;;;
   on_files (subprocess_run Run ["assimp"; "export"; input_glb; temp_stl] (assimp w)) ;;;
   emit (Print [Lit "Loading and repairing mesh..."]) ;;;
   assign (Load temp_stl) (load w) ;;;
   repair_steps ;;;
   export_mesh output_stl ;;;
   emit (Print [Lit "Repaired and smoothed STL saved as "; Str output_stl]) ;;;
   on_files (os_remove Removed temp_stl))%pym.

End WithMesh.
End Repair.

(* ================================================================== *)
(** ** [process_with_foundation.py] *)

Module Pipeline.

(** What the driver does and prints; [Child] is an event of the repair
    script, which the driver runs as a child process on the same output. *)
Inductive event (mesh : Type) : Type :=
| Print (line : list piece)
| Run (cmd : list string)
| Removed (path : string)
| Child (e : Repair.event mesh).
Arguments Print {mesh} line.
Arguments Run {mesh} cmd.
Arguments Removed {mesh} path.
Arguments Child {mesh} e.

(** What one run of the driver meets: the run of the repair script, the
    converter and the modelling host as processes, and the three paths the
    interpreter answers ([tempfile.gettempdir()], the directory of the script,
    [sys.executable]). *)
Record world (mesh faces : Type) : Type := World {
  repair : Repair.world mesh faces;
  assimp : process;
  blender : process;
  tempdir : string;
  script_dir : string;
  executable : string
}.
Arguments World {mesh faces}.
Arguments repair {mesh faces} w.
Arguments assimp {mesh faces} w.
Arguments blender {mesh faces} w.
Arguments tempdir {mesh faces} w.
Arguments script_dir {mesh faces} w.
Arguments executable {mesh faces} w.

Definition is_run {mesh} (e : event mesh) : bool :=
  match e with Run _ => true | _ => false end.

Definition is_removed {mesh} (e : event mesh) : bool :=
  match e with Removed _ | Child (Repair.Removed _) => true | _ => false end.

Section WithMesh.
Context {mesh faces : Type}.
Variable w : world mesh faces.

Local Open Scope py_monad_scope.

(** [subprocess.run([sys.executable, glb_to_stl_script, ...], check=True)]:
    the child interpreter runs the repair script with the command's tail as
    its [sys.argv], on the files as they are. *)
Definition run_repair {R} (cmd : list string) : py files (event mesh) R unit :=
  fun fs =>
    let '(t, (fs', _), o) := Repair.script (repair w) (tl cmd) (fs, None) in
    (Run cmd :: map Child t, fs',
     if (exit_status o =? 0)%Z then Normal tt
     else Raised (Exn CalledProcessError "returned non-zero exit status")).

Definition print {R} (line : list piece) : py files (event mesh) R unit :=
  emit (Print line).

(** [if os.path.exists(p): os.remove(p)], then [after]. *)
Definition remove_if_exists {R} (p : string) (after : py files (event mesh) R unit)
  : py files (event mesh) R unit :=
  found <- path_exists p ;;
  if found then os_remove Removed p ;;; after else pass.

Definition temp_smoothed_stl : string := path_join (tempdir w) "smoothed_temp.stl".
Definition temp_glb : string := path_join (tempdir w) "smoothed_temp.glb".
Definition glb_to_stl_script : string := path_join (script_dir w) "glb_to_stl.py".
Definition add_foundation_script : string :=
  path_join (script_dir w) "add_foundation_blender.py".

(** Lines 31-44. *)
Definition step1 (input_glb : string) : py files (event mesh) unit unit :=
  print [Lit "Step 1: Smoothing GLB with trimesh..."] ;;;
  try_except
    (run_repair [executable w; glb_to_stl_script; input_glb; temp_smoothed_stl] ;;;
     print [Lit "✓ Smoothed STL created: "; Str temp_smoothed_stl])
    is_CalledProcessError
    (fun e => print [Lit "Error in trimesh smoothing: "; Exc e] ;;; return_ tt).

(** Lines 46-59. *)
Definition step2 : py files (event mesh) unit unit :=
  print [Lit "Step 2: Converting smoothed STL to temporary GLB..."] ;;;
  try_except
    (subprocess_run Run ["assimp"; "export"; temp_smoothed_stl; temp_glb] (assimp w) ;;;
     print [Lit "✓ Temporary GLB created: "; Str temp_glb])
    is_CalledProcessError
    (fun e =>
       print [Lit "Error converting STL to GLB: "; Exc e] ;;;
       remove_if_exists temp_smoothed_stl pass ;;;
       return_ tt).

(** Lines 65-72: the host, and the handler of its failure. *)
Definition run_blender (output_stl margin_ratio thickness_ratio : string)
  : py files (event mesh) unit unit :=
  try_except
    (subprocess_run Run
       ["blender"; "--background"; "--python"; add_foundation_script; "--";
        temp_glb; output_stl; margin_ratio; thickness_ratio]
       (blender w) ;;;
     print [Lit "✓ Final STL with foundation created: "; Str output_stl])
    is_CalledProcessError
    (fun e => print [Lit "Error adding foundation: "; Exc e] ;;; return_ tt).

(** Lines 74-78: the [finally] block. *)
Definition cleanup : py files (event mesh) unit unit :=
  for_each [temp_smoothed_stl; temp_glb]
    (fun temp_file =>
       remove_if_exists temp_file (print [Lit "Cleaned up: "; Str temp_file])).

(** Lines 61-78. *)
Definition step3 (output_stl margin_ratio thickness_ratio : string)
  : py files (event mesh) unit unit :=
  print [Lit "Step 3: Adding foundation with Blender..."] ;;;
  try_finally (run_blender output_stl margin_ratio thickness_ratio) cleanup.

Definition newline : string := String (ascii_of_nat 10) EmptyString.

(** Lines 13-83.  [os.remove] of a file that exists is taken to succeed. *)
Definition main {R} (sys_argv : list string) : py files (event mesh) R unit :=
  call tt
    (if (length sys_argv <? 3)%nat then
       print [Lit "Usage: python process_with_foundation.py input.glb output.stl [margin_ratio] [thickness_ratio]"] ;;;
       print [Lit "Example: python process_with_foundation.py model.glb model_with_foundation.stl 0.15 0.08"] ;;;
       return_ tt
     else
       input_glb <- subscript sys_argv 1 ;;
       output_stl <- subscript sys_argv 2 ;;
       margin_ratio <- (if (3 <? length sys_argv)%nat then subscript sys_argv 3 else ret "0.1") ;;
       thickness_ratio <- (if (4 <? length sys_argv)%nat then subscript sys_argv 4 else ret "0.05") ;;
       found <- path_exists input_glb ;;
       if negb found then
         print [Lit "Input file not found: "; Str input_glb] ;;;
         return_ tt
       else
         step1 input_glb ;;;
         step2 ;;;
         step3 output_stl margin_ratio thickness_ratio ;;;
         print [Lit (newline +:+ "🎉 Success! Process completed:")] ;;;
         print [Lit "   Input:  "; Str input_glb] ;;;
         print [Lit "   Output: "; Str output_stl] ;;;
         print [Lit "   Applied trimesh smoothing + circular foundation"]).

(** *** Derived notions, for the statements below *)

(** The run of the repair script that step 1 starts. *)
Definition repair_run (input_glb : string) (fs : files)
  : list (Repair.event mesh) * Repair.state * outcome unit unit :=
  Repair.script (repair w) [glb_to_stl_script; input_glb; temp_smoothed_stl] (fs, None).

(** What the handler of step 2 does (lines 55-59), on the files [fs] and
    after the events [t]. *)
Definition step2_failed (t : list (event mesh)) (e : exn) (fs : files)
  : list (event mesh) * files * outcome unit unit :=
  let t' := t ++ [Print [Lit "Error converting STL to GLB: "; Exc e]] in
  if bool_decide (temp_smoothed_stl ∈ fs)
  then (t' ++ [Removed temp_smoothed_stl], fs ∖ {[temp_smoothed_stl]}, Return tt)
  else (t', fs, Return tt).

(** The command line of step 3, and the events of the cleanup on the files
    [fs]. *)
Definition blender_cmd (output_stl margin_ratio thickness_ratio : string) : list string :=
  ["blender"; "--background"; "--python"; add_foundation_script; "--";
   temp_glb; output_stl; margin_ratio; thickness_ratio].

Definition cleanup_events (fs : files) : list (event mesh) :=
  (if bool_decide (temp_smoothed_stl ∈ fs)
   then [Removed temp_smoothed_stl; Print [Lit "Cleaned up: "; Str temp_smoothed_stl]]
   else [])
  ++ (if bool_decide (temp_glb ∈ fs ∖ {[temp_smoothed_stl]})
      then [Removed temp_glb; Print [Lit "Cleaned up: "; Str temp_glb]]
      else []).

(** An optional argument after the two paths, or its default. *)
Definition arg_or (rest : list string) (i : nat) (default : string) : string :=
  match nth_error rest i with Some a => a | None => default end.

End WithMesh.
End Pipeline.

(* ================================================================== *)
(** ** Running a block *)

Definition trace_of {S E R X} (r : list E * S * outcome R X) : list E := fst (fst r).
Definition state_of {S E R X} (r : list E * S * outcome R X) : S := snd (fst r).
Definition outcome_of {S E R X} (r : list E * S * outcome R X) : outcome R X := snd r.

(** Scenes and inputs of the scenarios. *)
Module Scenario.
Import Foundation.

(** The eight corners of the box from [lo] to [hi], in the order of the
    host's [bound_box]. *)
Definition box_corners {A} (lo hi : vec3 A) : list (vec3 A) :=
  [Vec (vx lo) (vy lo) (vz lo); Vec (vx lo) (vy lo) (vz hi);
   Vec (vx lo) (vy hi) (vz hi); Vec (vx lo) (vy hi) (vz lo);
   Vec (vx hi) (vy lo) (vz lo); Vec (vx hi) (vy lo) (vz hi);
   Vec (vx hi) (vy hi) (vz hi); Vec (vx hi) (vy hi) (vz lo)].

(** A mesh object with that bounding box and the identity transform. *)
Definition box_mesh {A} (lo hi : vec3 A) : object A :=
  Object "MESH" (fun v => v) (box_corners lo hi).

(** The box [min = (-1,-1,0)], [max = (1,1,2)], in binary64 and exactly. *)
Definition lo_f : vec3 float := Vec (-1)%float (-1)%float 0%float.
Definition hi_f : vec3 float := Vec 1%float 1%float 2%float.
Definition lo_q : vec3 Qc := Vec (Q2Qc (-1)) (Q2Qc (-1)) (Q2Qc 0).
Definition hi_q : vec3 Qc := Vec (Q2Qc 1) (Q2Qc 1) (Q2Qc 2).
Definition lo_x : vec3 xnum := vfin lo_q.
Definition hi_x : vec3 xnum := vfin hi_q.

(** A mesh that is a single point. *)
Definition point_mesh : object float :=
  box_mesh (Vec 1%float 2%float 3%float) (Vec 1%float 2%float 3%float).

(** Meshes whose corners are not all numbers: one with NaN in the first
    coordinate of four corners, one of NaN only; and a mesh whose corners
    have zeros of both signs in the first coordinate, with the same corners
    in reverse order. *)
Definition nan_corner_mesh : object float :=
  box_mesh (Vec nan 0%float 0%float) (Vec 1%float 1%float 1%float).

Definition nan_mesh : object float := box_mesh (Vec nan nan nan) (Vec nan nan nan).

Definition zeros_mesh : object float :=
  box_mesh (Vec 0%float 0%float 0%float) (Vec (-0)%float 1%float 1%float).

Definition zeros_mesh_reversed : object float :=
  Object "MESH" (fun v => v) (rev (bound_box zeros_mesh)).

(** The command line of the host with one path after the separator. *)
Definition argv_one_path : list string :=
  ["blender"; "--background"; "--python"; "add_foundation_blender.py"; "--"; "model.glb"].

(** The command line of the host with both paths. *)
Definition argv_two_paths : list string :=
  ["blender"; "--background"; "--python"; "add_foundation_blender.py"; "--";
   "model.glb"; "model_with_base.stl"].

(** The command line of the host with both paths and a ratio that is no
    number. *)
Definition argv_bad_ratio : list string :=
  ["blender"; "--background"; "--python"; "add_foundation_blender.py"; "--";
   "model.glb"; "model_with_base.stl"; "abc"].

(** What [float] answers on the ratios of the scenarios: ["0.15"] and
    ["0.08"] are numbers, anything else here (["abc"]) is [ValueError]. *)
Definition float_of_ratio (s : string) : option float :=
  if String.eqb s "0.15" then Some 0.15%float
  else if String.eqb s "0.08" then Some 0.08%float
  else None.

(** A host whose glTF exporter, asked for format GLB, keeps a path that
    ends in ".glb", replaces a ".gltf" ending by ".glb" and adds ".glb" to
    any other path. *)
Definition fitted_glb (filepath : string) : string :=
  let '(stem, ext) := splitext filepath in
  if lower ext =? ".glb" then filepath
  else if lower ext =? ".gltf" then stem +:+ ".glb"
  else filepath +:+ ".glb".

(** An empty (a scene object that is no mesh). *)
Definition empty_object : object float := Object "EMPTY" (fun v => v) [].

(** Runs of the repair script, on meshes that count the changes made to
    them.  The converter leaves ["temp.stl"]; which of the calls fail is the
    choice of each world. *)
Definition touch (m : nat) : nat * option exn := (S m, None).

Definition repair_world (load : nat + exn) (fill_holes : nat -> nat * option exn)
  (unique_faces : nat -> unit + exn) (smoothed : nat -> nat + exn)
  : Repair.world nat unit :=
  Repair.World (Exits 0 (fun fs => {["temp.stl"]} ∪ fs)) load fill_holes unique_faces
    (fun m _ => touch m) touch None smoothed None touch (fun _ => None).

Definition healthy : Repair.world nat unit :=
  repair_world (inl O) touch (fun _ => inl tt) (fun m => inl (S m)).

Definition holes_fail : Repair.world nat unit :=
  repair_world (inl O) (fun m => (m, Some (Exn ValueError "not watertight")))
    (fun _ => inl tt) (fun m => inl (S m)).

Definition smoothing_fails : Repair.world nat unit :=
  repair_world (inl O) touch (fun _ => inl tt)
    (fun m => inr (Exn RuntimeError "smoothing failed")).

(** A mesh without [smoothed], and a [filter_laplacian] that raises. *)
Definition fallback_fails : Repair.world nat unit :=
  Repair.World (Exits 0 (fun fs => {["temp.stl"]} ∪ fs)) (inl O) touch (fun _ => inl tt)
    (fun m _ => touch m) touch None
    (fun m => inr (Exn AttributeError "no attribute smoothed")) None
    (fun m => (m, Some (Exn ValueError "no neighbours"))) (fun _ => None).

Definition dedup_fails : Repair.world nat unit :=
  repair_world (inl O) touch (fun _ => inr (Exn RuntimeError "unique_faces failed"))
    (fun m => inl (S m)).

Definition load_fails : Repair.world nat unit :=
  repair_world (inr (Exn ValueError "could not load temp.stl")) touch
    (fun _ => inl tt) (fun m => inl (S m)).

(** A converter that exits with status 2, leaving nothing. *)
Definition converter_fails : Repair.world nat unit :=
  Repair.World (Exits 2 (fun fs => fs)) (inl O) touch (fun _ => inl tt)
    (fun m _ => touch m) touch None (fun m => inl (S m)) None touch (fun _ => None).

(** Runs of the driver: the paths of the interpreter, a converter that
    writes its output, a host that writes the final file. *)
Definition driver_world (repair : Repair.world nat unit) (assimp blender : process)
  : Pipeline.world nat unit :=
  Pipeline.World repair assimp blender "/tmp" "/opt/blender-scripts" "/usr/bin/python3".

Definition writes (p : string) : process := Exits 0 (fun fs => {[p]} ∪ fs).

Definition driver_argv : list string :=
  ["process_with_foundation.py"; "model.glb"; "out.stl"].

End Scenario.


(* ================================================================== *)
(** ** Facts about the exact numbers *)

Lemma xnum_eqb_eq (a b : xnum) : xnum_eqb a b = true -> a = b.
Proof.
  destruct a, b; simpl; try discriminate; try reflexivity.
  intros E. f_equal. apply Qc_is_canon, Qeq_bool_eq, E.
Qed.

Lemma Qc_ltb_lt (p q : Qc) : Qc_ltb p q = true <-> (p < q)%Qc.
Proof.
  unfold Qc_ltb. rewrite Qclt_alt. destruct (p ?= q)%Qc; split; congruence.
Qed.

Lemma Qc_ltb_ge (p q : Qc) : Qc_ltb p q = false <-> (q <= p)%Qc.
Proof.
  split; intros E.
  - apply Qcnot_lt_le. intros L. apply Qc_ltb_lt in L. congruence.
  - destruct (Qc_ltb p q) eqn:L; [|reflexivity].
    apply Qc_ltb_lt in L. exfalso. exact (Qcle_not_lt _ _ E L).
Qed.

(** Solves a closed equation between exact numbers by evaluation. *)
Ltac xnum_compute := apply xnum_eqb_eq; vm_compute; reflexivity.

(* ================================================================== *)
(** ** Facts about binary64 *)

Lemma key_lt_irrefl (a : Z * Z * Z) : ~ key_lt a a.
Proof. destruct a as [[a1 a2] a3]. cbn. lia. Qed.

Lemma key_lt_asym (a b : Z * Z * Z) : key_lt a b -> ~ key_lt b a.
Proof. destruct a as [[a1 a2] a3], b as [[b1 b2] b3]. cbn. lia. Qed.

Lemma key_lt_trans (a b c : Z * Z * Z) : key_lt a b -> key_lt b c -> key_lt a c.
Proof.
  destruct a as [[a1 a2] a3], b as [[b1 b2] b3], c as [[c1 c2] c3]. cbn. lia.
Qed.

Lemma key_lt_total (a b : Z * Z * Z) : ~ key_lt a b -> ~ key_lt b a -> a = b.
Proof.
  destruct a as [[a1 a2] a3], b as [[b1 b2] b3]. cbn. intros.
  assert (a1 = b1) by lia. assert (a2 = b2) by lia. assert (a3 = b3) by lia.
  congruence.
Qed.

(** The comparison of two numbers is that of their keys. *)
Lemma SFcompare_key (f1 f2 : spec_float) :
  f1 <> S754_nan -> f2 <> S754_nan ->
  exists c, SFcompare f1 f2 = Some c /\
    match c with
    | Lt => key_lt (fkey f1) (fkey f2)
    | Eq => fkey f1 = fkey f2
    | Gt => key_lt (fkey f2) (fkey f1)
    end.
Proof.
  intros N1 N2.
  destruct f1 as [s1|s1| |s1 m1 e1], f2 as [s2|s2| |s2 m2 e2]; try congruence;
    try destruct s1; try destruct s2; cbn;
    try (eexists; split; [reflexivity|cbn; try reflexivity; lia]).
  all: change (Pos.compare_cont Eq m1 m2) with (m1 ?= m2)%positive.
  all: destruct (Z.compare_spec e1 e2) as [E|E|E];
    try (eexists; split; [reflexivity|cbn; lia]).
  all: destruct (Pos.compare_spec m1 m2) as [M|M|M]; subst;
    eexists; (split; [reflexivity|cbn; try reflexivity; lia]).
Qed.

Lemma SFcompare_nan_r (f : spec_float) : SFcompare f S754_nan = None.
Proof. destruct f; reflexivity. Qed.

Lemma is_number_spec (x : float) : is_number x <-> Prim2SF x <> S754_nan.
Proof.
  unfold is_number. rewrite FloatAxioms.eqb_spec. unfold SFeqb. split.
  - intros E N. rewrite N in E. discriminate E.
  - intros N. destruct (SFcompare_key _ _ N N) as (c & -> & K).
    destruct c; [reflexivity|destruct (key_lt_irrefl _ K)..].
Qed.

Lemma ltb_key (x y : float) :
  PrimFloat.ltb x y = true <->
  is_number x /\ is_number y /\ key_lt (fkey (Prim2SF x)) (fkey (Prim2SF y)).
Proof.
  rewrite ltb_spec, !is_number_spec. unfold SFltb. split.
  - intros E.
    assert (N1 : Prim2SF x <> S754_nan) by (intros N; rewrite N in E; discriminate E).
    assert (N2 : Prim2SF y <> S754_nan)
      by (intros N; rewrite N, SFcompare_nan_r in E; discriminate E).
    destruct (SFcompare_key _ _ N1 N2) as (c & Ec & K). rewrite Ec in E.
    destruct c; try discriminate E. auto.
  - intros (N1 & N2 & K). destruct (SFcompare_key _ _ N1 N2) as (c & -> & K').
    destruct c; [|reflexivity|destruct (key_lt_asym _ _ K K')].
    rewrite K' in K. destruct (key_lt_irrefl _ K).
Qed.

Lemma leb_key (x y : float) :
  PrimFloat.leb x y = true <->
  is_number x /\ is_number y /\ ~ key_lt (fkey (Prim2SF y)) (fkey (Prim2SF x)).
Proof.
  rewrite leb_spec, !is_number_spec. unfold SFleb. split.
  - intros E.
    assert (N1 : Prim2SF x <> S754_nan) by (intros N; rewrite N in E; discriminate E).
    assert (N2 : Prim2SF y <> S754_nan)
      by (intros N; rewrite N, SFcompare_nan_r in E; discriminate E).
    destruct (SFcompare_key _ _ N1 N2) as (c & Ec & K). rewrite Ec in E.
    destruct c; try discriminate E; repeat split; auto.
    + rewrite K. apply key_lt_irrefl.
    + apply key_lt_asym, K.
  - intros (N1 & N2 & K). destruct (SFcompare_key _ _ N1 N2) as (c & -> & K').
    destruct c; [reflexivity|reflexivity|destruct (K K')].
Qed.

Lemma eqb_key (x y : float) :
  PrimFloat.eqb x y = true <->
  is_number x /\ is_number y /\ fkey (Prim2SF x) = fkey (Prim2SF y).
Proof.
  rewrite FloatAxioms.eqb_spec, !is_number_spec. unfold SFeqb. split.
  - intros E.
    assert (N1 : Prim2SF x <> S754_nan) by (intros N; rewrite N in E; discriminate E).
    assert (N2 : Prim2SF y <> S754_nan)
      by (intros N; rewrite N, SFcompare_nan_r in E; discriminate E).
    destruct (SFcompare_key _ _ N1 N2) as (c & Ec & K). rewrite Ec in E.
    destruct c; try discriminate E. auto.
  - intros (N1 & N2 & K). destruct (SFcompare_key _ _ N1 N2) as (c & -> & K').
    destruct c; [reflexivity|rewrite K in K'; destruct (key_lt_irrefl _ K')..].
Qed.

Lemma ltb_false_key (x y : float) :
  is_number x -> is_number y -> PrimFloat.ltb x y = false ->
  ~ key_lt (fkey (Prim2SF x)) (fkey (Prim2SF y)).
Proof.
  intros Nx Ny E K.
  assert (T : PrimFloat.ltb x y = true) by (apply ltb_key; auto).
  congruence.
Qed.

Lemma fltb_irrefl (a : float) : PrimFloat.ltb a a = false.
Proof.
  destruct (PrimFloat.ltb a a) eqn:E; [|reflexivity].
  apply ltb_key in E. destruct E as (_ & _ & K). destruct (key_lt_irrefl _ K).
Qed.

Lemma fltb_trans (a b c : float) :
  PrimFloat.ltb a b = true -> PrimFloat.ltb b c = true -> PrimFloat.ltb a c = true.
Proof.
  rewrite !ltb_key. intros (Na & Nb & K1) (_ & Nc & K2).
  repeat split; auto. exact (key_lt_trans _ _ _ K1 K2).
Qed.

Lemma fltb_tricho (a x y : float) :
  PrimFloat.ltb x a = true -> PrimFloat.ltb y a = true ->
  PrimFloat.ltb x y = false -> PrimFloat.ltb y x = false -> feqv x y.
Proof.
  intros Xa Ya Xy Yx. apply ltb_key in Xa, Ya.
  destruct Xa as (Nx & _ & _), Ya as (Ny & _ & _).
  right. repeat split; auto.
  apply key_lt_total; apply ltb_false_key; assumption.
Qed.

Lemma fgt_tricho (a x y : float) :
  fgt x a = true -> fgt y a = true -> fgt x y = false -> fgt y x = false -> feqv x y.
Proof.
  unfold fgt. intros Xa Ya Xy Yx. apply ltb_key in Xa, Ya.
  destruct Xa as (_ & Nx & _), Ya as (_ & Ny & _).
  right. repeat split; auto.
  apply key_lt_total; apply ltb_false_key; assumption.
Qed.

Lemma feqv_refl (a : float) : feqv a a.
Proof. left. reflexivity. Qed.

Lemma feqv_trans (a b c : float) : feqv a b -> feqv b c -> feqv a c.
Proof.
  intros [->|(Na & Nb & K1)] [->|(Nb' & Nc & K2)];
    [left; reflexivity|right; auto|right; auto|].
  right. repeat split; auto. congruence.
Qed.

Lemma fltb_feqv (a a' x : float) : feqv a a' -> PrimFloat.ltb x a = PrimFloat.ltb x a'.
Proof.
  intros [->|(Na & Na' & K)]; [reflexivity|].
  apply eq_true_iff_eq. rewrite !ltb_key, K. tauto.
Qed.

Lemma fgt_feqv (a a' x : float) : feqv a a' -> fgt x a = fgt x a'.
Proof.
  unfold fgt. intros [->|(Na & Na' & K)]; [reflexivity|].
  apply eq_true_iff_eq. rewrite !ltb_key, K. tauto.
Qed.

Lemma feqv_eqb (x y : float) : is_number x -> feqv x y -> PrimFloat.eqb x y = true.
Proof.
  intros N [<-|E]; [exact N|]. apply eqb_key, E.
Qed.

Lemma fle_of_not_lt (a b : float) :
  is_number a -> is_number b -> PrimFloat.ltb b a = false -> PrimFloat.leb a b = true.
Proof.
  intros Na Nb E. apply leb_key. repeat split; auto. apply ltb_false_key; assumption.
Qed.

Lemma is_number_infinity : is_number infinity /\ is_number neg_infinity.
Proof. split; reflexivity. Qed.

Lemma not_below_infinity (c : float) :
  is_number c -> PrimFloat.ltb c infinity = false -> c = infinity.
Proof.
  intros N E. pose proof (ltb_false_key _ _ N (proj1 is_number_infinity) E) as K.
  apply is_number_spec in N. apply Prim2SF_inj.
  change (Prim2SF infinity) with (S754_infinity false) in *.
  destruct (Prim2SF c) as [s|s| |s m e]; try congruence; try destruct s; cbn in K;
    try reflexivity; exfalso; lia.
Qed.

Lemma not_above_neg_infinity (c : float) :
  is_number c -> fgt c neg_infinity = false -> c = neg_infinity.
Proof.
  unfold fgt. intros N E.
  pose proof (ltb_false_key _ _ (proj2 is_number_infinity) N E) as K.
  apply is_number_spec in N. apply Prim2SF_inj.
  change (Prim2SF neg_infinity) with (S754_infinity true) in *.
  destruct (Prim2SF c) as [s|s| |s m e]; try congruence; try destruct s; cbn in K;
    try reflexivity; exfalso; lia.
Qed.

(** Zero, halved and multiplied. *)
Lemma eqb_zero_cases (x : float) :
  PrimFloat.eqb x 0%float = true -> x = 0%float \/ x = (-0)%float.
Proof.
  intros E. apply eqb_key in E. destruct E as (N & _ & K).
  apply is_number_spec in N.
  change (fkey (Prim2SF 0%float)) with (0%Z, 0%Z, 0%Z) in K.
  destruct (Prim2SF x) as [s|s| |s m e] eqn:P; try congruence;
    try (destruct s; discriminate K).
  destruct s; [right|left]; apply Prim2SF_inj; rewrite P; reflexivity.
Qed.

Lemma mul_zero_finite (z y : float) :
  z = 0%float \/ z = (-0)%float -> is_finite_float y ->
  PrimFloat.eqb (z * y)%float 0%float = true.
Proof.
  intros Z F. unfold is_finite_float in F.
  assert (P : exists s, Prim2SF (z * y)%float = S754_zero s).
  { rewrite mul_spec.
    destruct Z as [-> | ->], (Prim2SF y) as [s|s| |s m e]; try contradiction;
      eexists; reflexivity. }
  destruct P as [s P]. apply eqb_key. repeat split.
  - apply is_number_spec. rewrite P. discriminate.
  - rewrite P. reflexivity.
Qed.

Lemma mul_zero_not_finite (z y : float) :
  z = 0%float \/ z = (-0)%float -> ~ is_finite_float y -> ~ is_number (z * y)%float.
Proof.
  intros Z F. unfold is_finite_float in F. rewrite is_number_spec. intros N. apply N.
  rewrite mul_spec.
  destruct Z as [-> | ->], (Prim2SF y) as [s|s| |s m e];
    try (exfalso; apply F; exact I); try destruct s; reflexivity.
Qed.

(** A zero of either sign compares as [0] does. *)
Lemma ltb_zero_l (z x : float) :
  z = 0%float \/ z = (-0)%float -> PrimFloat.ltb z x = PrimFloat.ltb 0%float x.
Proof.
  intros [-> | ->]; [reflexivity|].
  change (fgt x (-0)%float = fgt x 0%float). apply fgt_feqv.
  right. repeat split.
Qed.

Module StageProofs.
Import Foundation Scenario.

Section Stage.
Context {A : Type} `{PyFloat A}.
Variable gltf_objects : string -> list (object A).
Variable glb_file : string -> string.

(** The stage, as the three ways it can go. *)
Lemma add_circular_foundation_run (R : Type) glb_path output_path m t mt (fs : files) :
  add_circular_foundation gltf_objects glb_file (R := R) glb_path output_path m t mt fs =
  match mesh_objects gltf_objects glb_path with
  | [] =>
      (import_events glb_path ++ [Print [Lit "No mesh objects found in GLB file!"]],
       fs, Normal false)
  | first :: _ =>
      let s := scene_sizing gltf_objects glb_path m t mt in
      let built := import_events glb_path ++ build_events first s in
      if file_ext output_path =? ".stl" then
        (built ++ [Print [Lit "Exporting to STL: "; Str output_path];
                   StlExport output_path;
                   Print [Lit "Foundation added successfully!"]],
         {[output_path]} ∪ fs, Normal true)
      else if (file_ext output_path =? ".glb") || (file_ext output_path =? ".gltf") then
        (built ++ [Print [Lit "Exporting to GLB: "; Str output_path];
                   GltfExport output_path "GLB";
                   Print [Lit "Foundation added successfully!"]],
         {[glb_file output_path]} ∪ fs, Normal true)
      else
        (built ++ [Print [Lit "Unsupported format: "; Str (file_ext output_path)]],
         fs, Normal false)
  end.
Proof.
  unfold add_circular_foundation, call, scene_sizing, mesh_objects.
  destruct (List.filter is_mesh (gltf_objects glb_path)) as [|first rest]; [reflexivity|].
  destruct (bounding_box (first :: rest)) as [lo hi].
  unfold export_result.
  destruct (file_ext output_path =? ".stl"); [reflexivity|].
  destruct (_ || _); reflexivity.
Qed.

End Stage.

(** The sizing, formula by formula. *)
Lemma foundation_sizing_spec {A : Type} `{PyFloat A} (min_coords max_coords : vec3 A)
  (margin_ratio thickness_ratio min_thickness : A) :
  let s := foundation_sizing min_coords max_coords
             margin_ratio thickness_ratio min_thickness in
  x_size s = (vx max_coords - vx min_coords)%py /\
  y_size s = (vy max_coords - vy min_coords)%py /\
  max_dimension s = py_max (x_size s) (y_size s) /\
  foundation_radius s = ((max_dimension s / of_int 2) * (of_int 1 + margin_ratio))%py /\
  foundation_thickness s = py_max (max_dimension s * thickness_ratio)%py min_thickness /\
  center_x s = ((vx min_coords + vx max_coords) / of_int 2)%py /\
  center_y s = ((vy min_coords + vy max_coords) / of_int 2)%py /\
  foundation_z s = (vz min_coords - foundation_thickness s / of_int 2)%py.
Proof. cbn. repeat split; reflexivity. Qed.

(** C1.  The foundation stage computes the sizing by exactly the stated
    formulas, for every bounding box and every choice of the three
    parameters, and the cylinder it asks the host for has that radius, depth
    and location; on the box [(-1,-1,0)]-[(1,1,2)] with the defaults this is
    radius 1.1, thickness 0.1, centre (0,0) and z = -0.05, in binary64 as in
    exact arithmetic, and with a thickness ratio of 0.01 the floor of 0.05
    is the thickness. *)
Theorem C1_sizing_formulas :
  (forall (A : Type) (F : PyFloat A) (min_coords max_coords : vec3 A)
          (margin_ratio thickness_ratio min_thickness : A),
      let s := foundation_sizing min_coords max_coords
                 margin_ratio thickness_ratio min_thickness in
      x_size s = (vx max_coords - vx min_coords)%py /\
      y_size s = (vy max_coords - vy min_coords)%py /\
      max_dimension s = py_max (x_size s) (y_size s) /\
      foundation_radius s = ((max_dimension s / of_int 2) * (of_int 1 + margin_ratio))%py /\
      foundation_thickness s = py_max (max_dimension s * thickness_ratio)%py min_thickness /\
      center_x s = ((vx min_coords + vx max_coords) / of_int 2)%py /\
      center_y s = ((vy min_coords + vy max_coords) / of_int 2)%py /\
      foundation_z s = (vz min_coords - foundation_thickness s / of_int 2)%py) /\
  (forall (A : Type) (F : PyFloat A) (gltf_objects : string -> list (object A))
          (glb_file : string -> string)
          (glb_path output_path : string) (margin_ratio thickness_ratio min_thickness : A)
          (fs : files),
      List.filter is_cylinder
        (trace_of (add_circular_foundation gltf_objects glb_file (R := unit) glb_path output_path
                     margin_ratio thickness_ratio min_thickness fs)) =
      match mesh_objects gltf_objects glb_path with
      | [] => []
      | _ :: _ =>
          let s := scene_sizing gltf_objects glb_path
                     margin_ratio thickness_ratio min_thickness in
          [CylinderAdd (foundation_radius s) (foundation_thickness s)
             (center_x s, center_y s, foundation_z s) 64]
      end) /\
  (lit_0_1 = 0.1%float /\ lit_0_05 = 0.05%float) /\
  scene_sizing (fun _ => [box_mesh lo_f hi_f]) "model.glb" 0.1%float 0.05%float 0.05%float
    = Sizing 2%float 2%float 2%float 1.1%float 0.1%float 0%float 0%float (-0.05)%float /\
  foundation_thickness
    (scene_sizing (fun _ => [box_mesh lo_f hi_f]) "model.glb" 0.1%float 0.01%float 0.05%float)
    = 0.05%float /\
  (let s := foundation_sizing lo_x hi_x (xq 1 10) (xq 1 20) (xq 1 20) in
   foundation_radius s = xq 11 10 /\ foundation_thickness s = xq 1 10 /\
   center_x s = xq 0 1 /\ center_y s = xq 0 1 /\ foundation_z s = xq (-1) 20) /\
  foundation_thickness (foundation_sizing lo_x hi_x (xq 1 10) (xq 1 100) (xq 1 20)) = xq 1 20.
Proof.
  split; [|split; [|split; [|split; [|split; [|split]]]]].
  - intros A F lo hi m t mt. apply foundation_sizing_spec.
  - intros A F gltf written glb out m t mt fs.
    rewrite add_circular_foundation_run.
    destruct (mesh_objects gltf glb) as [|first rest]; [reflexivity|].
    cbv zeta. destruct (file_ext out =? ".stl"); [reflexivity|].
    destruct (_ || _); reflexivity.
  - split; vm_compute; reflexivity.
  - vm_compute. reflexivity.
  - vm_compute. reflexivity.
  - cbv zeta. repeat split; xnum_compute.
  - xnum_compute.
Qed.


(** C5.  When the imported scene holds no mesh object the stage reports it
    and returns failure at once: its events are those of the import and the
    one report, so no cylinder is asked for, nothing is exported and no file
    is written. *)
Theorem C5_no_mesh_objects_fails {A : Type} `{PyFloat A}
  (gltf_objects : string -> list (object A))
          (glb_file : string -> string) (glb_path output_path : string)
  (margin_ratio thickness_ratio min_thickness : A) (fs : files) :
  mesh_objects gltf_objects glb_path = [] ->
  let r := add_circular_foundation gltf_objects glb_file (R := unit) glb_path output_path
             margin_ratio thickness_ratio min_thickness fs in
  outcome_of r = Normal false /\
  trace_of r = import_events glb_path ++ [Print [Lit "No mesh objects found in GLB file!"]] /\
  List.filter is_cylinder (trace_of r) = [] /\
  List.filter is_export (trace_of r) = [] /\
  state_of r = fs.
Proof.
  intros E r. subst r. rewrite add_circular_foundation_run, E.
  repeat split.
Qed.

Lemma C5_no_mesh_objects_fails_witness :
  outcome_of (add_circular_foundation (fun _ => [empty_object]) fitted_glb (R := unit)
                "empty.glb" "out.stl" 0.1%float 0.05%float 0.05%float ∅) = Normal false.
Proof.
  exact (proj1 (C5_no_mesh_objects_fails (fun _ => [empty_object]) fitted_glb
                  "empty.glb" "out.stl" 0.1%float 0.05%float 0.05%float ∅ eq_refl)).
Defined.

Lemma supported_false (ext : string) :
  supported ext = false ->
  (ext =? ".stl") = false /\ ((ext =? ".glb") || (ext =? ".gltf")) = false.
Proof.
  unfold supported. intros E. apply orb_false_iff in E. exact E.
Qed.

(** C6.  An output path whose lower-cased extension is none of ".stl",
    ".glb", ".gltf" makes the stage return failure with no call of an
    exporter and no file written, and the merge-and-export step (reached
    when the scene has a mesh) ends on the report "Unsupported format",
    followed by the lower-cased extension when the path is ASCII; an ".stl"
    path goes to the STL exporter, which writes the file at the path, and a
    ".glb" or ".gltf" path goes to the glTF exporter, called with the path
    and the format GLB, which writes the file the host fits to that format;
    both answer success. *)
Theorem C6_export_by_extension {A : Type} `{PyFloat A}
  (gltf_objects : string -> list (object A)) (glb_file : string -> string)
  (glb_path output_path : string)
  (margin_ratio thickness_ratio min_thickness : A) (fs : files) :
  let r := add_circular_foundation gltf_objects glb_file (R := unit) glb_path output_path
             margin_ratio thickness_ratio min_thickness fs in
  let ext := file_ext output_path in
  (supported ext = false ->
   outcome_of r = Normal false /\ state_of r = fs /\
   List.filter is_export (trace_of r) = [] /\
   (mesh_objects gltf_objects glb_path <> [] ->
    exists shown,
      last (trace_of r) = Some (Print [Lit "Unsupported format: "; Str shown]) /\
      (isascii output_path = true -> shown = ext))) /\
  (mesh_objects gltf_objects glb_path <> [] -> ext = ".stl" ->
   outcome_of r = Normal true /\
   List.filter is_export (trace_of r) = [StlExport output_path] /\
   state_of r = {[output_path]} ∪ fs) /\
  (mesh_objects gltf_objects glb_path <> [] -> ext = ".glb" \/ ext = ".gltf" ->
   outcome_of r = Normal true /\
   List.filter is_export (trace_of r) = [GltfExport output_path "GLB"] /\
   state_of r = {[glb_file output_path]} ∪ fs).
Proof.
  intros r ext. subst r ext. rewrite add_circular_foundation_run.
  destruct (mesh_objects gltf_objects glb_path) as [|first rest].
  - split; [|split]; [|intros N; congruence..].
    intros _. repeat split. intros N. congruence.
  - cbv zeta. split; [|split].
    + intros U. destruct (supported_false _ U) as [E1 E2]. rewrite E1, E2.
      repeat split. intros _. exists (file_ext output_path). split; reflexivity.
    + intros _ E. rewrite E. repeat split.
    + intros _ E.
      assert (E1 : (file_ext output_path =? ".stl") = false)
        by (destruct E as [E|E]; rewrite E; reflexivity).
      assert (E2 : ((file_ext output_path =? ".glb") || (file_ext output_path =? ".gltf")) = true)
        by (destruct E as [E|E]; rewrite E; reflexivity).
      rewrite E1, E2. repeat split.
Qed.

Lemma C6_export_by_extension_witness :
  outcome_of (add_circular_foundation (fun _ => [box_mesh lo_f hi_f]) fitted_glb (R := unit)
                "model.glb" "model.obj" 0.1%float 0.05%float 0.05%float ∅) = Normal false /\
  outcome_of (add_circular_foundation (fun _ => [box_mesh lo_f hi_f]) fitted_glb (R := unit)
                "model.glb" "model.STL" 0.1%float 0.05%float 0.05%float ∅) = Normal true /\
  state_of (add_circular_foundation (fun _ => [box_mesh lo_f hi_f]) fitted_glb (R := unit)
              "model.glb" "based.gltf" 0.1%float 0.05%float 0.05%float ∅)
  = {[fitted_glb "based.gltf"]} ∪ ∅.
Proof.
  split; [|split].
  - exact (proj1 (proj1 (C6_export_by_extension (fun _ => [box_mesh lo_f hi_f]) fitted_glb
                           "model.glb" "model.obj" 0.1%float 0.05%float 0.05%float ∅)
                    eq_refl)).
  - refine (proj1 (proj1 (proj2 (C6_export_by_extension (fun _ => [box_mesh lo_f hi_f])
                           fitted_glb
                           "model.glb" "model.STL" 0.1%float 0.05%float 0.05%float ∅))
                    _ eq_refl)).
    discriminate.
  - refine (proj2 (proj2 (proj2 (proj2 (C6_export_by_extension
                           (fun _ => [box_mesh lo_f hi_f]) fitted_glb
                           "model.glb" "based.gltf" 0.1%float 0.05%float 0.05%float ∅))
                    _ (or_intror eq_refl)))).
    discriminate.
Defined.


(** Arithmetic of the exact numbers on zero and two. *)
Lemma xhalf_zero : (XFin 0 / of_int 2)%py = XFin 0.
Proof. xnum_compute. Qed.

Lemma xmul_zero_l (a : xnum) :
  (XFin 0 * a)%py = match a with XFin _ => XFin 0 | _ => XNaN end.
Proof.
  destruct a as [| |q|]; try reflexivity. cbn. f_equal. ring.
Qed.

(** What the stage does once the scene has a mesh: one cylinder, the join,
    and success exactly for an extension it exports to. *)
Lemma stage_builds {A : Type} `{PyFloat A} (gltf_objects : string -> list (object A))
  (glb_file : string -> string) (glb_path output_path : string)
  (margin_ratio thickness_ratio min_thickness : A) (fs : files) :
  mesh_objects gltf_objects glb_path <> [] ->
  let s := scene_sizing gltf_objects glb_path margin_ratio thickness_ratio min_thickness in
  let r := add_circular_foundation gltf_objects glb_file (R := unit) glb_path output_path
             margin_ratio thickness_ratio min_thickness fs in
  List.filter is_cylinder (trace_of r) =
    [CylinderAdd (foundation_radius s) (foundation_thickness s)
       (center_x s, center_y s, foundation_z s) 64] /\
  In Join (trace_of r) /\
  outcome_of r = Normal (supported (file_ext output_path)).
Proof.
  intros N s r. subst r. rewrite add_circular_foundation_run.
  destruct (mesh_objects gltf_objects glb_path) as [|first rest] eqn:M; [congruence|].
  cbv zeta. fold s. unfold supported.
  destruct (file_ext output_path =? ".stl").
  - cbn. repeat split. right. right. right. right. intuition.
  - destruct (_ || _); cbn; repeat split; right; right; right; right; intuition.
Qed.

(** C3, as the code has it.  A bounding box whose larger footprint dimension
    is 0 does not make the stage fail, whatever the three parameters: the
    stage asks the host for one cylinder of the radius and thickness it
    computed, joins it with the meshes and goes on to the export, answering
    success exactly when the extension of the output path is one it exports
    to.  The radius is 0 when [1 + margin_ratio] is finite and NaN
    otherwise; the thickness is [min_thickness] when [thickness_ratio] is
    finite and [0 < min_thickness], a zero when [thickness_ratio] is finite
    and [0 < min_thickness] does not hold, and NaN when [thickness_ratio] is
    infinite or NaN.  In exact arithmetic, and in binary64, where the
    footprint and the zeros are [== 0]. *)
Theorem C3_zero_footprint_is_built :
  (forall (gltf_objects : string -> list (object xnum)) (glb_file : string -> string)
          (glb_path output_path : string)
          (margin_ratio thickness_ratio min_thickness : xnum) (fs : files),
     mesh_objects gltf_objects glb_path <> [] ->
     max_dimension (scene_sizing gltf_objects glb_path
                      margin_ratio thickness_ratio min_thickness)
     = XFin 0 ->
     let s := scene_sizing gltf_objects glb_path
                margin_ratio thickness_ratio min_thickness in
     let r := add_circular_foundation gltf_objects glb_file (R := unit) glb_path output_path
                margin_ratio thickness_ratio min_thickness fs in
     List.filter is_cylinder (trace_of r) =
       [CylinderAdd (foundation_radius s) (foundation_thickness s)
          (center_x s, center_y s, foundation_z s) 64] /\
     In Join (trace_of r) /\
     outcome_of r = Normal (supported (file_ext output_path)) /\
     foundation_radius s
     = match (of_int 1 + margin_ratio)%py with XFin _ => XFin 0 | _ => XNaN end /\
     foundation_thickness s
     = match thickness_ratio with
       | XFin _ => if xlt (XFin 0) min_thickness then min_thickness else XFin 0
       | _ => XNaN
       end) /\
  (forall (gltf_objects : string -> list (object float)) (glb_file : string -> string)
          (glb_path output_path : string)
          (margin_ratio thickness_ratio min_thickness : float) (fs : files),
     mesh_objects gltf_objects glb_path <> [] ->
     PrimFloat.eqb (max_dimension (scene_sizing gltf_objects glb_path
                                     margin_ratio thickness_ratio min_thickness))
       0%float = true ->
     let s := scene_sizing gltf_objects glb_path
                margin_ratio thickness_ratio min_thickness in
     let r := add_circular_foundation gltf_objects glb_file (R := unit) glb_path output_path
                margin_ratio thickness_ratio min_thickness fs in
     List.filter is_cylinder (trace_of r) =
       [CylinderAdd (foundation_radius s) (foundation_thickness s)
          (center_x s, center_y s, foundation_z s) 64] /\
     In Join (trace_of r) /\
     outcome_of r = Normal (supported (file_ext output_path)) /\
     (is_finite_float (of_int 1 + margin_ratio)%py ->
      PrimFloat.eqb (foundation_radius s) 0%float = true) /\
     (~ is_finite_float (of_int 1 + margin_ratio)%py ->
      ~ is_number (foundation_radius s)) /\
     (is_finite_float thickness_ratio -> PrimFloat.ltb 0%float min_thickness = true ->
      foundation_thickness s = min_thickness) /\
     (is_finite_float thickness_ratio -> PrimFloat.ltb 0%float min_thickness = false ->
      PrimFloat.eqb (foundation_thickness s) 0%float = true) /\
     (~ is_finite_float thickness_ratio -> ~ is_number (foundation_thickness s))).
Proof.
  split.
  - intros gltf_objects glb_file glb_path output_path margin_ratio thickness_ratio
      min_thickness fs N Z s r.
    destruct (stage_builds gltf_objects glb_file glb_path output_path
                margin_ratio thickness_ratio min_thickness fs N) as (C & J & O).
    split; [exact C|]. split; [exact J|]. split; [exact O|].
    subst s. unfold scene_sizing in *.
    destruct (bounding_box (mesh_objects gltf_objects glb_path)) as [lo hi].
    destruct (foundation_sizing_spec lo hi margin_ratio thickness_ratio min_thickness)
      as (_ & _ & _ & Hr & Ht & _).
    split.
    + rewrite Hr, Z, xhalf_zero. apply xmul_zero_l.
    + rewrite Ht, Z, xmul_zero_l. destruct thickness_ratio; reflexivity.
  - intros gltf_objects glb_file glb_path output_path margin_ratio thickness_ratio
      min_thickness fs N Z s r.
    destruct (stage_builds gltf_objects glb_file glb_path output_path
                margin_ratio thickness_ratio min_thickness fs N) as (C & J & O).
    split; [exact C|]. split; [exact J|]. split; [exact O|].
    subst s. unfold scene_sizing in *.
    destruct (bounding_box (mesh_objects gltf_objects glb_path)) as [lo hi].
    destruct (foundation_sizing_spec lo hi margin_ratio thickness_ratio min_thickness)
      as (_ & _ & _ & Hr & Ht & _).
    set (s := foundation_sizing lo hi margin_ratio thickness_ratio min_thickness) in *.
    assert (Zh : (max_dimension s / of_int 2)%py = 0%float
                 \/ (max_dimension s / of_int 2)%py = (-0)%float)
      by (destruct (eqb_zero_cases _ Z) as [-> | ->]; [left|right]; reflexivity).
    pose proof (eqb_zero_cases _ Z) as Zc.
    split; [|split; [|split; [|split]]].
    + intros F. rewrite Hr. apply mul_zero_finite; assumption.
    + intros F. rewrite Hr. apply mul_zero_not_finite; assumption.
    + intros F L. rewrite Ht. unfold py_max. cbn [flt fmul float_PyFloat].
      rewrite (ltb_zero_l _ min_thickness (eqb_zero_cases _ (mul_zero_finite _ _ Zc F))), L.
      reflexivity.
    + intros F L. rewrite Ht. unfold py_max. cbn [flt fmul float_PyFloat].
      rewrite (ltb_zero_l _ min_thickness (eqb_zero_cases _ (mul_zero_finite _ _ Zc F))), L.
      apply mul_zero_finite; assumption.
    + intros F. rewrite Ht. unfold py_max. cbn [flt fmul float_PyFloat].
      pose proof (mul_zero_not_finite _ _ Zc F) as NN.
      destruct (PrimFloat.ltb _ min_thickness) eqn:L; [|exact NN].
      apply ltb_key in L. destruct L as (Nm & _). destruct (NN Nm).
Qed.

Lemma C3_zero_footprint_is_built_witness :
  outcome_of (add_circular_foundation
                (fun _ => [box_mesh (Vec (xq 1 1) (xq 2 1) (xq 3 1)) (Vec (xq 1 1) (xq 2 1) (xq 3 1))])
                fitted_glb (R := unit) "point.glb" "out.stl"
                (xq 1 10) (xq 1 20) (xq 1 20) ∅)
  = Normal true /\
  foundation_thickness (scene_sizing (fun _ => [point_mesh]) "point.glb"
                          0.1%float 0.05%float 0.05%float) = 0.05%float /\
  ~ is_number (foundation_thickness (scene_sizing (fun _ => [point_mesh]) "point.glb"
                                       0.1%float infinity 0.05%float)).
Proof.
  split; [|split].
  - refine (proj1 (proj2 (proj2
              (proj1 C3_zero_footprint_is_built
                 (fun _ => [box_mesh (Vec (xq 1 1) (xq 2 1) (xq 3 1)) (Vec (xq 1 1) (xq 2 1) (xq 3 1))])
                 fitted_glb "point.glb" "out.stl" (xq 1 10) (xq 1 20) (xq 1 20) ∅ _ _)))).
    + discriminate.
    + xnum_compute.
  - refine (proj1 (proj2 (proj2 (proj2 (proj2 (proj2
              (proj2 C3_zero_footprint_is_built
                 (fun _ => [point_mesh]) fitted_glb "point.glb" "out.stl"
                 0.1%float 0.05%float 0.05%float ∅ _ _)))))) _ _).
    + discriminate.
    + reflexivity.
    + exact I.
    + reflexivity.
  - refine (proj2 (proj2 (proj2 (proj2 (proj2 (proj2 (proj2
              (proj2 C3_zero_footprint_is_built
                 (fun _ => [point_mesh]) fitted_glb "point.glb" "out.stl"
                 0.1%float infinity 0.05%float ∅ _ _))))))) _).
    + discriminate.
    + reflexivity.
    + intros F. exact F.
Defined.

(** C3, as the claim has it, fails on a mesh that is a single point: the
    stage asks for a cylinder of radius 0, joins it, exports and returns
    success. *)
Lemma C3_point_mesh_counterexample :
  let r := add_circular_foundation (fun _ => [point_mesh]) fitted_glb (R := unit)
             "point.glb" "out.stl" 0.1%float 0.05%float 0.05%float ∅ in
  max_dimension (scene_sizing (fun _ => [point_mesh]) "point.glb"
                   0.1%float 0.05%float 0.05%float) = 0%float /\
  outcome_of r = Normal true /\
  List.filter is_cylinder (trace_of r)
    = [CylinderAdd 0%float 0.05%float (1%float, 2%float, 2.975%float) 64] /\
  In Join (trace_of r) /\
  In (StlExport "out.stl") (trace_of r) /\
  last (trace_of r) = Some (Print [Lit "Foundation added successfully!"]).
Proof.
  cbv zeta. split; [vm_compute; reflexivity|].
  split; [vm_compute; reflexivity|].
  split; [vm_compute; reflexivity|].
  split; [vm_compute; intuition|].
  split; [vm_compute; intuition|].
  vm_compute; reflexivity.
Qed.

End StageProofs.


(* ================================================================== *)
(** ** Scaling the model *)

Module ScalingProofs.
Import Foundation Scenario.
Local Open Scope Qc_scope.


















End ScalingProofs.


(* ================================================================== *)
(** ** The bounding box *)

Module BoundsProofs.
Import Foundation Scenario.

(** *** Folding a pick *)
Section Pick.
Variable T : Type.
Variable lt : T -> T -> bool.
Variable eqv : T -> T -> Prop.
Hypothesis eqv_refl : forall a, eqv a a.
Hypothesis eqv_trans : forall a b c, eqv a b -> eqv b c -> eqv a c.
Hypothesis lt_eqv : forall a a' x, eqv a a' -> lt x a = lt x a'.
Hypothesis lt_irrefl : forall a, lt a a = false.
Hypothesis lt_trans : forall a b c, lt a b = true -> lt b c = true -> lt a c = true.
Hypothesis lt_tricho :
  forall a x y, lt x a = true -> lt y a = true -> lt x y = false -> lt y x = false ->
                eqv x y.

Lemma pick_swap (a x y : T) : eqv (pick lt (pick lt a x) y) (pick lt (pick lt a y) x).
Proof.
  unfold pick.
  destruct (lt x a) eqn:Xa, (lt y a) eqn:Ya; rewrite ?Xa, ?Ya.
  - destruct (lt y x) eqn:Yx, (lt x y) eqn:Xy; try apply eqv_refl.
    + pose proof (lt_trans _ _ _ Yx Xy) as C. rewrite lt_irrefl in C. discriminate.
    + exact (lt_tricho a x y Xa Ya Xy Yx).
  - destruct (lt y x) eqn:Yx; [|apply eqv_refl].
    pose proof (lt_trans _ _ _ Yx Xa) as C. congruence.
  - destruct (lt x y) eqn:Xy; [|apply eqv_refl].
    pose proof (lt_trans _ _ _ Xy Ya) as C. congruence.
  - apply eqv_refl.
Qed.

Lemma pick_eqv (a a' x : T) : eqv a a' -> eqv (pick lt a x) (pick lt a' x).
Proof.
  intros E. unfold pick. rewrite <- (lt_eqv a a' x E).
  destruct (lt x a); [apply eqv_refl|exact E].
Qed.

Lemma fold_pick_eqv (l : list T) :
  forall a a', eqv a a' -> eqv (fold_left (pick lt) l a) (fold_left (pick lt) l a').
Proof.
  induction l as [|x l IH]; intros a a' E; cbn; [exact E|].
  apply IH, pick_eqv, E.
Qed.

Lemma fold_pick_perm (l l' : list T) :
  Permutation l l' ->
  forall a, eqv (fold_left (pick lt) l a) (fold_left (pick lt) l' a).
Proof.
  induction 1 as [|x l l' _ IH|x y l|l l' l'' _ IH1 _ IH2]; intros a; cbn.
  - apply eqv_refl.
  - apply IH.
  - apply fold_pick_eqv, pick_swap.
  - exact (eqv_trans _ _ _ (IH1 a) (IH2 a)).
Qed.

(** The fold ends on its start or strictly below it. *)
Lemma fold_pick_below (l : list T) :
  forall a, fold_left (pick lt) l a = a \/ lt (fold_left (pick lt) l a) a = true.
Proof.
  induction l as [|x l IH]; intros a; cbn; [left; reflexivity|].
  destruct (IH (pick lt a x)) as [E|L]; unfold pick in *; destruct (lt x a) eqn:Xa.
  - right. rewrite E. exact Xa.
  - left. exact E.
  - right. exact (lt_trans _ _ _ L Xa).
  - right. exact L.
Qed.

(** What is not below the start is not below the end. *)
Lemma fold_pick_keeps (l : list T) (a c : T) :
  lt c a = false -> lt c (fold_left (pick lt) l a) = false.
Proof.
  intros N. destruct (fold_pick_below l a) as [E|L]; [rewrite E; exact N|].
  destruct (lt c (fold_left (pick lt) l a)) eqn:C; [|reflexivity].
  rewrite (lt_trans _ _ _ C L) in N. discriminate.
Qed.

(** No element is below the end. *)
Lemma fold_pick_bound (l : list T) :
  forall a c, In c l -> lt c (fold_left (pick lt) l a) = false.
Proof.
  induction l as [|x l IH]; intros a c I; [destruct I|].
  destruct I as [E|I]; cbn.
  - subst c. apply fold_pick_keeps. unfold pick.
    destruct (lt x a) eqn:Xa; [apply lt_irrefl|exact Xa].
  - apply IH, I.
Qed.

(** The end is the start or an element. *)
Lemma fold_pick_in (l : list T) :
  forall a, fold_left (pick lt) l a = a \/ In (fold_left (pick lt) l a) l.
Proof.
  induction l as [|x l IH]; intros a; cbn; [left; reflexivity|].
  destruct (IH (pick lt a x)) as [E|I]; [|right; right; exact I].
  rewrite E. unfold pick. destruct (lt x a); [right; left|left]; reflexivity.
Qed.

End Pick.

(** *** The order of the exact numbers *)

Lemma xlt_irrefl (a : xnum) : xlt a a = false.
Proof.
  destruct a; cbn; try reflexivity. apply Qc_ltb_ge, Qcle_refl.
Qed.

Lemma xlt_trans (a b c : xnum) : xlt a b = true -> xlt b c = true -> xlt a c = true.
Proof.
  destruct a, b, c; cbn; try discriminate; try reflexivity.
  rewrite !Qc_ltb_lt. apply Qclt_trans.
Qed.

Lemma xlt_tricho (a x y : xnum) :
  xlt x a = true -> xlt y a = true -> xlt x y = false -> xlt y x = false -> x = y.
Proof.
  destruct x, y, a; cbn; try discriminate; try reflexivity.
  all: intros _ _ L1 L2; apply Qc_ltb_ge in L1, L2; f_equal; apply Qcle_antisym; assumption.
Qed.

Lemma xgt_irrefl (a : xnum) : xgt a a = false.
Proof. apply xlt_irrefl. Qed.

Lemma xgt_trans (a b c : xnum) : xgt a b = true -> xgt b c = true -> xgt a c = true.
Proof. unfold xgt. intros L1 L2. exact (xlt_trans _ _ _ L2 L1). Qed.

Lemma xgt_tricho (a x y : xnum) :
  xgt x a = true -> xgt y a = true -> xgt x y = false -> xgt y x = false -> x = y.
Proof.
  unfold xgt. destruct x, y, a; cbn; try discriminate; try reflexivity.
  all: intros _ _ L1 L2; apply Qc_ltb_ge in L1, L2; f_equal; apply Qcle_antisym; assumption.
Qed.

Lemma py_min_pick (a b : xnum) : py_min a b = pick xlt a b.
Proof. reflexivity. Qed.

Lemma py_max_pick (a b : xnum) : py_max a b = pick xgt a b.
Proof. reflexivity. Qed.

Lemma xle_of_not_lt (a b : xnum) : not_nan a -> not_nan b -> xlt b a = false -> xle a b = true.
Proof.
  destruct a, b; cbn; try contradiction; intros _ _ E; try rewrite E; try reflexivity;
    discriminate.
Qed.

Lemma not_below_inf (c : xnum) : not_nan c -> xlt c XPInf = false -> c = XPInf.
Proof. destruct c; cbn; try contradiction; try discriminate; reflexivity. Qed.

Lemma not_above_neg_inf (c : xnum) : not_nan c -> xgt c XNInf = false -> c = XNInf.
Proof. destruct c; cbn; try contradiction; try discriminate; reflexivity. Qed.

(** *** The accumulator, axis by axis *)

Lemma fold_update_bounds {A} `{PyFloat A} (cs : list (vec3 A)) :
  forall (acc : vec3 A * vec3 A) (i : axis),
    vget (fst (fold_left update_bounds cs acc)) i
      = fold_left py_min (coords i cs) (vget (fst acc) i) /\
    vget (snd (fold_left update_bounds cs acc)) i
      = fold_left py_max (coords i cs) (vget (snd acc) i).
Proof.
  induction cs as [|c cs IH]; intros [mn mx] i; cbn [fold_left coords map]; [split; reflexivity|].
  destruct (IH (update_bounds (mn, mx) c) i) as [E1 E2].
  rewrite E1, E2. destruct mn, mx, c, i; split; reflexivity.
Qed.

Lemma bounding_box_fold {A} `{PyFloat A} (objs : list (object A)) :
  bounding_box objs
  = fold_left update_bounds (all_corners objs)
      (Vec inf inf inf, Vec neg_inf neg_inf neg_inf).
Proof.
  unfold bounding_box, all_corners.
  generalize (Vec inf inf inf, Vec neg_inf neg_inf neg_inf).
  induction objs as [|o objs IH]; intros acc; cbn [fold_left flat_map]; [reflexivity|].
  rewrite fold_left_app. apply IH.
Qed.

Lemma bounding_box_axis {A} `{PyFloat A} (objs : list (object A)) (i : axis) :
  vget (fst (bounding_box objs)) i = fold_left py_min (coords i (all_corners objs)) inf /\
  vget (snd (bounding_box objs)) i = fold_left py_max (coords i (all_corners objs)) neg_inf.
Proof.
  rewrite bounding_box_fold.
  destruct (fold_update_bounds (all_corners objs)
              (Vec inf inf inf, Vec neg_inf neg_inf neg_inf) i) as [E1 E2].
  rewrite E1, E2. destruct i; split; reflexivity.
Qed.

Lemma vec3_ext {A} (u v : vec3 A) : (forall i, vget u i = vget v i) -> u = v.
Proof.
  intros E. destruct u, v. pose proof (E I0). pose proof (E I1). pose proof (E I2).
  cbn in *. congruence.
Qed.


Lemma coords_in {A} (i : axis) (cs : list (vec3 A)) (a : A) :
  In a (coords i cs) -> exists c, In c cs /\ vget c i = a.
Proof.
  unfold coords. rewrite in_map_iff. intros (c & E & I). exists c. split; assumption.
Qed.

Lemma in_coords {A} (i : axis) (cs : list (vec3 A)) (c : vec3 A) :
  In c cs -> In (vget c i) (coords i cs).
Proof. intros I. unfold coords. apply in_map_iff. exists c. split; [reflexivity|exact I]. Qed.

Lemma vnot_nan_axis (c : vec3 xnum) (i : axis) : vnot_nan c -> not_nan (vget c i).
Proof. intros (X & Y & Z). destruct i; assumption. Qed.

Lemma all_corners_nonempty {A} (objs : list (object A)) :
  objs <> [] -> Forall (fun o => length (bound_box o) = 8%nat) objs ->
  exists c, In c (all_corners objs).
Proof.
  intros N F. destruct objs as [|o objs]; [congruence|].
  inversion F as [|? ? L _]; subst.
  unfold all_corners. cbn [flat_map]. unfold bbox_corners.
  destruct (bound_box o) as [|c cs]; [discriminate L|].
  exists (matrix_world o c). apply in_or_app. left. left. reflexivity.
Qed.

(** The lower and the upper bound of one axis. *)
Lemma axis_min_spec (l : list xnum) :
  (forall a, In a l -> not_nan a) ->
  let m := fold_left py_min l XPInf in
  not_nan m /\ (forall a, In a l -> xle m a = true) /\ (l <> [] -> In m l).
Proof.
  intros NN m.
  assert (M : m = fold_left (pick xlt) l XPInf) by reflexivity.
  assert (B : forall a, In a l -> xlt a m = false)
    by (intros a I; rewrite M;
        apply fold_pick_bound; [exact xlt_irrefl|exact xlt_trans|exact I]).
  assert (C : m = XPInf \/ In m l) by (rewrite M; apply fold_pick_in).
  assert (Nm : not_nan m) by (destruct C as [E|I]; [rewrite E; exact Logic.I|apply NN, I]).
  split; [exact Nm|]. split.
  - intros a I. apply xle_of_not_lt; auto.
  - intros NE. destruct C as [E|I]; [|exact I].
    destruct l as [|a l]; [congruence|].
    assert (Ea : a = XPInf).
    { apply not_below_inf; [apply NN; left; reflexivity|].
      rewrite <- E. apply B. left. reflexivity. }
    rewrite E, <- Ea. left. reflexivity.
Qed.

Lemma axis_max_spec (l : list xnum) :
  (forall a, In a l -> not_nan a) ->
  let m := fold_left py_max l XNInf in
  not_nan m /\ (forall a, In a l -> xle a m = true) /\ (l <> [] -> In m l).
Proof.
  intros NN m.
  assert (M : m = fold_left (pick xgt) l XNInf) by reflexivity.
  assert (B : forall a, In a l -> xgt a m = false)
    by (intros a I; rewrite M;
        apply fold_pick_bound; [exact xgt_irrefl|exact xgt_trans|exact I]).
  assert (C : m = XNInf \/ In m l) by (rewrite M; apply fold_pick_in).
  assert (Nm : not_nan m) by (destruct C as [E|I]; [rewrite E; exact Logic.I|apply NN, I]).
  split; [exact Nm|]. split.
  - intros a I. apply xle_of_not_lt; auto. apply B, I.
  - intros NE. destruct C as [E|I]; [|exact I].
    destruct l as [|a l]; [congruence|].
    assert (Ea : a = XNInf).
    { apply not_above_neg_inf; [apply NN; left; reflexivity|].
      rewrite <- E. apply B. left. reflexivity. }
    rewrite E, <- Ea. left. reflexivity.
Qed.

(** The box does not depend on the order of the corners. *)
Lemma bounding_box_perm (objs objs' : list (object xnum)) :
  Permutation (all_corners objs') (all_corners objs) ->
  bounding_box objs' = bounding_box objs.
Proof.
  intros P.
  assert (Q : forall i, Permutation (coords i (all_corners objs')) (coords i (all_corners objs)))
    by (intros i; apply Permutation_map, P).
  destruct (bounding_box objs') as [lo' hi'] eqn:E', (bounding_box objs) as [lo hi] eqn:E.
  f_equal; apply vec3_ext; intros i;
    destruct (bounding_box_axis objs' i) as [A1 A2], (bounding_box_axis objs i) as [B1 B2];
    rewrite E' in *; rewrite E in *; cbn [fst snd] in *.
  - rewrite A1, B1.
    apply (fold_pick_perm xnum xlt eq (@eq_refl xnum) (@eq_trans xnum)
             (fun a a' x E => f_equal (xlt x) E) xlt_irrefl xlt_trans xlt_tricho), Q.
  - rewrite A2, B2.
    apply (fold_pick_perm xnum xgt eq (@eq_refl xnum) (@eq_trans xnum)
             (fun a a' x E => f_equal (xgt x) E) xgt_irrefl xgt_trans xgt_tricho), Q.
Qed.

Lemma vis_number_axis (c : vec3 float) (i : axis) : vis_number c -> is_number (vget c i).
Proof. intros (X & Y & Z). destruct i; assumption. Qed.

(** The lower and the upper bound of one axis, in binary64. *)
Lemma faxis_min_spec (l : list float) :
  (forall a, In a l -> is_number a) ->
  let m := fold_left py_min l infinity in
  is_number m /\ (forall a, In a l -> PrimFloat.leb m a = true) /\ (l <> [] -> In m l).
Proof.
  intros NN m.
  assert (M : m = fold_left (pick PrimFloat.ltb) l infinity) by reflexivity.
  assert (B : forall a, In a l -> PrimFloat.ltb a m = false)
    by (intros a I; rewrite M;
        apply fold_pick_bound; [exact fltb_irrefl|exact fltb_trans|exact I]).
  assert (C : m = infinity \/ In m l) by (rewrite M; apply fold_pick_in).
  assert (Nm : is_number m)
    by (destruct C as [E|I]; [rewrite E; apply is_number_infinity|apply NN, I]).
  split; [exact Nm|]. split.
  - intros a I. apply fle_of_not_lt; auto.
  - intros NE. destruct C as [E|I]; [|exact I].
    destruct l as [|a l]; [congruence|].
    assert (Ea : a = infinity).
    { apply not_below_infinity; [apply NN; left; reflexivity|].
      rewrite <- E. apply B. left. reflexivity. }
    rewrite E, <- Ea. left. reflexivity.
Qed.

Lemma faxis_max_spec (l : list float) :
  (forall a, In a l -> is_number a) ->
  let m := fold_left py_max l neg_infinity in
  is_number m /\ (forall a, In a l -> PrimFloat.leb a m = true) /\ (l <> [] -> In m l).
Proof.
  intros NN m.
  assert (M : m = fold_left (pick fgt) l neg_infinity) by reflexivity.
  assert (B : forall a, In a l -> fgt a m = false).
  { intros a I. rewrite M. apply fold_pick_bound; [|intros x y z|exact I].
    - intros x. apply fltb_irrefl.
    - unfold fgt. intros L1 L2. exact (fltb_trans _ _ _ L2 L1). }
  assert (C : m = neg_infinity \/ In m l) by (rewrite M; apply fold_pick_in).
  assert (Nm : is_number m)
    by (destruct C as [E|I]; [rewrite E; apply is_number_infinity|apply NN, I]).
  split; [exact Nm|]. split.
  - intros a I. apply fle_of_not_lt; auto. apply B, I.
  - intros NE. destruct C as [E|I]; [|exact I].
    destruct l as [|a l]; [congruence|].
    assert (Ea : a = neg_infinity).
    { apply not_above_neg_infinity; [apply NN; left; reflexivity|].
      rewrite <- E. apply B. left. reflexivity. }
    rewrite E, <- Ea. left. reflexivity.
Qed.

(** The bounds of an axis are numbers, whatever the corners. *)
Lemma fold_min_number (l : list float) : is_number (fold_left py_min l infinity).
Proof.
  change (is_number (fold_left (pick PrimFloat.ltb) l infinity)).
  destruct (fold_pick_below float PrimFloat.ltb fltb_trans l infinity) as [->|L];
    [apply is_number_infinity|].
  apply ltb_key in L. tauto.
Qed.

Lemma fold_max_number (l : list float) : is_number (fold_left py_max l neg_infinity).
Proof.
  change (is_number (fold_left (pick fgt) l neg_infinity)).
  assert (T : forall a b c, fgt a b = true -> fgt b c = true -> fgt a c = true)
    by (unfold fgt; intros a b c L1 L2; exact (fltb_trans _ _ _ L2 L1)).
  destruct (fold_pick_below float fgt T l neg_infinity) as [->|L];
    [apply is_number_infinity|].
  unfold fgt in L. apply ltb_key in L. tauto.
Qed.

(** In binary64 the bounds do not depend on the order of the corners, as
    [==] sees them (the sign of a zero may). *)
Lemma fbounding_box_perm (objs objs' : list (object float)) (i : axis) :
  Permutation (all_corners objs') (all_corners objs) ->
  PrimFloat.eqb (vget (fst (bounding_box objs')) i) (vget (fst (bounding_box objs)) i) = true /\
  PrimFloat.eqb (vget (snd (bounding_box objs')) i) (vget (snd (bounding_box objs)) i) = true.
Proof.
  intros P.
  assert (Q : Permutation (coords i (all_corners objs')) (coords i (all_corners objs)))
    by (apply Permutation_map, P).
  destruct (bounding_box_axis objs' i) as [A1 A2], (bounding_box_axis objs i) as [B1 B2].
  rewrite A1, A2, B1, B2. split.
  - apply feqv_eqb; [apply fold_min_number|].
    apply (fold_pick_perm float PrimFloat.ltb feqv feqv_refl feqv_trans fltb_feqv
             fltb_irrefl fltb_trans fltb_tricho), Q.
  - apply feqv_eqb; [apply fold_max_number|].
    apply (fold_pick_perm float fgt feqv feqv_refl feqv_trans fgt_feqv); [| |exact fgt_tricho|exact Q].
    + intros a. apply fltb_irrefl.
    + unfold fgt. intros a b c L1 L2. exact (fltb_trans _ _ _ L2 L1).
Qed.

(** The world-space corners are the corners of the objects, each taken
    through the transform of its object. *)
Lemma in_all_corners {A} (objs : list (object A)) (p : vec3 A) :
  In p (all_corners objs) <->
  exists o c, In o objs /\ In c (bound_box o) /\ p = matrix_world o c.
Proof.
  unfold all_corners, bbox_corners. rewrite in_flat_map. split.
  - intros (o & Io & Ip). apply in_map_iff in Ip. destruct Ip as (c & E & Ic).
    exists o, c. auto.
  - intros (o & c & Io & Ic & ->). exists o. split; [exact Io|].
    apply in_map_iff. exists c. auto.
Qed.

(** C2, as the code has it.  For a non-empty list of mesh objects of eight
    corners each, none of whose corners has a NaN coordinate once taken
    through the transform of its object, the accumulator started at
    (+inf, -inf) answers a box that contains every transformed corner, whose
    every bound is the coordinate of some transformed corner, and that lies
    within every box containing them all.  In exact arithmetic the box is
    the same for every order in which objects and corners are visited; in
    binary64 the bounds found in two orders are equal as numbers ([==]),
    which leaves the sign of a zero bound to the order. *)
Theorem C2_bounding_box_of_number_corners :
  (forall objs : list (object xnum),
     objs <> [] ->
     Forall (fun o => length (bound_box o) = 8%nat) objs ->
     (forall o c, In o objs -> In c (bound_box o) -> vnot_nan (matrix_world o c)) ->
     let min_coords := fst (bounding_box objs) in
     let max_coords := snd (bounding_box objs) in
     (forall o c i, In o objs -> In c (bound_box o) ->
        xle (vget min_coords i) (vget (matrix_world o c) i) = true /\
        xle (vget (matrix_world o c) i) (vget max_coords i) = true) /\
     (forall i, exists o c, In o objs /\ In c (bound_box o) /\
                            vget (matrix_world o c) i = vget min_coords i) /\
     (forall i, exists o c, In o objs /\ In c (bound_box o) /\
                            vget (matrix_world o c) i = vget max_coords i) /\
     (forall lo hi : vec3 xnum,
        (forall o c i, In o objs -> In c (bound_box o) ->
           xle (vget lo i) (vget (matrix_world o c) i) = true /\
           xle (vget (matrix_world o c) i) (vget hi i) = true) ->
        forall i, xle (vget lo i) (vget min_coords i) = true /\
                  xle (vget max_coords i) (vget hi i) = true) /\
     (forall objs' : list (object xnum),
        Permutation (flat_map (fun o => map (matrix_world o) (bound_box o)) objs')
                    (flat_map (fun o => map (matrix_world o) (bound_box o)) objs) ->
        bounding_box objs' = bounding_box objs)) /\
  (forall objs : list (object float),
     objs <> [] ->
     Forall (fun o => length (bound_box o) = 8%nat) objs ->
     (forall o c, In o objs -> In c (bound_box o) -> vis_number (matrix_world o c)) ->
     let min_coords := fst (bounding_box objs) in
     let max_coords := snd (bounding_box objs) in
     (forall o c i, In o objs -> In c (bound_box o) ->
        PrimFloat.leb (vget min_coords i) (vget (matrix_world o c) i) = true /\
        PrimFloat.leb (vget (matrix_world o c) i) (vget max_coords i) = true) /\
     (forall i, exists o c, In o objs /\ In c (bound_box o) /\
                            vget (matrix_world o c) i = vget min_coords i) /\
     (forall i, exists o c, In o objs /\ In c (bound_box o) /\
                            vget (matrix_world o c) i = vget max_coords i) /\
     (forall lo hi : vec3 float,
        (forall o c i, In o objs -> In c (bound_box o) ->
           PrimFloat.leb (vget lo i) (vget (matrix_world o c) i) = true /\
           PrimFloat.leb (vget (matrix_world o c) i) (vget hi i) = true) ->
        forall i, PrimFloat.leb (vget lo i) (vget min_coords i) = true /\
                  PrimFloat.leb (vget max_coords i) (vget hi i) = true) /\
     (forall (objs' : list (object float)) (i : axis),
        Permutation (flat_map (fun o => map (matrix_world o) (bound_box o)) objs')
                    (flat_map (fun o => map (matrix_world o) (bound_box o)) objs) ->
        PrimFloat.eqb (vget (fst (bounding_box objs')) i) (vget min_coords i) = true /\
        PrimFloat.eqb (vget (snd (bounding_box objs')) i) (vget max_coords i) = true)).
Proof.
  split.
  - intros objs NE L8 NN min_coords max_coords.
    destruct (all_corners_nonempty objs NE L8) as [c0 I0'].
    assert (NNi : forall i a, In a (coords i (all_corners objs)) -> not_nan a).
    { intros i a I. destruct (coords_in i _ a I) as (p & Ip & <-).
      apply vnot_nan_axis. apply in_all_corners in Ip.
      destruct Ip as (o & c & Io & Ic & ->). exact (NN o c Io Ic). }
    assert (NEi : forall i, coords i (all_corners objs) <> [])
      by (intros i E; apply (in_coords i) in I0'; rewrite E in I0'; destruct I0').
    assert (Lo : forall i, vget min_coords i
                           = fold_left py_min (coords i (all_corners objs)) XPInf)
      by (intros i; exact (proj1 (bounding_box_axis objs i))).
    assert (Hi : forall i, vget max_coords i
                           = fold_left py_max (coords i (all_corners objs)) XNInf)
      by (intros i; exact (proj2 (bounding_box_axis objs i))).
    assert (At1 : forall i, exists o c, In o objs /\ In c (bound_box o) /\
                                        vget (matrix_world o c) i = vget min_coords i).
    { intros i. destruct (axis_min_spec _ (NNi i)) as (_ & _ & A).
      rewrite <- Lo in A. destruct (coords_in i _ _ (A (NEi i))) as (p & Ip & E).
      apply in_all_corners in Ip. destruct Ip as (o & c & Io & Ic & ->).
      exists o, c. auto. }
    assert (At2 : forall i, exists o c, In o objs /\ In c (bound_box o) /\
                                        vget (matrix_world o c) i = vget max_coords i).
    { intros i. destruct (axis_max_spec _ (NNi i)) as (_ & _ & A).
      rewrite <- Hi in A. destruct (coords_in i _ _ (A (NEi i))) as (p & Ip & E).
      apply in_all_corners in Ip. destruct Ip as (o & c & Io & Ic & ->).
      exists o, c. auto. }
    split; [|split; [exact At1|split; [exact At2|split]]].
    + intros o c i Io Ic.
      assert (I : In (matrix_world o c) (all_corners objs))
        by (apply in_all_corners; exists o, c; auto).
      split.
      * destruct (axis_min_spec _ (NNi i)) as (_ & B & _).
        rewrite Lo. apply B, in_coords, I.
      * destruct (axis_max_spec _ (NNi i)) as (_ & B & _).
        rewrite Hi. apply B, in_coords, I.
    + intros lo hi B i.
      destruct (At1 i) as (o1 & c1 & Io1 & Ic1 & E1), (At2 i) as (o2 & c2 & Io2 & Ic2 & E2).
      rewrite <- E1, <- E2. split; [apply (B o1 c1 i Io1 Ic1)|apply (B o2 c2 i Io2 Ic2)].
    + intros objs' P. apply bounding_box_perm. exact P.
  - intros objs NE L8 NN min_coords max_coords.
    destruct (all_corners_nonempty objs NE L8) as [c0 I0'].
    assert (NNi : forall i a, In a (coords i (all_corners objs)) -> is_number a).
    { intros i a I. destruct (coords_in i _ a I) as (p & Ip & <-).
      apply vis_number_axis. apply in_all_corners in Ip.
      destruct Ip as (o & c & Io & Ic & ->). exact (NN o c Io Ic). }
    assert (NEi : forall i, coords i (all_corners objs) <> [])
      by (intros i E; apply (in_coords i) in I0'; rewrite E in I0'; destruct I0').
    assert (Lo : forall i, vget min_coords i
                           = fold_left py_min (coords i (all_corners objs)) infinity)
      by (intros i; exact (proj1 (bounding_box_axis objs i))).
    assert (Hi : forall i, vget max_coords i
                           = fold_left py_max (coords i (all_corners objs)) neg_infinity)
      by (intros i; exact (proj2 (bounding_box_axis objs i))).
    assert (At1 : forall i, exists o c, In o objs /\ In c (bound_box o) /\
                                        vget (matrix_world o c) i = vget min_coords i).
    { intros i. destruct (faxis_min_spec _ (NNi i)) as (_ & _ & A).
      rewrite <- Lo in A. destruct (coords_in i _ _ (A (NEi i))) as (p & Ip & E).
      apply in_all_corners in Ip. destruct Ip as (o & c & Io & Ic & ->).
      exists o, c. auto. }
    assert (At2 : forall i, exists o c, In o objs /\ In c (bound_box o) /\
                                        vget (matrix_world o c) i = vget max_coords i).
    { intros i. destruct (faxis_max_spec _ (NNi i)) as (_ & _ & A).
      rewrite <- Hi in A. destruct (coords_in i _ _ (A (NEi i))) as (p & Ip & E).
      apply in_all_corners in Ip. destruct Ip as (o & c & Io & Ic & ->).
      exists o, c. auto. }
    split; [|split; [exact At1|split; [exact At2|split]]].
    + intros o c i Io Ic.
      assert (I : In (matrix_world o c) (all_corners objs))
        by (apply in_all_corners; exists o, c; auto).
      split.
      * destruct (faxis_min_spec _ (NNi i)) as (_ & B & _).
        rewrite Lo. apply B, in_coords, I.
      * destruct (faxis_max_spec _ (NNi i)) as (_ & B & _).
        rewrite Hi. apply B, in_coords, I.
    + intros lo hi B i.
      destruct (At1 i) as (o1 & c1 & Io1 & Ic1 & E1), (At2 i) as (o2 & c2 & Io2 & Ic2 & E2).
      rewrite <- E1, <- E2. split; [apply (B o1 c1 i Io1 Ic1)|apply (B o2 c2 i Io2 Ic2)].
    + intros objs' i P. apply fbounding_box_perm. exact P.
Qed.

Lemma C2_bounding_box_witness :
  (exists o c, In o [box_mesh lo_x hi_x] /\ In c (bound_box o) /\
               vget (matrix_world o c) I0 = vget (fst (bounding_box [box_mesh lo_x hi_x])) I0) /\
  bounding_box [Object "MESH" (fun v => v) (rev (box_corners lo_x hi_x))]
  = bounding_box [box_mesh lo_x hi_x] /\
  (exists o c, In o [box_mesh lo_f hi_f] /\ In c (bound_box o) /\
               vget (matrix_world o c) I0 = vget (fst (bounding_box [box_mesh lo_f hi_f])) I0).
Proof.
  assert (NE : [box_mesh lo_x hi_x] <> []) by discriminate.
  assert (L8 : Forall (fun o : object xnum => length (bound_box o) = 8%nat)
                 [box_mesh lo_x hi_x]) by (repeat constructor).
  assert (NN : forall o c, In o [box_mesh lo_x hi_x] -> In c (bound_box o) ->
                           vnot_nan (matrix_world o c)).
  { intros o c [<-|[]] Ic. cbn in Ic.
    repeat (destruct Ic as [<-|Ic]; [repeat split|]). destruct Ic. }
  pose proof (proj1 C2_bounding_box_of_number_corners
                [box_mesh lo_x hi_x] NE L8 NN) as W.
  cbv zeta in W. destruct W as (_ & At & _ & _ & P).
  split; [exact (At I0)|]. split.
  - apply P.
    change (Permutation (rev (all_corners [box_mesh lo_x hi_x]))
              (all_corners [box_mesh lo_x hi_x])).
    symmetry. apply Permutation_rev.
  - assert (NEf : [box_mesh lo_f hi_f] <> []) by discriminate.
    assert (L8f : Forall (fun o : object float => length (bound_box o) = 8%nat)
                    [box_mesh lo_f hi_f]) by (repeat constructor).
    assert (NNf : forall o c, In o [box_mesh lo_f hi_f] -> In c (bound_box o) ->
                              vis_number (matrix_world o c)).
    { intros o c [<-|[]] Ic. cbn in Ic.
      repeat (destruct Ic as [<-|Ic]; [repeat split|]). destruct Ic. }
    pose proof (proj2 C2_bounding_box_of_number_corners
                  [box_mesh lo_f hi_f] NEf L8f NNf) as Wf.
    cbv zeta in Wf. destruct Wf as (_ & Atf & _).
    exact (Atf I0).
Defined.

(** C2, as the claim has it, fails on corners that are no numbers and on
    zeros of two signs, in binary64.  A corner with a NaN coordinate is
    skipped by [min] and [max], so the box does not contain it; a mesh of
    NaN corners only leaves the box at (+inf, -inf), a bound no corner
    attains; and a mesh whose corners have [+0.0] and [-0.0] in one
    coordinate has a lower bound [+0.0] in one order of its corners and
    [-0.0] in the reverse order. *)
Lemma C2_nan_and_zero_sign_counterexample :
  (In (Vec nan 0%float 0%float) (all_corners [nan_corner_mesh]) /\
   vget (fst (bounding_box [nan_corner_mesh])) I0 = 1%float /\
   PrimFloat.leb (vget (fst (bounding_box [nan_corner_mesh])) I0)
     (vget (Vec nan 0%float 0%float) I0) = false) /\
  (bounding_box [nan_mesh]
   = (Vec infinity infinity infinity, Vec neg_infinity neg_infinity neg_infinity) /\
   forall c i, In c (all_corners [nan_mesh]) ->
     PrimFloat.eqb (vget c i) (vget (fst (bounding_box [nan_mesh])) i) = false) /\
  (Permutation (all_corners [zeros_mesh_reversed]) (all_corners [zeros_mesh]) /\
   Prim2SF (vget (fst (bounding_box [zeros_mesh])) I0) = S754_zero false /\
   Prim2SF (vget (fst (bounding_box [zeros_mesh_reversed])) I0) = S754_zero true /\
   bounding_box [zeros_mesh_reversed] <> bounding_box [zeros_mesh]).
Proof.
  split; [|split].
  - split; [left; reflexivity|]. split; vm_compute; reflexivity.
  - split; [vm_compute; reflexivity|].
    intros c i I. cbn in I.
    repeat (destruct I as [<-|I]; [destruct i; vm_compute; reflexivity|]). destruct I.
  - split; [|split; [|split]].
    + change (Permutation (rev (all_corners [zeros_mesh])) (all_corners [zeros_mesh])).
      symmetry. apply Permutation_rev.
    + vm_compute. reflexivity.
    + vm_compute. reflexivity.
    + intros E. apply (f_equal (fun b => Prim2SF (vget (fst b) I0))) in E.
      vm_compute in E. discriminate E.
Qed.

End BoundsProofs.


(* ================================================================== *)
(** ** Laws of blocks *)

Lemma bind_ret_l {S E R X Y} (x : X) (k : X -> py S E R Y) (s : S) :
  bind (ret x) k s = k x s.
Proof. unfold bind, ret. destruct (k x s) as [[t s'] o]. reflexivity. Qed.

Lemma bind_path_exists {E R Y} (p : string) (k : bool -> py files E R Y) (fs : files) :
  bind (path_exists p) k fs = k (bool_decide (p ∈ fs)) fs.
Proof.
  unfold bind, path_exists. destruct (k (bool_decide (p ∈ fs)) fs) as [[t s'] o].
  reflexivity.
Qed.

(** Removing a file. *)
Lemma removed_gone (p : string) (fs : files) : p ∉ fs ∖ {[p]}.
Proof. rewrite elem_of_difference, elem_of_singleton. tauto. Qed.

Lemma removed_subseteq (p : string) (fs : files) : fs ∖ {[p]} ⊆ fs.
Proof. intros x [I _]%elem_of_difference. exact I. Qed.

(** A sequence that falls through: so did its first part, and the sequence
    ends as the rest does from there. *)
Lemma bind_normal_inv {S E R X Y} (m : py S E R X) (k : X -> py S E R Y) (s : S) (y : Y) :
  outcome_of (bind m k s) = Normal y ->
  exists x, outcome_of (m s) = Normal x /\
            outcome_of (k x (state_of (m s))) = Normal y /\
            state_of (bind m k s) = state_of (k x (state_of (m s))).
Proof.
  unfold bind, outcome_of, state_of.
  destruct (m s) as [[t1 s1] [x|r|e]]; cbn; try discriminate.
  destruct (k x s1) as [[t2 s2] o2] eqn:K; cbn. intros ->. exists x.
  rewrite K. cbn. repeat split.
Qed.

(** A sequence whose first part returns or raises ends there. *)
Lemma bind_return {S E R X Y} (m : py S E R X) (k : X -> py S E R Y) (s : S) (r : R) :
  outcome_of (m s) = Return r -> bind m k s = (trace_of (m s), state_of (m s), Return r).
Proof.
  unfold bind, outcome_of, state_of, trace_of.
  destruct (m s) as [[t1 s1] o]; cbn. intros ->. reflexivity.
Qed.

Lemma bind_raised {S E R X Y} (m : py S E R X) (k : X -> py S E R Y) (s : S) (e : exn) :
  outcome_of (m s) = Raised e -> bind m k s = (trace_of (m s), state_of (m s), Raised e).
Proof.
  unfold bind, outcome_of, state_of, trace_of.
  destruct (m s) as [[t1 s1] o]; cbn. intros ->. reflexivity.
Qed.

Lemma bind_normal {S E R X Y} (m : py S E R X) (k : X -> py S E R Y) (s : S) (x : X) :
  outcome_of (m s) = Normal x ->
  bind m k s
  = (trace_of (m s) ++ trace_of (k x (state_of (m s))),
     state_of (k x (state_of (m s))), outcome_of (k x (state_of (m s)))).
Proof.
  unfold bind, outcome_of, state_of, trace_of.
  destruct (m s) as [[t1 s1] o]; cbn. intros ->.
  destruct (k x s1) as [[t2 s2] o2]. reflexivity.
Qed.

(* ================================================================== *)
(** ** The repair script *)

Module RepairProofs.
Import Repair Scenario.

Section Steps.
Context {mesh faces : Type}.
Variable w : world mesh faces.
Variable fs : files.
Variable m : mesh.

Lemma fill_holes_step_run :
  fill_holes_step w (fs, Some m) =
  let '(m', failed) := fill_holes w m in
  match failed with
  | None => ([FillHoles], (fs, Some m'), Normal tt)
  | Some e =>
      if is_Exception e
      then ([FillHoles; Print [Lit "Warning: Could not fill holes: "; Exc e]],
            (fs, Some m'), Normal tt)
      else ([FillHoles], (fs, Some m'), Raised e)
  end.
Proof.
  unfold fill_holes_step, try_except, in_place, bind, the_mesh. cbn.
  destruct (fill_holes w m) as [m' [e|]]; cbn; [|reflexivity].
  destruct (is_Exception e); reflexivity.
Qed.

Lemma smoothing_step_run :
  smoothing_step w (fs, Some m) =
  match import_smoothing w with
  | Some e => handled_run w fs m [] e
  | None =>
      match smoothed w m with
      | inl m' => ([Smoothed], (fs, Some m'), Normal tt)
      | inr e => handled_run w fs m [Smoothed] e
      end
  end.
Proof.
  unfold smoothing_step, handled_run, fallback_run, try_except, in_place, assign, bind,
    the_mesh, raise_if, warn, emit, raise, ret.
  destruct (import_smoothing w) as [e|].
  - destruct (is_Exception e); [|reflexivity].
    destruct (is_AttributeError e); [|reflexivity].
    destruct (import_filter_laplacian w) as [e2|].
    + destruct (is_Exception e2); reflexivity.
    + destruct (filter_laplacian w m) as [m' [e2|]]; [|reflexivity].
      destruct (is_Exception e2); reflexivity.
  - destruct (smoothed w m) as [m'|e]; [reflexivity|].
    destruct (is_Exception e); [|reflexivity].
    destruct (is_AttributeError e); [|reflexivity].
    destruct (import_filter_laplacian w) as [e2|].
    + destruct (is_Exception e2); reflexivity.
    + destruct (filter_laplacian w m) as [m' [e2|]]; [|reflexivity].
      destruct (is_Exception e2); reflexivity.
Qed.

Lemma fallback_run_guarded (e : exn) :
  outcome_of (fallback_run w fs m) = Raised e -> is_Exception e = false.
Proof.
  unfold fallback_run.
  destruct (import_filter_laplacian w) as [e2|].
  - destruct (is_Exception e2) eqn:X; cbn; [discriminate|]. congruence.
  - destruct (filter_laplacian w m) as [m' [e2|]]; cbn; [|discriminate].
    destruct (is_Exception e2) eqn:X; cbn; [discriminate|]. congruence.
Qed.

Lemma handled_run_guarded (t : list (event mesh)) (e0 e : exn) :
  outcome_of (handled_run w fs m t e0) = Raised e -> is_Exception e = false.
Proof.
  unfold handled_run.
  destruct (is_Exception e0) eqn:X; [|cbn; congruence].
  destruct (is_AttributeError e0); [|cbn; discriminate].
  pose proof (fallback_run_guarded e) as G.
  destruct (fallback_run w fs m) as [[t' st] o]. exact G.
Qed.

Lemma unique_faces_step_run :
  unique_faces_step w (fs, Some m) =
  match unique_faces w m with
  | inr e => ([UniqueFaces], (fs, Some m), Raised e)
  | inl f =>
      let '(m', failed) := update_faces w m f in
      ([UniqueFaces; UpdateFaces], (fs, Some m'),
       match failed with Some e => Raised e | None => Normal tt end)
  end.
Proof.
  unfold unique_faces_step, in_place, bind, the_mesh, emit, raise. cbn.
  destruct (unique_faces w m) as [f|e]; [|reflexivity]. cbn.
  destruct (update_faces w m f) as [m' [e|]]; reflexivity.
Qed.

Lemma remove_unreferenced_step_run :
  remove_unreferenced_step w (fs, Some m) =
  let '(m', failed) := remove_unreferenced_vertices w m in
  ([RemoveUnreferencedVertices], (fs, Some m'),
   match failed with Some e => Raised e | None => Normal tt end).
Proof.
  unfold remove_unreferenced_step, in_place, bind, the_mesh. cbn.
  destruct (remove_unreferenced_vertices w m) as [m' [e|]]; reflexivity.
Qed.

End Steps.

(** A run of the script that ends normally has removed ["temp.stl"]. *)
Lemma script_removes_temp {mesh faces : Type} (w : world mesh faces)
  (sys_argv : list string) (st : state) :
  outcome_of (script w sys_argv st) = Normal tt ->
  temp_stl ∉ fst (state_of (script w sys_argv st)).
Proof.
  unfold script. intros N.
  repeat (apply bind_normal_inv in N; destruct N as (? & _ & N & ->)).
  revert N. match goal with |- context [on_files _ ?s] => generalize s end.
  intros [fs cell]. unfold on_files, os_remove, outcome_of, state_of.
  case_bool_decide as M; cbn; [|discriminate]. intros _. apply removed_gone.
Qed.

(** The smoothing block ends normally in one of three ways: [smoothed]
    answered a mesh, [filter_laplacian] worked on the mesh, or the last line
    printed is the warning. *)
Lemma fallback_run_normal {mesh faces : Type} (w : world mesh faces)
  (fs : files) (m : mesh) (t : list (event mesh)) :
  outcome_of (fallback_run w fs m) = Normal tt ->
  (import_filter_laplacian w = None /\
   exists m', filter_laplacian w m = (m', None) /\
              state_of (fallback_run w fs m) = (fs, Some m')) \/
  (exists e, is_Exception e = true /\
             last (t ++ trace_of (fallback_run w fs m))
             = Some (Print [Lit "Warning: Could not smooth mesh: "; Exc e])).
Proof.
  unfold fallback_run.
  destruct (import_filter_laplacian w) as [e2|].
  - destruct (is_Exception e2) eqn:X; cbn; [|discriminate].
    intros _. right. exists e2. split; [exact X|]. apply last_snoc.
  - destruct (filter_laplacian w m) as [m' [e2|]] eqn:F; cbn.
    + destruct (is_Exception e2) eqn:X; cbn; [|discriminate].
      intros _. right. exists e2. split; [exact X|].
      change (last (t ++ [FilterLaplacian] ++ [Print [Lit "Warning: Could not smooth mesh: "; Exc e2]])
              = Some (Print [Lit "Warning: Could not smooth mesh: "; Exc e2])).
      rewrite app_assoc. apply last_snoc.
    + intros _. left. split; [reflexivity|]. exists m'. split; reflexivity.
Qed.

Lemma handled_run_normal {mesh faces : Type} (w : world mesh faces)
  (fs : files) (m : mesh) (t : list (event mesh)) (e0 : exn) :
  outcome_of (handled_run w fs m t e0) = Normal tt ->
  (import_filter_laplacian w = None /\
   exists m', filter_laplacian w m = (m', None) /\
              state_of (handled_run w fs m t e0) = (fs, Some m')) \/
  (exists e, is_Exception e = true /\
             last (trace_of (handled_run w fs m t e0))
             = Some (Print [Lit "Warning: Could not smooth mesh: "; Exc e])).
Proof.
  unfold handled_run.
  destruct (is_Exception e0) eqn:X; [|cbn; discriminate].
  destruct (is_AttributeError e0).
  - pose proof (fallback_run_normal w fs m t) as G.
    destruct (fallback_run w fs m) as [[t' st] o]. exact G.
  - cbn. intros _. right. exists e0. split; [exact X|]. apply last_snoc.
Qed.

(** C8, as the code has it.  Hole filling and smoothing are each guarded: an
    [Exception] raised by [fill_holes] prints one warning and leaves the mesh
    as the call left it for the next step.  The smoothing block lets no
    [Exception] escape, and it warns on every way of leaving the mesh
    unsmoothed: when its first attempt (the import of [trimesh.smoothing],
    then [smoothed]) raises an [Exception] that is no [AttributeError]; and
    when, after an [AttributeError], the import of [filter_laplacian] or
    [filter_laplacian] itself raises an [Exception]; the mesh goes on as it
    was, or as [filter_laplacian] left it.  So a smoothing block that ends
    normally has a mesh answered by [smoothed], or worked on by
    [filter_laplacian], or has printed the warning last.  Face deduplication
    and the removal of unreferenced vertices are not guarded: an exception of
    [unique_faces], [update_faces] or [remove_unreferenced_vertices] ends
    the step, and with it the script. *)
Theorem C8_guarded_substeps {mesh faces : Type} (w : world mesh faces)
  (fs : files) (m : mesh) :
  (forall m' e, fill_holes w m = (m', Some e) -> is_Exception e = true ->
     fill_holes_step w (fs, Some m)
     = ([FillHoles; Print [Lit "Warning: Could not fill holes: "; Exc e]],
        (fs, Some m'), Normal tt)) /\
  (forall e, outcome_of (smoothing_step w (fs, Some m)) = Raised e ->
     is_Exception e = false) /\
  (forall t e,
     (import_smoothing w = Some e /\ t = []) \/
     (import_smoothing w = None /\ smoothed w m = inr e /\ t = [Smoothed]) ->
     is_Exception e = true ->
     (is_AttributeError e = false ->
      smoothing_step w (fs, Some m)
      = (t ++ [Print [Lit "Warning: Could not smooth mesh: "; Exc e]],
         (fs, Some m), Normal tt)) /\
     (forall e2, is_AttributeError e = true ->
        import_filter_laplacian w = Some e2 -> is_Exception e2 = true ->
        smoothing_step w (fs, Some m)
        = (t ++ [Print [Lit "Warning: Could not smooth mesh: "; Exc e2]],
           (fs, Some m), Normal tt)) /\
     (forall m' e2, is_AttributeError e = true ->
        import_filter_laplacian w = None -> filter_laplacian w m = (m', Some e2) ->
        is_Exception e2 = true ->
        smoothing_step w (fs, Some m)
        = (t ++ [FilterLaplacian; Print [Lit "Warning: Could not smooth mesh: "; Exc e2]],
           (fs, Some m'), Normal tt)) /\
     (forall m', is_AttributeError e = true ->
        import_filter_laplacian w = None -> filter_laplacian w m = (m', None) ->
        smoothing_step w (fs, Some m) = (t ++ [FilterLaplacian], (fs, Some m'), Normal tt))) /\
  (outcome_of (smoothing_step w (fs, Some m)) = Normal tt ->
   (import_smoothing w = None /\
    exists m', smoothed w m = inl m' /\
               smoothing_step w (fs, Some m) = ([Smoothed], (fs, Some m'), Normal tt)) \/
   (import_filter_laplacian w = None /\
    exists m', filter_laplacian w m = (m', None) /\
               state_of (smoothing_step w (fs, Some m)) = (fs, Some m')) \/
   (exists e, is_Exception e = true /\
              last (trace_of (smoothing_step w (fs, Some m)))
              = Some (Print [Lit "Warning: Could not smooth mesh: "; Exc e]))) /\
  (forall e, unique_faces w m = inr e ->
     unique_faces_step w (fs, Some m) = ([UniqueFaces], (fs, Some m), Raised e)) /\
  (forall f m' e, unique_faces w m = inl f -> update_faces w m f = (m', Some e) ->
     unique_faces_step w (fs, Some m)
     = ([UniqueFaces; UpdateFaces], (fs, Some m'), Raised e)) /\
  (forall m' e, remove_unreferenced_vertices w m = (m', Some e) ->
     remove_unreferenced_step w (fs, Some m)
     = ([RemoveUnreferencedVertices], (fs, Some m'), Raised e)).
Proof.
  split; [|split; [|split; [|split; [|split; [|split]]]]].
  - intros m' e F X. rewrite fill_holes_step_run, F, X. reflexivity.
  - intros e. rewrite smoothing_step_run.
    destruct (import_smoothing w) as [e0|]; [apply handled_run_guarded|].
    destruct (smoothed w m) as [m'|e0]; [discriminate|apply handled_run_guarded].
  - intros t e First X.
    assert (E : smoothing_step w (fs, Some m) = handled_run w fs m t e).
    { rewrite smoothing_step_run.
      destruct First as [(I & ->)|(I & S & ->)]; rewrite I; [reflexivity|].
      rewrite S. reflexivity. }
    rewrite E. unfold handled_run, fallback_run. rewrite X.
    split; [|split; [|split]].
    + intros NA. rewrite NA. reflexivity.
    + intros e2 AE I2 X2. rewrite AE, I2, X2. reflexivity.
    + intros m' e2 AE I2 F X2. rewrite AE, I2, F, X2. reflexivity.
    + intros m' AE I2 F. rewrite AE, I2, F. reflexivity.
  - rewrite smoothing_step_run.
    destruct (import_smoothing w) as [e0|].
    + intros N. right. apply handled_run_normal, N.
    + destruct (smoothed w m) as [m'|e0].
      * intros _. left. split; [reflexivity|]. exists m'. split; reflexivity.
      * intros N. right. apply handled_run_normal, N.
  - intros e U. rewrite unique_faces_step_run, U. reflexivity.
  - intros f m' e U F. rewrite unique_faces_step_run, U, F. reflexivity.
  - intros m' e F. rewrite remove_unreferenced_step_run, F. reflexivity.
Qed.

Lemma C8_guarded_substeps_witness :
  fill_holes_step holes_fail (∅, Some O)
  = ([FillHoles;
      Print [Lit "Warning: Could not fill holes: "; Exc (Exn ValueError "not watertight")]],
     (∅, Some O), Normal tt) /\
  smoothing_step smoothing_fails (∅, Some 3%nat)
  = ([Smoothed;
      Print [Lit "Warning: Could not smooth mesh: "; Exc (Exn RuntimeError "smoothing failed")]],
     (∅, Some 3%nat), Normal tt) /\
  smoothing_step fallback_fails (∅, Some 3%nat)
  = ([Smoothed; FilterLaplacian;
      Print [Lit "Warning: Could not smooth mesh: "; Exc (Exn ValueError "no neighbours")]],
     (∅, Some 3%nat), Normal tt).
Proof.
  split; [|split].
  - exact (proj1 (C8_guarded_substeps holes_fail ∅ O)
             O (Exn ValueError "not watertight") eq_refl eq_refl).
  - exact (proj1 (proj1 (proj2 (proj2 (C8_guarded_substeps smoothing_fails ∅ 3%nat)))
                    [Smoothed] (Exn RuntimeError "smoothing failed")
                    (or_intror (conj eq_refl (conj eq_refl eq_refl))) eq_refl)
             eq_refl).
  - exact (proj1 (proj2 (proj2 (proj1 (proj2 (proj2 (C8_guarded_substeps fallback_fails ∅ 3%nat)))
                    [Smoothed] (Exn AttributeError "no attribute smoothed")
                    (or_intror (conj eq_refl (conj eq_refl eq_refl))) eq_refl)))
             3%nat (Exn ValueError "no neighbours") eq_refl eq_refl eq_refl eq_refl).
Defined.

(** C8, as the claim has it, fails on face deduplication: when
    [unique_faces] raises, no warning is printed and nothing is exported; the
    script ends on the exception with status 1, leaving ["temp.stl"]
    behind. *)
Lemma C8_face_deduplication_counterexample :
  let r := script dedup_fails ["glb_to_stl.py"; "in.glb"; "out.stl"] (∅, None) in
  outcome_of r = Raised (Exn RuntimeError "unique_faces failed") /\
  exit_status (outcome_of r) = 1%Z /\
  trace_of r
  = [Print [Lit "Converting "; Str "in.glb"; Lit " to STL..."];
     Run ["assimp"; "export"; "in.glb"; "temp.stl"];
     Print [Lit "Loading and repairing mesh..."];
     Load "temp.stl"; FillHoles; UniqueFaces] /\
  elements (fst (state_of r)) = ["temp.stl"].
Proof.
  cbv zeta. repeat split; vm_compute; reflexivity.
Qed.

End RepairProofs.


(* ================================================================== *)
(** ** The driver *)

Module PipelineProofs.
Import Pipeline Scenario.

Section Driver.
Context {mesh faces : Type}.
Variable w : world mesh faces.

(** The driver past its argument handling, for an input that exists. *)
Lemma main_run (prog input_glb output_stl : string) (rest : list string) (fs : files) :
  input_glb ∈ fs ->
  main w (R := unit) (prog :: input_glb :: output_stl :: rest) fs =
  call tt
    (step1 w input_glb ;;;
     step2 w ;;;
     step3 w output_stl (arg_or rest 0 "0.1") (arg_or rest 1 "0.05") ;;;
     print [Lit (newline +:+ "🎉 Success! Process completed:")] ;;;
     print [Lit "   Input:  "; Str input_glb] ;;;
     print [Lit "   Output: "; Str output_stl] ;;;
     print [Lit "   Applied trimesh smoothing + circular foundation"])%pym fs.
Proof.
  intros I. unfold main, call, subscript, arg_or.
  destruct rest as [|a [|b rest']]; cbn [length Nat.ltb Nat.leb nth_error];
    rewrite !bind_ret_l, bind_path_exists, (bool_decide_eq_true_2 _ I); reflexivity.
Qed.

Lemma step1_run (input_glb : string) (fs : files) :
  step1 w input_glb fs =
  let '(t1, (fs1, _), o1) := repair_run w input_glb fs in
  let started :=
    Print [Lit "Step 1: Smoothing GLB with trimesh..."]
    :: Run [executable w; glb_to_stl_script w; input_glb; temp_smoothed_stl w]
    :: map Child t1 in
  if (exit_status o1 =? 0)%Z then
    (started ++ [Print [Lit "✓ Smoothed STL created: "; Str (temp_smoothed_stl w)]],
     fs1, Normal tt)
  else
    (started ++ [Print [Lit "Error in trimesh smoothing: ";
                        Exc (Exn CalledProcessError "returned non-zero exit status")]],
     fs1, Return tt).
Proof.
  unfold step1, try_except, bind, run_repair, repair_run, print, emit, return_. cbn [tl].
  destruct (Repair.script _ _ _) as [[t1 [fs1 cell]] o1].
  destruct (exit_status o1 =? 0)%Z; cbn; rewrite ?app_nil_r; reflexivity.
Qed.

Lemma remove_if_exists_run {R} (p : string) (after : py files (event mesh) R unit)
  (fs : files) :
  remove_if_exists p after fs =
  if bool_decide (p ∈ fs)
  then let '(t, fs', o) := after (fs ∖ {[p]}) in (Removed p :: t, fs', o)
  else ([], fs, Normal tt).
Proof.
  unfold remove_if_exists, bind, path_exists, os_remove, pass, ret.
  case_bool_decide as M; [|reflexivity].
  rewrite (bool_decide_eq_true_2 _ M).
  destruct (after (fs ∖ {[p]})) as [[t fs'] o]. reflexivity.
Qed.

(** After [remove_if_exists p], [p] is gone, and nothing has come. *)
Lemma remove_if_exists_gone (p : string) (line : list piece) (fs : files) :
  outcome_of (remove_if_exists (mesh := mesh) (R := unit) p (print line) fs) = Normal tt /\
  (p ∉ state_of (remove_if_exists (mesh := mesh) (R := unit) p (print line) fs)) /\
  (state_of (remove_if_exists (mesh := mesh) (R := unit) p (print line) fs) ⊆ fs).
Proof.
  rewrite remove_if_exists_run. unfold print, emit, outcome_of, state_of.
  case_bool_decide as M; cbn; (split; [reflexivity|split]).
  - apply removed_gone.
  - apply removed_subseteq.
  - exact M.
  - reflexivity.
Qed.

Lemma step2_run (fs : files) :
  step2 w fs =
  let started :=
    [Print [Lit "Step 2: Converting smoothed STL to temporary GLB..."];
     Run ["assimp"; "export"; temp_smoothed_stl w; temp_glb w]] in
  match assimp w with
  | Exits code effect =>
      if (code =? 0)%Z
      then (started ++ [Print [Lit "✓ Temporary GLB created: "; Str (temp_glb w)]],
            effect fs, Normal tt)
      else step2_failed w started
             (Exn CalledProcessError "returned non-zero exit status") (effect fs)
  | CannotStart e =>
      if is_CalledProcessError e then step2_failed w started e fs
      else (started, fs, Raised e)
  end.
Proof.
  unfold step2, step2_failed. generalize (temp_smoothed_stl w) (temp_glb w). intros ts tg.
  unfold try_except, bind, subprocess_run, print, emit, return_.
  destruct (assimp w) as [code effect|e].
  - destruct (code =? 0)%Z; [reflexivity|]. cbn [is_CalledProcessError cls].
    rewrite remove_if_exists_run. unfold pass, ret.
    case_bool_decide; reflexivity.
  - destruct (is_CalledProcessError e); [|reflexivity].
    rewrite remove_if_exists_run. unfold pass, ret.
    case_bool_decide; reflexivity.
Qed.

(** Step 2 after a failed conversion: the smoothed STL is gone. *)
Lemma step2_cleans (fs : files) (code : Z) (effect : files -> files) :
  assimp w = Exits code effect -> code <> 0%Z ->
  outcome_of (step2 w fs) = Return tt /\ temp_smoothed_stl w ∉ state_of (step2 w fs).
Proof.
  intros A N. apply Z.eqb_neq in N.
  rewrite step2_run, A, N. cbv zeta. unfold step2_failed, outcome_of, state_of.
  case_bool_decide as M; cbn; (split; [reflexivity|]).
  - apply removed_gone.
  - exact M.
Qed.

Lemma step2_converts (fs : files) (effect : files -> files) :
  assimp w = Exits 0 effect ->
  outcome_of (step2 w fs) = Normal tt /\ state_of (step2 w fs) = effect fs.
Proof.
  intros A. rewrite step2_run, A. split; reflexivity.
Qed.

(** After the cleanup both temporary files are gone. *)
Lemma cleanup_gone (fs : files) :
  outcome_of (cleanup w fs) = Normal tt /\
  (temp_smoothed_stl w ∉ state_of (cleanup w fs)) /\
  (temp_glb w ∉ state_of (cleanup w fs)).
Proof.
  unfold cleanup. generalize (temp_smoothed_stl w) (temp_glb w). intros ts tg.
  unfold for_each, bind.
  pose proof (remove_if_exists_gone ts [Lit "Cleaned up: "; Str ts] fs) as (O1 & G1 & S1).
  destruct (remove_if_exists ts _ fs) as [[t1 fs1] o1].
  unfold outcome_of, state_of in *. cbn [fst snd] in *. subst o1.
  pose proof (remove_if_exists_gone tg [Lit "Cleaned up: "; Str tg] fs1) as (O2 & G2 & S2).
  destruct (remove_if_exists tg _ fs1) as [[t2 fs2] o2].
  unfold outcome_of, state_of in *. cbn [fst snd] in *. subst o2.
  cbn. split; [reflexivity|]. split; [|exact G2].
  intros I. apply G1, S2, I.
Qed.

Lemma step3_run (output_stl margin_ratio thickness_ratio : string) (fs : files) :
  step3 w output_stl margin_ratio thickness_ratio fs =
  let '(t1, fs1, o1) := run_blender w output_stl margin_ratio thickness_ratio fs in
  let '(t2, fs2, o2) := cleanup w fs1 in
  (Print [Lit "Step 3: Adding foundation with Blender..."] :: t1 ++ t2, fs2,
   match o2 with
   | Normal _ => o1
   | Return r => Return r
   | Raised e => Raised e
   end).
Proof.
  unfold step3, bind, print at 1, emit, try_finally.
  destruct (run_blender w output_stl margin_ratio thickness_ratio fs) as [[t1 fs1] o1].
  destruct (cleanup w fs1) as [[t2 fs2] o2]. reflexivity.
Qed.

(** Step 3, however the host ends: both temporary files are gone. *)
Lemma step3_cleans (output_stl margin_ratio thickness_ratio : string) (fs : files) :
  (temp_smoothed_stl w ∉ state_of (step3 w output_stl margin_ratio thickness_ratio fs)) /\
  (temp_glb w ∉ state_of (step3 w output_stl margin_ratio thickness_ratio fs)).
Proof.
  rewrite step3_run.
  destruct (run_blender w output_stl margin_ratio thickness_ratio fs) as [[t1 fs1] o1].
  pose proof (cleanup_gone fs1) as (_ & G1 & G2).
  destruct (cleanup w fs1) as [[t2 fs2] o2]. exact (conj G1 G2).
Qed.

(** C7, as the code has it.  For a run on an input that exists: the repair
    script, when it ends normally, has removed its ["temp.stl"]; when the
    repair stage fails the driver reports it and returns with the files as
    the failed script left them, removing nothing; when the conversion exits
    with a status other than zero the driver removes the smoothed STL before
    it returns; and once the conversion has succeeded, the smoothed STL and
    the temporary GLB are both removed, whether the host succeeds, fails or
    cannot be started. *)
Theorem C7_cleanup_by_stage (prog input_glb output_stl : string) (rest : list string)
  (fs : files) :
  input_glb ∈ fs ->
  let r := main w (R := unit) (prog :: input_glb :: output_stl :: rest) fs in
  let child := repair_run w input_glb fs in
  (outcome_of child = Normal tt -> Repair.temp_stl ∉ fst (state_of child)) /\
  (exit_status (outcome_of child) <> 0%Z ->
   outcome_of r = Normal tt /\
   state_of r = fst (state_of child) /\
   trace_of r
   = Print [Lit "Step 1: Smoothing GLB with trimesh..."]
     :: Run [executable w; glb_to_stl_script w; input_glb; temp_smoothed_stl w]
     :: map Child (trace_of child)
     ++ [Print [Lit "Error in trimesh smoothing: ";
                Exc (Exn CalledProcessError "returned non-zero exit status")]]) /\
  (exit_status (outcome_of child) = 0%Z ->
   (forall code effect, assimp w = Exits code effect -> code <> 0%Z ->
      outcome_of r = Normal tt /\ (temp_smoothed_stl w ∉ state_of r)) /\
   (forall effect, assimp w = Exits 0 effect ->
      (temp_smoothed_stl w ∉ state_of r) /\ (temp_glb w ∉ state_of r))).
Proof.
  intros I r child.
  split; [intros N; apply RepairProofs.script_removes_temp, N|].
  assert (S1 := step1_run input_glb fs). fold child in S1.
  assert (Er := main_run prog input_glb output_stl rest fs I). fold r in Er. clearbody r.
  unfold call in Er. unfold bind at 1 in Er. rewrite S1 in Er. clear S1.
  destruct child as [[t1 [fs1 cell]] o1]. unfold outcome_of, state_of, trace_of. cbn [fst snd].
  split.
  - intros N. apply Z.eqb_neq in N. rewrite N in Er. cbv beta iota zeta in Er.
    subst r. repeat split.
  - intros N. apply Z.eqb_eq in N. rewrite N in Er. cbv beta iota zeta in Er.
    unfold bind at 1 in Er. split.
    + intros code effect A C. destruct (step2_cleans fs1 code effect A C) as [O G].
      destruct (step2 w fs1) as [[t2 fs2] o2]. unfold outcome_of, state_of in *.
      cbn [fst snd] in *. subst o2. cbv beta iota zeta in Er. subst r.
      split; [reflexivity|exact G].
    + intros effect A. destruct (step2_converts fs1 effect A) as [O _].
      destruct (step2 w fs1) as [[t2 fs2] o2]. unfold outcome_of in O. cbn [snd] in O.
      subst o2. cbv beta iota zeta in Er. unfold bind at 1 in Er.
      pose proof (step3_cleans output_stl (arg_or rest 0 "0.1") (arg_or rest 1 "0.05") fs2)
        as G.
      destruct (step3 w _ _ _ fs2) as [[t3 fs3] o3]. unfold state_of in G. cbn [fst snd] in G.
      destruct o3; cbn in Er; subst r; exact G.
Qed.

End Driver.

Lemma C7_cleanup_by_stage_witness :
  let r := main (driver_world healthy (Exits 1 (fun fs => fs)) (writes "out.stl"))
             (R := unit) driver_argv {["model.glb"]} in
  outcome_of r = Normal tt /\ ("/tmp/smoothed_temp.stl" ∉ state_of r).
Proof.
  refine (proj1 (proj2 (proj2
            (C7_cleanup_by_stage
               (driver_world healthy (Exits 1 (fun fs => fs)) (writes "out.stl"))
               "process_with_foundation.py" "model.glb" "out.stl" [] {["model.glb"]} _))
            _) 1%Z (fun fs => fs) eq_refl _).
  - set_solver.
  - vm_compute. reflexivity.
  - discriminate.
Defined.

(** C7, as the claim has it, fails in two ways.  When the repair stage
    fails after the converter has written ["temp.stl"], the driver returns
    with that file in place and has removed nothing.  And when the converter
    of step 2 cannot be started, the exception is not the one the handler
    catches: the driver ends on it with the smoothed STL of step 1 in
    place. *)
Lemma C7_cleanup_counterexample :
  (let r := main (driver_world load_fails (writes "/tmp/smoothed_temp.glb") (writes "out.stl"))
              (R := unit) driver_argv {["model.glb"]} in
   outcome_of r = Normal tt /\
   elements (state_of r) = ["model.glb"; "temp.stl"] /\
   List.filter is_removed (trace_of r) = [] /\
   last (trace_of r)
   = Some (Print [Lit "Error in trimesh smoothing: ";
                  Exc (Exn CalledProcessError "returned non-zero exit status")])) /\
  (let r := main (driver_world healthy (CannotStart (Exn FileNotFoundError "assimp"))
                    (writes "out.stl"))
              (R := unit) driver_argv {["model.glb"]} in
   outcome_of r = Raised (Exn FileNotFoundError "assimp") /\
   elements (state_of r) = ["/tmp/smoothed_temp.stl"; "model.glb"] /\
   List.filter is_removed (trace_of r) = [Child (Repair.Removed "temp.stl")]).
Proof.
  cbv zeta. repeat split; vm_compute; reflexivity.
Qed.

End PipelineProofs.


(* ================================================================== *)
(** ** The command lines *)

Module ToolsProofs.
Import Scenario.

Section FoundationTool.
Import Foundation.
Context {A : Type} `{PyFloat A}.
Variable gltf_objects : string -> list (object A).
Variable glb_file : string -> string.
Variable float_of_str : string -> option A.

Lemma ratio_arg_run {R} (argv : list string) (i : nat) (default a : A) (fs : files) :
  ratio_arg float_of_str argv i default = Some a ->
  (if (i <? length argv)%nat
   then (x <- subscript argv i ;; float_ float_of_str x)%pym
   else ret default) fs
  = ([] : list (event A), fs, Normal a : outcome R A).
Proof.
  unfold ratio_arg, subscript, float_.
  destruct (i <? length argv)%nat; [|intros [= ->]; reflexivity].
  destruct (nth_error argv i) as [x|]; [|discriminate].
  intros P. rewrite bind_ret_l, P. reflexivity.
Qed.

(** The tool short of two paths after the guard. *)
Lemma main_index_error (sys_argv : list string) (fs : files) :
  (6 <= length sys_argv)%nat -> (length (positional sys_argv) < 2)%nat ->
  main gltf_objects glb_file float_of_str (R := unit) sys_argv fs
  = ([], fs, Raised (Exn IndexError "list index out of range")).
Proof.
  intros L P. unfold main, call.
  apply Nat.ltb_ge in L. rewrite L.
  destruct (positional sys_argv) as [|x [|y rest]]; [reflexivity|reflexivity|].
  cbn in P. lia.
Qed.

Lemma bind_pure {S E R X Y} (m : py S E R X) (k : X -> py S E R Y) (s : S) (x : X) :
  m s = ([], s, Normal x) -> bind m k s = k x s.
Proof.
  intros P. unfold bind. rewrite P. destruct (k x s) as [[t s'] o]. reflexivity.
Qed.

(** The tool with both paths and ratios that parse, on a missing input. *)
Lemma main_not_found (sys_argv : list string) (input_file output_file : string)
  (rest : list string) (m t : A) (fs : files) :
  (6 <= length sys_argv)%nat ->
  positional sys_argv = input_file :: output_file :: rest ->
  ratio_arg float_of_str (positional sys_argv) 2 lit_0_1 = Some m ->
  ratio_arg float_of_str (positional sys_argv) 3 lit_0_05 = Some t ->
  input_file ∉ fs ->
  main gltf_objects glb_file float_of_str (R := unit) sys_argv fs
  = ([Print [Lit "Input file not found: "; Str input_file]], fs, Normal tt).
Proof.
  intros L P M T I. unfold main, call.
  apply Nat.ltb_ge in L. rewrite L.
  rewrite P in *. unfold subscript at 1 2. cbn [nth_error].
  rewrite !bind_ret_l.
  rewrite (bind_pure _ _ _ m) by (apply ratio_arg_run, M).
  rewrite (bind_pure _ _ _ t) by (apply ratio_arg_run, T).
  rewrite bind_path_exists, (bool_decide_eq_false_2 _ I). reflexivity.
Qed.

(** An optional ratio parses or raises, and does nothing else. *)
Lemma ratio_block_cases (argv : list string) (i : nat) (default : A) (fs : files) :
  let block : py files (event A) unit A :=
    if (i <? length argv)%nat
    then (x <- subscript argv i ;; float_ float_of_str x)%pym
    else ret default in
  (exists a, block fs = ([], fs, Normal a)) \/ (exists e, block fs = ([], fs, Raised e)).
Proof.
  cbv zeta. unfold subscript, float_.
  destruct (i <? length argv)%nat; [|left; eexists; reflexivity].
  destruct (nth_error argv i) as [x|]; [|right; eexists; reflexivity].
  rewrite bind_ret_l. destruct (float_of_str x); [left|right]; eexists; reflexivity.
Qed.

(** However the command line is shaped, the tool calls the host only for
    an input that exists. *)
Lemma main_no_host_call (sys_argv : list string) (fs : files) :
  (forall input_file,
     nth_error (positional sys_argv) 0 = Some input_file -> input_file ∉ fs) ->
  exists t o,
    main gltf_objects glb_file float_of_str (R := unit) sys_argv fs = (t, fs, o) /\
    List.filter is_host_call t = [].
Proof.
  intros I. unfold main, call.
  destruct (length sys_argv <? 6)%nat; [do 2 eexists; split; reflexivity|].
  destruct (positional sys_argv) as [|x [|y rest]] eqn:P;
    [do 2 eexists; split; reflexivity..|].
  unfold subscript at 1 2. cbn [nth_error]. rewrite !bind_ret_l.
  destruct (ratio_block_cases (x :: y :: rest) 2 lit_0_1 fs) as [[m M]|[e M]];
    cbv zeta in M.
  - rewrite (bind_pure _ _ _ m) by exact M.
    destruct (ratio_block_cases (x :: y :: rest) 3 lit_0_05 fs) as [[t T]|[e T]];
      cbv zeta in T.
    + rewrite (bind_pure _ _ _ t) by exact T.
      rewrite bind_path_exists, (bool_decide_eq_false_2 _ (I x eq_refl)).
      do 2 eexists; split; reflexivity.
    + unfold bind at 1. rewrite T. do 2 eexists; split; reflexivity.
  - unfold bind at 1. rewrite M. do 2 eexists; split; reflexivity.
Qed.

End FoundationTool.

Section DriverTool.
Import Pipeline.
Context {mesh faces : Type}.
Variable w : world mesh faces.

(** The driver on a missing input. *)
Lemma driver_not_found (prog input_glb : string) (rest : list string) (fs : files) :
  rest <> [] -> input_glb ∉ fs ->
  main w (R := unit) (prog :: input_glb :: rest) fs
  = ([Print [Lit "Input file not found: "; Str input_glb]], fs, Normal tt).
Proof.
  intros N I. destruct rest as [|output_stl rest]; [congruence|].
  unfold main, call, subscript.
  destruct rest as [|a [|b rest']]; cbn [length Nat.ltb Nat.leb nth_error];
    rewrite !bind_ret_l, bind_path_exists, (bool_decide_eq_false_2 _ I); reflexivity.
Qed.

(** However the command line is shaped, the driver starts a process only
    for an input that exists. *)
Lemma driver_no_process (sys_argv : list string) (fs : files) :
  (forall input_glb, nth_error sys_argv 1 = Some input_glb -> input_glb ∉ fs) ->
  exists t o,
    main w (R := unit) sys_argv fs = (t, fs, o) /\ List.filter is_run t = [].
Proof.
  intros I.
  destruct sys_argv as [|prog [|input_glb [|output_stl rest]]];
    [do 2 eexists; split; reflexivity..|].
  rewrite driver_not_found; [|discriminate|apply I; reflexivity].
  do 2 eexists; split; reflexivity.
Qed.

End DriverTool.

(** C9, as the code has it.  With an input path that does not exist: the
    driver given both paths, and the foundation tool given a command line
    that passes its guard, with both paths after the separator and ratios
    that parse, print "Input file not found" and return, having called
    nothing and written nothing; and whatever the command line, neither
    tool starts a process or calls the host, nor writes a file, for an
    input that does not exist. *)
Theorem C9_missing_input_no_external_call :
  (forall (mesh faces : Type) (w : Pipeline.world mesh faces)
          (prog input_glb : string) (rest : list string) (fs : files),
      rest <> [] -> input_glb ∉ fs ->
      Pipeline.main w (R := unit) (prog :: input_glb :: rest) fs
      = ([Pipeline.Print [Lit "Input file not found: "; Str input_glb]], fs, Normal tt)) /\
  (forall (A : Type) (F : PyFloat A) (gltf_objects : string -> list (Foundation.object A))
          (glb_file : string -> string)
          (float_of_str : string -> option A) (sys_argv : list string)
          (input_file output_file : string) (rest : list string) (m t : A) (fs : files),
      (6 <= length sys_argv)%nat ->
      Foundation.positional sys_argv = input_file :: output_file :: rest ->
      Foundation.ratio_arg float_of_str (Foundation.positional sys_argv) 2 Foundation.lit_0_1
        = Some m ->
      Foundation.ratio_arg float_of_str (Foundation.positional sys_argv) 3 Foundation.lit_0_05
        = Some t ->
      input_file ∉ fs ->
      Foundation.main gltf_objects glb_file float_of_str (R := unit) sys_argv fs
      = ([Foundation.Print [Lit "Input file not found: "; Str input_file]], fs, Normal tt)) /\
  (forall (mesh faces : Type) (w : Pipeline.world mesh faces)
          (sys_argv : list string) (fs : files),
      (forall input_glb, nth_error sys_argv 1 = Some input_glb -> input_glb ∉ fs) ->
      exists t o,
        Pipeline.main w (R := unit) sys_argv fs = (t, fs, o) /\
        List.filter Pipeline.is_run t = []) /\
  (forall (A : Type) (F : PyFloat A) (gltf_objects : string -> list (Foundation.object A))
          (glb_file : string -> string)
          (float_of_str : string -> option A) (sys_argv : list string) (fs : files),
      (forall input_file,
         nth_error (Foundation.positional sys_argv) 0 = Some input_file ->
         input_file ∉ fs) ->
      exists t o,
        Foundation.main gltf_objects glb_file float_of_str (R := unit) sys_argv fs = (t, fs, o) /\
        List.filter Foundation.is_host_call t = []).
Proof.
  split; [|split; [|split]].
  - intros. apply driver_not_found; assumption.
  - intros. eapply main_not_found; eassumption.
  - intros. apply driver_no_process; assumption.
  - intros. apply main_no_host_call; assumption.
Qed.

Lemma C9_missing_input_witness :
  Foundation.main (fun _ => [box_mesh lo_f hi_f]) fitted_glb float_of_ratio (R := unit)
    argv_two_paths ∅
  = ([Foundation.Print [Lit "Input file not found: "; Str "model.glb"]], ∅, Normal tt).
Proof.
  refine (proj1 (proj2 C9_missing_input_no_external_call)
            float float_PyFloat (fun _ => [box_mesh lo_f hi_f]) fitted_glb float_of_ratio
            argv_two_paths "model.glb" "model_with_base.stl" []
            Foundation.lit_0_1 Foundation.lit_0_05 ∅ _ eq_refl eq_refl eq_refl _).
  - cbn. lia.
  - set_solver.
Defined.

(** C9, as the claim has it, fails for the foundation tool on two command
    lines that name an input that does not exist: with one path after the
    separator the guard passes and the tool ends on [IndexError]; with both
    paths and a ratio that is no number it ends on [ValueError].  Neither
    prints anything. *)
Lemma C9_foundation_tool_counterexample :
  ("model.glb" ∉ (∅ : files)) /\
  nth_error (Foundation.positional argv_one_path) 0 = Some "model.glb" /\
  Foundation.main (fun _ => [box_mesh lo_f hi_f]) fitted_glb float_of_ratio (R := unit)
    argv_one_path ∅
  = ([], ∅, Raised (Exn IndexError "list index out of range")) /\
  nth_error (Foundation.positional argv_bad_ratio) 0 = Some "model.glb" /\
  Foundation.main (fun _ => [box_mesh lo_f hi_f]) fitted_glb float_of_ratio (R := unit)
    argv_bad_ratio ∅
  = ([], ∅, Raised (Exn ValueError "could not convert string to float: abc")).
Proof.
  split; [set_solver|]. repeat split; vm_compute; reflexivity.
Qed.

(** C10.  The guard of the foundation tool counts the raw [sys.argv]: a
    command line of fewer than six entries gets the usage message whatever
    follows the separator, and one of six entries or more with fewer than
    two paths after the separator passes the guard and ends on [IndexError],
    with nothing printed; the six entries of the host's command line with
    one path are such a command line. *)
Theorem C10_guard_counts_raw_argv :
  (forall (A : Type) (F : PyFloat A) (gltf_objects : string -> list (Foundation.object A))
          (glb_file : string -> string)
          (float_of_str : string -> option A) (sys_argv : list string) (fs : files),
      (length sys_argv < 6)%nat ->
      Foundation.main gltf_objects glb_file float_of_str (R := unit) sys_argv fs
      = ([Foundation.Print [Lit Foundation.usage_line];
          Foundation.Print [Lit Foundation.example_line]], fs, Normal tt)) /\
  (forall (A : Type) (F : PyFloat A) (gltf_objects : string -> list (Foundation.object A))
          (glb_file : string -> string)
          (float_of_str : string -> option A) (sys_argv : list string) (fs : files),
      (6 <= length sys_argv)%nat ->
      (length (Foundation.positional sys_argv) < 2)%nat ->
      Foundation.main gltf_objects glb_file float_of_str (R := unit) sys_argv fs
      = ([], fs, Raised (Exn IndexError "list index out of range"))) /\
  (length argv_one_path = 6%nat /\
   Foundation.positional argv_one_path = ["model.glb"] /\
   forall (fs : files),
     Foundation.main (fun _ => [box_mesh lo_f hi_f]) fitted_glb float_of_ratio (R := unit)
       argv_one_path fs
     = ([], fs, Raised (Exn IndexError "list index out of range"))).
Proof.
  split; [|split; [|split; [|split]]].
  - intros A F gltf written parse sys_argv fs L. unfold Foundation.main, call.
    apply Nat.ltb_lt in L. rewrite L. reflexivity.
  - intros. apply main_index_error; assumption.
  - reflexivity.
  - reflexivity.
  - intros fs. apply main_index_error; cbn; lia.
Qed.

Lemma C10_guard_counts_raw_argv_witness :
  Foundation.main (fun _ => [box_mesh lo_f hi_f]) fitted_glb float_of_ratio (R := unit)
    argv_one_path {["model.glb"]}
  = ([], {["model.glb"]}, Raised (Exn IndexError "list index out of range")).
Proof.
  refine (proj1 (proj2 C10_guard_counts_raw_argv)
            float float_PyFloat (fun _ => [box_mesh lo_f hi_f]) fitted_glb float_of_ratio
            argv_one_path {["model.glb"]} _ _); cbn; lia.
Defined.

End ToolsProofs.


(* ================================================================== *)
(** ** Paths and argument lists *)

Module PathProofs.

Local Arguments String.append : simpl nomatch.

(** *** Strings *)

Lemma append_nil_r (s : string) : s +:+ "" = s.
Proof. induction s as [|c s IH]; cbn; [reflexivity|]. rewrite IH. reflexivity. Qed.

Lemma append_assoc (a b c : string) : (a +:+ b) +:+ c = a +:+ (b +:+ c).
Proof. induction a as [|x a IH]; cbn; [reflexivity|]. rewrite IH. reflexivity. Qed.

Lemma length_append (a b : string) :
  String.length (a +:+ b) = (String.length a + String.length b)%nat.
Proof. induction a as [|x a IH]; cbn; [reflexivity|]. rewrite IH. reflexivity. Qed.

Lemma occurs_append (c : ascii) (a b : string) :
  occurs c (a +:+ b) = occurs c a || occurs c b.
Proof.
  induction a as [|x a IH]; cbn; [reflexivity|]. rewrite IH. apply orb_assoc.
Qed.

(** Two ways of cutting the same string: the shorter head is a head of the
    longer. *)
Lemma append_eq_split (a' : string) :
  forall a x y : string,
    a +:+ x = a' +:+ y -> (String.length a' <= String.length a)%nat ->
    exists m, a = a' +:+ m /\ y = m +:+ x.
Proof.
  induction a' as [|c a' IH]; intros a x y E L.
  - exists a. split; [reflexivity|]. symmetry. exact E.
  - destruct a as [|d a]; [cbn in L; lia|].
    cbn in E. injection E as -> E. cbn in L.
    destruct (IH a x y E ltac:(lia)) as (m & -> & ->).
    exists m. split; reflexivity.
Qed.

Lemma substring_head (a b : string) : substring 0 (String.length a) (a +:+ b) = a.
Proof.
  induction a as [|x a IH]; cbn.
  - destruct b; reflexivity.
  - rewrite IH. reflexivity.
Qed.

Lemma substring_all (b : string) : substring 0 (String.length b) b = b.
Proof. induction b as [|x b IH]; cbn; [reflexivity|]. rewrite IH. reflexivity. Qed.

Lemma substring_tail (a b : string) :
  substring (String.length a) (String.length b) (a +:+ b) = b.
Proof. induction a as [|x a IH]; cbn; [apply substring_all|exact IH]. Qed.

(** Cutting a string in two and gluing the parts gives the string back. *)
Lemma substring_cut (p : string) :
  forall n, (n <= String.length p)%nat ->
            substring 0 n p +:+ substring n (String.length p - n) p = p.
Proof.
  induction p as [|x p IH]; intros n L.
  - destruct n; reflexivity.
  - destruct n as [|n].
    + cbn. rewrite substring_all. reflexivity.
    + cbn. cbn in L. rewrite IH by lia. reflexivity.
Qed.

Lemma get_append_tail (a b : string) (j : nat) :
  String.get (String.length a + j) (a +:+ b) = String.get j b.
Proof. induction a as [|x a IH]; cbn; [reflexivity|exact IH]. Qed.

(** *** [rfind] *)

Lemma rfind_from_absent (c : ascii) (s : string) :
  forall i, occurs c s = false -> rfind_from c s i = (-1)%Z.
Proof.
  induction s as [|a s IH]; intros i O; cbn; [reflexivity|].
  cbn in O. apply orb_false_iff in O as [E O]. rewrite (IH _ O), E. reflexivity.
Qed.

(** The last occurrence: [c] is at the cut, and not after it. *)
Lemma rfind_from_last (c : ascii) (a b : string) :
  forall i, (0 <= i)%Z -> occurs c b = false ->
            rfind_from c (a +:+ String c b) i = (i + Z.of_nat (String.length a))%Z.
Proof.
  induction a as [|x a IH]; intros i I O.
  - cbn. rewrite (rfind_from_absent _ _ _ O), Ascii.eqb_refl. cbn. lia.
  - cbn [append rfind_from String.length]. rewrite (IH (i + 1)%Z) by (lia || exact O).
    destruct (Z.leb_spec 0 (i + 1 + Z.of_nat (String.length a))); lia.
Qed.

(** [rfind] answers [-1] for a character that does not occur, and the cut
    before its last occurrence otherwise. *)
Lemma rfind_cases (c : ascii) (s : string) :
  (occurs c s = false /\ rfind c s = (-1)%Z) \/
  (exists a b, s = a +:+ String c b /\ occurs c b = false
               /\ rfind c s = Z.of_nat (String.length a)).
Proof.
  unfold rfind. induction s as [|x s IH].
  - left. split; reflexivity.
  - destruct IH as [[O R]|(a & b & -> & O & R)].
    + destruct (Ascii.eqb x c) eqn:E.
      * apply Ascii.eqb_eq in E. subst x. right. exists "", s.
        split; [reflexivity|]. split; [exact O|].
        apply (rfind_from_last c "" s 0%Z); [lia|exact O].
      * left. split; [cbn; rewrite E, O; reflexivity|].
        apply rfind_from_absent. cbn. rewrite E, O. reflexivity.
    + right. exists (String x a), b. split; [reflexivity|]. split; [exact O|].
      apply (rfind_from_last c (String x a) b 0%Z); [lia|exact O].
Qed.

(** *** The loop over the leading dots *)

Lemma has_non_dot_found (p : string) (c : ascii) (j : nat) :
  String.get j p = Some c -> c <> "."%char ->
  forall n i, (i <= j < i + n)%nat -> has_non_dot p i n = true.
Proof.
  intros G N. induction n as [|n IH]; intros i B; [lia|].
  cbn. destruct (String.get i p) as [x|] eqn:X; [|reflexivity].
  destruct (Ascii.eqb x ".") eqn:E; [|reflexivity].
  apply IH. apply Ascii.eqb_eq in E. subst x.
  destruct (Nat.eq_dec i j) as [->|]; [|lia]. congruence.
Qed.

Lemma has_non_dot_dots (p : string) :
  forall n i, (forall j, (i <= j < i + n)%nat -> String.get j p = Some "."%char) ->
              has_non_dot p i n = false.
Proof.
  induction n as [|n IH]; intros i D; [reflexivity|].
  cbn. rewrite (D i) by lia. cbn. apply IH. intros j B. apply D. lia.
Qed.

Lemma get_all_dots (ds : string) :
  all_dots ds = true ->
  forall j, (j < String.length ds)%nat -> String.get j ds = Some "."%char.
Proof.
  induction ds as [|x ds IH]; intros D j L; [cbn in L; lia|].
  cbn in D. apply andb_true_iff in D as [E D]. apply Ascii.eqb_eq in E. subst x.
  destruct j as [|j]; [reflexivity|]. cbn. apply IH; [exact D|cbn in L; lia].
Qed.

Lemma all_dots_no_slash (ds : string) : all_dots ds = true -> occurs "/" ds = false.
Proof.
  induction ds as [|x ds IH]; intros D; [reflexivity|].
  cbn in D. apply andb_true_iff in D as [E D]. apply Ascii.eqb_eq in E. subst x.
  cbn. exact (IH D).
Qed.

(** A string of dots that is not empty ends with a dot. *)
Lemma all_dots_last (ds : string) :
  all_dots ds = true -> ds <> "" ->
  exists ds', ds = ds' +:+ "." /\ all_dots ds' = true.
Proof.
  induction ds as [|x ds IH]; intros D N; [congruence|].
  cbn in D. apply andb_true_iff in D as [E D]. apply Ascii.eqb_eq in E. subst x.
  destruct ds as [|y ds].
  - exists "". split; reflexivity.
  - destruct (IH D ltac:(discriminate)) as (ds' & -> & D').
    exists (String "." ds'). split; [reflexivity|]. cbn. exact D'.
Qed.

Lemma ends_with_slash_last (s : string) :
  ends_with_slash s = true -> exists s', s = s' +:+ "/".
Proof.
  induction s as [|x s IH]; intros E; [discriminate|].
  destruct s as [|y s].
  - cbn in E. apply Ascii.eqb_eq in E. subst x. exists "". reflexivity.
  - destruct (IH E) as [s' ->]. exists (String x s'). reflexivity.
Qed.

(** *** [os.path.splitext] *)

(** X1.  [os.path.splitext] only cuts: for every path, the root and the
    extension it answers, glued together, are the path. *)
Theorem splitext_glues_back (p : string) : fst (splitext p) +:+ snd (splitext p) = p.
Proof.
  unfold splitext.
  destruct (rfind "/" p <? rfind "." p)%Z eqn:L; [|apply append_nil_r].
  destruct (has_non_dot _ _ _); [|apply append_nil_r].
  cbn [fst snd]. apply substring_cut.
  destruct (rfind_cases "." p) as [[_ R]|(a & b & -> & _ & R)]; rewrite R.
  - cbn. lia.
  - rewrite Nat2Z.id, length_append. lia.
Qed.

(** X2.  The extension [os.path.splitext] answers is empty, or it is a
    period followed by characters among which there is no period and no
    slash. *)
Theorem splitext_extension_shape (p : string) :
  snd (splitext p) = "" \/
  exists e, snd (splitext p) = String "." e /\ occurs "." e = false /\ occurs "/" e = false.
Proof.
  unfold splitext.
  destruct (rfind "/" p <? rfind "." p)%Z eqn:L; [|left; reflexivity].
  destruct (has_non_dot _ _ _); [|left; reflexivity].
  right. cbn [snd]. apply Z.ltb_lt in L.
  destruct (rfind_cases "." p) as [[_ R]|(a & b & -> & Ob & R)]; rewrite R in *.
  - destruct (rfind_cases "/" p) as [[_ R']|(a' & b' & _ & _ & R')]; rewrite R' in L; lia.
  - exists b. rewrite Nat2Z.id, length_append.
    replace (String.length a + String.length (String "." b) - String.length a)%nat
      with (String.length (String "." b)) by lia.
    rewrite substring_tail. split; [reflexivity|]. split; [exact Ob|].
    destruct (rfind_cases "/" (a +:+ String "." b)) as [[O _]|(a' & b' & E & Ob' & R')].
    + rewrite occurs_append in O. apply orb_false_iff in O as [_ O]. exact O.
    + rewrite R' in L.
      destruct (append_eq_split a' a (String "." b) (String "/" b') E ltac:(lia))
        as (m & -> & E').
      destruct m as [|x m].
      * rewrite length_append in L. cbn in L. lia.
      * cbn in E'. injection E' as _ ->.
        rewrite occurs_append in Ob'. apply orb_false_iff in Ob' as [_ O]. exact O.
Qed.

(** X3.  A path whose last period follows a character that is neither a
    period nor a slash is cut at that period: what follows it (no period, no
    slash) is the extension, and the stage dispatches on it in lower
    case. *)
Theorem splitext_cuts_at_last_period (stem e : string) (c : ascii) :
  c <> "."%char -> c <> "/"%char -> occurs "." e = false -> occurs "/" e = false ->
  splitext (stem +:+ String c (String "." e)) = (stem +:+ String c "", String "." e) /\
  Foundation.file_ext (stem +:+ String c (String "." e)) = lower (String "." e).
Proof.
  intros Nd Ns Oe Se.
  assert (S : splitext (stem +:+ String c (String "." e))
              = (stem +:+ String c "", String "." e)).
  { unfold splitext.
    set (p := stem +:+ String c (String "." e)).
    assert (P : p = (stem +:+ String c "") +:+ String "." e)
      by (unfold p; rewrite append_assoc; reflexivity).
    assert (Ld : String.length (stem +:+ String c "") = S (String.length stem))
      by (rewrite length_append; cbn; lia).
    assert (D : rfind "." p = Z.of_nat (S (String.length stem))).
    { rewrite P, <- Ld. apply (rfind_from_last "." _ e 0%Z); [lia|exact Oe]. }
    assert (Sl : (rfind "/" p < Z.of_nat (String.length stem))%Z).
    { destruct (rfind_cases "/" p) as [[_ R]|(a' & b' & E & Ob' & R)]; rewrite R; [lia|].
      apply Nat2Z.inj_lt.
      destruct (Nat.lt_ge_cases (String.length a') (String.length stem)) as [|G];
        [assumption|exfalso].
      unfold p in E. symmetry in E.
      destruct (append_eq_split stem a' (String "/" b') (String c (String "." e)) E G)
        as (m & -> & E').
      destruct m as [|x m].
      - cbn in E'. injection E' as E' _. apply Ns. congruence.
      - cbn in E'. injection E' as _ E'.
        assert (O : occurs "/" (String "." e) = true)
          by (rewrite E', occurs_append; cbn; rewrite ?orb_true_r; reflexivity).
        cbn in O. rewrite Se in O. discriminate O. }
    rewrite D. destruct (Z.ltb_spec (rfind "/" p) (Z.of_nat (S (String.length stem)))); [|lia].
    rewrite (has_non_dot_found p c (String.length stem)).
    - rewrite Nat2Z.id, <- Ld, P. set (q := stem +:+ String c "").
      rewrite substring_head.
      replace (String.length (q +:+ String "." e) - String.length q)%nat
        with (String.length (String "." e)) by (rewrite length_append; lia).
      rewrite substring_tail. reflexivity.
    - unfold p. rewrite <- (Nat.add_0_r (String.length stem)) at 1.
      rewrite get_append_tail. reflexivity.
    - exact Nd.
    - rewrite Nat2Z.id. lia. }
  split; [exact S|]. unfold Foundation.file_ext. rewrite S. reflexivity.
Qed.

Lemma splitext_cuts_at_last_period_witness :
  splitext "out/model.v2.STL" = ("out/model.v2", ".STL") /\
  Foundation.file_ext "out/model.v2.STL" = ".stl".
Proof.
  exact (splitext_cuts_at_last_period "out/model.v" "STL" "2"
           ltac:(discriminate) ltac:(discriminate) eq_refl eq_refl).
Defined.

(** X4.  Leading periods of a file name are no extension: a name that is
    periods followed by characters with no period among them, alone or after
    a directory, has the empty extension, which is no format the stage
    exports to. *)
Theorem splitext_leading_periods (dir ds e : string) :
  dir = "" \/ ends_with_slash dir = true ->
  all_dots ds = true -> occurs "." e = false -> occurs "/" e = false ->
  splitext (dir +:+ ds +:+ e) = (dir +:+ ds +:+ e, "") /\
  Foundation.file_ext (dir +:+ ds +:+ e) = "" /\
  Foundation.supported (Foundation.file_ext (dir +:+ ds +:+ e)) = false.
Proof.
  intros Hd D Oe Se.
  assert (S : splitext (dir +:+ ds +:+ e) = (dir +:+ ds +:+ e, "")).
  { unfold splitext.
    set (p := dir +:+ ds +:+ e).
    destruct (rfind "/" p <? rfind "." p)%Z eqn:L; [|reflexivity].
    apply Z.ltb_lt in L.
    replace (has_non_dot p _ _) with false; [reflexivity|]. symmetry.
    assert (Sds : occurs "/" (ds +:+ e) = false)
      by (rewrite occurs_append, (all_dots_no_slash _ D), Se; reflexivity).
    (* the file name starts where [dir] ends *)
    assert (F : (rfind "/" p + 1)%Z = Z.of_nat (String.length dir)).
    { destruct Hd as [->|Hd].
      - cbn. unfold p. cbn. unfold rfind. rewrite rfind_from_absent by exact Sds. reflexivity.
      - destruct (ends_with_slash_last _ Hd) as [d ->].
        unfold p. rewrite append_assoc. cbn [append].
        unfold rfind. rewrite rfind_from_last by (lia || exact Sds).
        rewrite length_append. cbn. lia. }
    destruct (string_dec ds "") as [->|N].
    - (* no leading period: the last period is in [dir], before the slash *)
      exfalso. cbn [append] in p.
      destruct (rfind_cases "." p) as [[_ R]|(a & b & E & Ob & R)]; rewrite R in L.
      + destruct (rfind_cases "/" p) as [[_ R']|(a' & b' & _ & _ & R')]; rewrite R' in L; lia.
      + assert (G : (String.length dir <= String.length a)%nat) by lia.
        unfold p in E. symmetry in E.
        destruct (append_eq_split dir a (String "." b) e E G) as (m & -> & ->).
        rewrite occurs_append in Oe. cbn in Oe. rewrite orb_true_r in Oe. discriminate Oe.
    - destruct (all_dots_last ds D N) as (ds' & -> & D').
      assert (P : p = (dir +:+ ds') +:+ String "." e).
      { unfold p. rewrite !append_assoc. reflexivity. }
      assert (R : rfind "." p = Z.of_nat (String.length (dir +:+ ds'))).
      { rewrite P. apply (rfind_from_last "." _ e 0%Z); [lia|exact Oe]. }
      rewrite R, F, !Nat2Z.id, length_append.
      apply has_non_dot_dots. intros j B.
      replace j with (String.length dir + (j - String.length dir))%nat by lia.
      unfold p. rewrite get_append_tail.
      assert (Lj : (j - String.length dir < String.length ds')%nat) by lia.
      revert Lj. generalize (j - String.length dir)%nat. intros k Lk.
      rewrite append_assoc.
      assert (G := get_all_dots ds' D' k Lk).
      clear - G Lk. revert k G Lk. induction ds' as [|x ds' IH]; intros k G Lk.
      + cbn in Lk. lia.
      + destruct k as [|k]; [exact G|]. cbn. apply IH; [exact G|cbn in Lk; lia]. }
  split; [exact S|]. unfold Foundation.file_ext. rewrite S. split; reflexivity.
Qed.

Lemma splitext_leading_periods_witness :
  splitext "out/.stl" = ("out/.stl", "") /\
  Foundation.file_ext "out/.stl" = "" /\
  Foundation.supported (Foundation.file_ext "out/.stl") = false.
Proof.
  exact (splitext_leading_periods "out/" "." "stl" (or_intror eq_refl) eq_refl eq_refl eq_refl).
Defined.

(** *** The arguments after the separator *)

Lemma index_of_absent (x : string) (l : list string) : ~ In x l -> index_of x l = None.
Proof.
  induction l as [|y l IH]; intros N; [reflexivity|].
  cbn. destruct (String.eqb_spec y x) as [->|_]; [exfalso; apply N; left; reflexivity|].
  rewrite IH; [reflexivity|]. intros I. apply N. right. exact I.
Qed.

Lemma index_of_first (x : string) (pre post : list string) :
  ~ In x pre -> index_of x (pre ++ x :: post) = Some (length pre).
Proof.
  induction pre as [|y pre IH]; intros N.
  - cbn. rewrite String.eqb_refl. reflexivity.
  - cbn. destruct (String.eqb_spec y x) as [->|_]; [exfalso; apply N; left; reflexivity|].
    rewrite IH; [reflexivity|]. intros I. apply N. right. exact I.
Qed.

Lemma skipn_past (pre post : list string) (x : string) :
  skipn (length pre + 1) (pre ++ x :: post) = post.
Proof. induction pre as [|y pre IH]; [reflexivity|exact IH]. Qed.

(** X5.  The arguments of the foundation tool are what follows the first
    ["--"] of the command line, later separators included; a command line
    with no ["--"] is taken whole, the program name first. *)
Theorem positional_after_first_separator :
  (forall pre post : list string,
     ~ In "--" pre -> Foundation.positional (pre ++ "--" :: post) = post) /\
  (forall argv : list string, ~ In "--" argv -> Foundation.positional argv = argv).
Proof.
  split.
  - intros pre post N. unfold Foundation.positional.
    rewrite (index_of_first _ _ _ N). apply skipn_past.
  - intros argv N. unfold Foundation.positional. rewrite (index_of_absent _ _ N). reflexivity.
Qed.

Lemma positional_after_first_separator_witness :
  Foundation.positional ["blender"; "--python"; "tool.py"; "--"; "a.glb"; "--"; "b.stl"]
  = ["a.glb"; "--"; "b.stl"] /\
  Foundation.positional ["tool.py"; "a.glb"; "b.stl"] = ["tool.py"; "a.glb"; "b.stl"].
Proof.
  split.
  - refine (proj1 positional_after_first_separator
              ["blender"; "--python"; "tool.py"] ["a.glb"; "--"; "b.stl"] _).
    cbn. intros [E|[E|[E|[]]]]; discriminate E.
  - refine (proj2 positional_after_first_separator ["tool.py"; "a.glb"; "b.stl"] _).
    cbn. intros [E|[E|[E|[]]]]; discriminate E.
Defined.

(** *** [os.path.join] and the temporary names *)

(** A name joined to a directory ends with the name. *)
Lemma path_join_suffix (a b : string) :
  starts_with_slash b = false -> exists d, path_join a b = d +:+ b.
Proof.
  intros B. unfold path_join. rewrite B.
  destruct (_ || _).
  - exists a. reflexivity.
  - exists (a +:+ "/"). rewrite append_assoc. reflexivity.
Qed.

Lemma append_inj (d b1 b2 : string) : d +:+ b1 = d +:+ b2 -> b1 = b2.
Proof.
  induction d as [|x d IH]; cbn; intros E; [exact E|].
  injection E as E. exact (IH E).
Qed.

(** Two names joined to the same directory differ as the names do, and a
    joined name is at least as long as the name. *)
Lemma path_join_differ (a b1 b2 : string) :
  starts_with_slash b1 = false -> starts_with_slash b2 = false -> b1 <> b2 ->
  path_join a b1 <> path_join a b2.
Proof.
  intros S1 S2 N E. apply N. unfold path_join in E. rewrite S1, S2 in E.
  destruct (_ || _).
  - exact (append_inj _ _ _ E).
  - apply append_inj in E. injection E as E. exact E.
Qed.

Lemma path_join_length (a b : string) :
  starts_with_slash b = false ->
  (String.length b <= String.length (path_join a b))%nat.
Proof.
  intros S. destruct (path_join_suffix a b S) as [d ->]. rewrite length_append. lia.
Qed.

End PathProofs.


(* ================================================================== *)
(** ** The foundation, beyond the formulas *)

Module FoundationProofs.
Import Foundation Scenario.

(** *** The larger of two numbers *)

Lemma fmax_upper (a b : float) :
  is_number a -> is_number b ->
  PrimFloat.leb a (py_max a b) = true /\ PrimFloat.leb b (py_max a b) = true.
Proof.
  intros Na Nb. unfold py_max. cbn [flt float_PyFloat].
  destruct (PrimFloat.ltb a b) eqn:L.
  - apply ltb_key in L as (_ & _ & K). split; apply leb_key; repeat split; try assumption.
    + apply key_lt_asym, K.
    + apply key_lt_irrefl.
  - split.
    + apply leb_key. repeat split; try assumption. apply key_lt_irrefl.
    + apply fle_of_not_lt; assumption.
Qed.

(** [max] keeps its first argument when either is NaN. *)
Lemma fmax_nan (a b : float) : ~ is_number a \/ ~ is_number b -> py_max a b = a.
Proof.
  intros N. unfold py_max. cbn [flt float_PyFloat].
  destruct (PrimFloat.ltb a b) eqn:L; [|reflexivity].
  apply ltb_key in L as (Na & Nb & _). tauto.
Qed.

Lemma fmul_nan_r (x y : float) : ~ is_number y -> ~ is_number (x * y)%float.
Proof.
  rewrite !is_number_spec. intros N K. apply K. rewrite mul_spec.
  destruct (Prim2SF y); try (exfalso; apply N; discriminate).
  unfold SF64mul, SFmul. destruct (Prim2SF x); reflexivity.
Qed.

Lemma Qc_max_upper (p q : Qc) : (p <= Qc_max p q)%Qc /\ (q <= Qc_max p q)%Qc.
Proof.
  unfold Qc_max. destruct (Qc_ltb p q) eqn:L.
  - apply Qc_ltb_lt in L. split; [apply Qclt_le_weak, L|apply Qcle_refl].
  - apply Qc_ltb_ge in L. split; [apply Qcle_refl|exact L].
Qed.

Lemma xmax_upper (a b : xnum) :
  not_nan a -> not_nan b -> xle a (py_max a b) = true /\ xle b (py_max a b) = true.
Proof.
  intros Na Nb. unfold py_max. cbn [flt xnum_PyFloat].
  assert (Refl : forall c, not_nan c -> xle c c = true)
    by (intros c Nc; apply BoundsProofs.xle_of_not_lt; auto using BoundsProofs.xlt_irrefl).
  destruct (xlt a b) eqn:L.
  - split; [|apply Refl, Nb].
    apply BoundsProofs.xle_of_not_lt; [exact Na|exact Nb|].
    destruct (xlt b a) eqn:L'; [|reflexivity].
    rewrite <- (BoundsProofs.xlt_irrefl a). symmetry.
    exact (BoundsProofs.xlt_trans a b a L L').
  - split; [apply Refl, Na|].
    apply BoundsProofs.xle_of_not_lt; assumption.
Qed.

(** X6.  The thickness is never below the floor, nor below the
    proportional value: whenever [max_dimension * thickness_ratio] and
    [min_thickness] are numbers, the thickness is at least each of them, in
    binary64 as in exact arithmetic. *)
Theorem thickness_at_least_floor :
  (forall (lo hi : vec3 float) (margin_ratio thickness_ratio min_thickness : float),
     let s := foundation_sizing lo hi margin_ratio thickness_ratio min_thickness in
     is_number (max_dimension s * thickness_ratio)%float -> is_number min_thickness ->
     PrimFloat.leb min_thickness (foundation_thickness s) = true /\
     PrimFloat.leb (max_dimension s * thickness_ratio)%float (foundation_thickness s) = true) /\
  (forall (lo hi : vec3 xnum) (margin_ratio thickness_ratio min_thickness : xnum),
     let s := foundation_sizing lo hi margin_ratio thickness_ratio min_thickness in
     not_nan (max_dimension s * thickness_ratio)%py -> not_nan min_thickness ->
     xle min_thickness (foundation_thickness s) = true /\
     xle (max_dimension s * thickness_ratio)%py (foundation_thickness s) = true).
Proof.
  split.
  - intros lo hi m tr mt s Na Nb.
    destruct (fmax_upper _ _ Na Nb) as [U1 U2]. split; [exact U2|exact U1].
  - intros lo hi m tr mt s Na Nb.
    destruct (xmax_upper _ _ Na Nb) as [U1 U2]. split; [exact U2|exact U1].
Qed.

Lemma thickness_at_least_floor_witness :
  PrimFloat.leb 0.05%float
    (foundation_thickness (foundation_sizing lo_f hi_f 0.1%float 0.01%float 0.05%float))
  = true.
Proof.
  refine (proj1 (proj1 thickness_at_least_floor lo_f hi_f 0.1%float 0.01%float 0.05%float
                   _ _)); reflexivity.
Defined.

(** X7.  NaN and the floor.  A thickness ratio that is NaN makes the
    thickness NaN: the floor does not replace it.  A [min_thickness] that is
    NaN is ignored: the thickness is the proportional value. *)
Theorem thickness_with_nan (lo hi : vec3 float)
  (margin_ratio thickness_ratio min_thickness : float) :
  let s := foundation_sizing lo hi margin_ratio thickness_ratio min_thickness in
  (~ is_number thickness_ratio -> ~ is_number (foundation_thickness s)) /\
  (~ is_number min_thickness ->
   foundation_thickness s = (max_dimension s * thickness_ratio)%float).
Proof.
  intros s. split.
  - intros N.
    assert (E : foundation_thickness s = (max_dimension s * thickness_ratio)%float)
      by (apply fmax_nan; left; apply fmul_nan_r, N).
    rewrite E. apply fmul_nan_r, N.
  - intros N. apply fmax_nan. right. exact N.
Qed.

Lemma thickness_with_nan_witness :
  ~ is_number (foundation_thickness (foundation_sizing lo_f hi_f 0.1%float nan 0.05%float)).
Proof.
  refine (proj1 (thickness_with_nan lo_f hi_f 0.1%float nan 0.05%float) _).
  intros N. discriminate N.
Defined.

(** *** Corners that are no numbers *)

Lemma fold_min_skips (l : list float) :
  forall a, fold_left py_min l a
            = fold_left py_min (List.filter (fun x => PrimFloat.eqb x x) l) a.
Proof.
  induction l as [|x l IH]; intros a; [reflexivity|].
  cbn [fold_left List.filter]. destruct (PrimFloat.eqb x x) eqn:N.
  - cbn [fold_left]. apply IH.
  - rewrite <- IH. f_equal. unfold py_min. cbn [flt float_PyFloat].
    destruct (PrimFloat.ltb x a) eqn:L; [|reflexivity].
    apply ltb_key in L as (Nx & _). unfold is_number in Nx. congruence.
Qed.

Lemma fold_max_skips (l : list float) :
  forall a, fold_left py_max l a
            = fold_left py_max (List.filter (fun x => PrimFloat.eqb x x) l) a.
Proof.
  induction l as [|x l IH]; intros a; [reflexivity|].
  cbn [fold_left List.filter]. destruct (PrimFloat.eqb x x) eqn:N.
  - cbn [fold_left]. apply IH.
  - rewrite <- IH. f_equal. unfold py_max. cbn [flt float_PyFloat].
    destruct (PrimFloat.ltb a x) eqn:L; [|reflexivity].
    apply ltb_key in L as (_ & Nx & _). unfold is_number in Nx. congruence.
Qed.

(** X8.  The accumulator skips NaN: on every axis the bounds are those of
    the coordinates that are numbers; whatever the corners, the bounds are
    numbers themselves, and they enclose every coordinate that is one. *)
Theorem bounds_skip_nan (objs : list (object float)) (i : axis) :
  let numbers := List.filter (fun x => PrimFloat.eqb x x) (coords i (all_corners objs)) in
  let min_coords := fst (bounding_box objs) in
  let max_coords := snd (bounding_box objs) in
  vget min_coords i = fold_left py_min numbers infinity /\
  vget max_coords i = fold_left py_max numbers neg_infinity /\
  is_number (vget min_coords i) /\ is_number (vget max_coords i) /\
  forall c, In c (all_corners objs) -> PrimFloat.eqb (vget c i) (vget c i) = true ->
            PrimFloat.leb (vget min_coords i) (vget c i) = true /\
            PrimFloat.leb (vget c i) (vget max_coords i) = true.
Proof.
  intros numbers min_coords max_coords.
  destruct (BoundsProofs.bounding_box_axis objs i) as [Lo Hi].
  assert (Lo' : vget min_coords i = fold_left py_min numbers infinity)
    by (unfold min_coords; rewrite Lo; apply fold_min_skips).
  assert (Hi' : vget max_coords i = fold_left py_max numbers neg_infinity)
    by (unfold max_coords; rewrite Hi; apply fold_max_skips).
  assert (NN : forall a, In a numbers -> is_number a)
    by (intros a [_ N]%filter_In; exact N).
  split; [exact Lo'|]. split; [exact Hi'|].
  split; [rewrite Lo'; apply BoundsProofs.fold_min_number|].
  split; [rewrite Hi'; apply BoundsProofs.fold_max_number|].
  intros c I N.
  assert (In (vget c i) numbers)
    by (apply filter_In; split; [apply BoundsProofs.in_coords, I|exact N]).
  destruct (BoundsProofs.faxis_min_spec numbers NN) as (_ & B1 & _).
  destruct (BoundsProofs.faxis_max_spec numbers NN) as (_ & B2 & _).
  rewrite Lo', Hi'. split; [apply B1|apply B2]; assumption.
Qed.

Lemma bounds_skip_nan_witness :
  let objs := [Object "MESH" (fun v => v)
                 [Vec nan 2%float 3%float; Vec 1%float 2%float 3%float]] in
  PrimFloat.leb (vget (fst (bounding_box objs)) I0) 1%float = true /\
  PrimFloat.leb 1%float (vget (snd (bounding_box objs)) I0) = true.
Proof.
  refine (proj2 (proj2 (proj2 (proj2
            (bounds_skip_nan
               [Object "MESH" (fun v => v)
                  [Vec nan 2%float 3%float; Vec 1%float 2%float 3%float]] I0))))
            (Vec 1%float 2%float 3%float) _ eq_refl).
  right. left. reflexivity.
Defined.

(** *** Runs of the stage and of the tool *)

Section Runs.
Context {A : Type} `{PyFloat A}.
Variable gltf_objects : string -> list (object A).
Variable glb_file : string -> string.
Variable float_of_str : string -> option A.

(** The stage always answers, by [True] or by [False]. *)
Lemma stage_answers (glb_path output_path : string)
  (margin_ratio thickness_ratio min_thickness : A) (fs : files) :
  exists ok : bool,
    outcome_of (add_circular_foundation gltf_objects glb_file (R := unit) glb_path output_path
                  margin_ratio thickness_ratio min_thickness fs) = Normal ok.
Proof.
  rewrite StageProofs.add_circular_foundation_run.
  destruct (mesh_objects gltf_objects glb_path) as [|first rest]; [eexists; reflexivity|].
  cbv zeta. destruct (file_ext output_path =? ".stl"); [eexists; reflexivity|].
  destruct (_ || _); eexists; reflexivity.
Qed.

(** X13.  The stage answers [True] exactly when the imported scene has a
    mesh and the extension of the output path is one it exports to; it calls
    an exporter once exactly then, and then the files gain one file: the
    output path for an STL export, the file the host fits to the format GLB
    for a glTF export.  In every other case the files are as they were. *)
Theorem stage_writes_iff_success (glb_path output_path : string)
  (margin_ratio thickness_ratio min_thickness : A) (fs : files) :
  let r := add_circular_foundation gltf_objects glb_file (R := unit) glb_path output_path
             margin_ratio thickness_ratio min_thickness fs in
  exists ok : bool,
    outcome_of r = Normal ok /\
    (ok = true <->
     mesh_objects gltf_objects glb_path <> [] /\ supported (file_ext output_path) = true) /\
    state_of r
    = (if ok then
         {[if file_ext output_path =? ".stl" then output_path else glb_file output_path]} ∪ fs
       else fs) /\
    List.filter is_export (trace_of r)
    = (if ok then
         [if file_ext output_path =? ".stl" then StlExport output_path
          else GltfExport output_path "GLB"]
       else []).
Proof.
  intros r. subst r. rewrite StageProofs.add_circular_foundation_run.
  destruct (mesh_objects gltf_objects glb_path) as [|first rest].
  - exists false. split; [reflexivity|]. split; [|split; reflexivity].
    split; [discriminate|]. intros [N _]. congruence.
  - cbv zeta. unfold supported.
    destruct (file_ext output_path =? ".stl").
    + exists true. repeat split; discriminate.
    + destruct (_ || _).
      * exists true. repeat split; discriminate.
      * exists false. split; [reflexivity|]. split; [|split; reflexivity].
        split; [discriminate|]. intros [_ N]. discriminate N.
Qed.

(** X14.  What the stage asks of the host, in order: the scene is
    cleared, then the file is imported; with a mesh in the scene the
    cylinder is added and named, everything is selected, the first mesh
    object is made the active one and the join follows, whatever the output
    path; the extension is looked at only then, and the export, if any, is
    the last call. *)
Theorem host_calls_in_order (glb_path output_path : string)
  (margin_ratio thickness_ratio min_thickness : A) (fs : files) :
  let r := add_circular_foundation gltf_objects glb_file (R := unit) glb_path output_path
             margin_ratio thickness_ratio min_thickness fs in
  List.filter is_host_call (trace_of r) =
  match mesh_objects gltf_objects glb_path with
  | [] => [SelectAll; Delete; ImportGltf glb_path]
  | first :: _ =>
      let s := scene_sizing gltf_objects glb_path
                 margin_ratio thickness_ratio min_thickness in
      [SelectAll; Delete; ImportGltf glb_path;
       CylinderAdd (foundation_radius s) (foundation_thickness s)
         (center_x s, center_y s, foundation_z s) 64;
       Rename "Foundation"; SelectAll; SetActive first; Join]
      ++ List.filter is_export (trace_of r)
  end.
Proof.
  intros r. subst r. rewrite StageProofs.add_circular_foundation_run.
  destruct (mesh_objects gltf_objects glb_path) as [|first rest]; [reflexivity|].
  cbv zeta. destruct (file_ext output_path =? ".stl"); [reflexivity|].
  destruct (_ || _); reflexivity.
Qed.

(** The tool past its argument handling, for an input that exists. *)
Lemma main_stage_run (sys_argv : list string) (input_file output_file : string)
  (rest : list string) (m t : A) (fs : files) :
  (6 <= length sys_argv)%nat ->
  positional sys_argv = input_file :: output_file :: rest ->
  ratio_arg float_of_str (positional sys_argv) 2 lit_0_1 = Some m ->
  ratio_arg float_of_str (positional sys_argv) 3 lit_0_05 = Some t ->
  input_file ∈ fs ->
  let r := add_circular_foundation gltf_objects glb_file (R := unit) input_file output_file
             m t lit_0_05 fs in
  exists success : bool,
    outcome_of r = Normal success /\
    main gltf_objects glb_file float_of_str (R := unit) sys_argv fs
    = (trace_of r
       ++ [Print (if success then [Lit "Successfully created "; Str output_file]
                  else [Lit "Failed to create foundation"])],
       state_of r, Normal tt).
Proof.
  intros L P M T I r.
  destruct (stage_answers input_file output_file m t lit_0_05 fs)
    as [success O]. fold r in O.
  exists success. split; [exact O|].
  unfold main, call.
  apply Nat.ltb_ge in L. rewrite L.
  rewrite P in *. unfold subscript at 1 2. cbn [nth_error].
  rewrite !bind_ret_l.
  rewrite (ToolsProofs.bind_pure _ _ _ m) by (apply ToolsProofs.ratio_arg_run, M).
  rewrite (ToolsProofs.bind_pure _ _ _ t) by (apply ToolsProofs.ratio_arg_run, T).
  rewrite bind_path_exists, (bool_decide_eq_true_2 _ I). cbn [negb].
  fold r. rewrite (bind_normal _ _ _ success O).
  destruct success; reflexivity.
Qed.

(** X15.  The tool on a command line that passes the guard, with both
    paths after the separator, ratios that parse and an input that exists:
    it runs the stage on the two paths with the two ratios and the default
    [min_thickness] of 0.05, which no argument can change, reports the answer
    of the stage by one line, and returns; a stage that answered [False]
    does not make the tool raise. *)
Theorem main_runs_the_stage (sys_argv : list string) (input_file output_file : string)
  (rest : list string) (m t : A) (fs : files) :
  (6 <= length sys_argv)%nat ->
  positional sys_argv = input_file :: output_file :: rest ->
  ratio_arg float_of_str (positional sys_argv) 2 lit_0_1 = Some m ->
  ratio_arg float_of_str (positional sys_argv) 3 lit_0_05 = Some t ->
  input_file ∈ fs ->
  let r := add_circular_foundation gltf_objects glb_file (R := unit) input_file output_file
             m t lit_0_05 fs in
  exists success : bool,
    outcome_of r = Normal success /\
    main gltf_objects glb_file float_of_str (R := unit) sys_argv fs
    = (trace_of r
       ++ [Print (if success then [Lit "Successfully created "; Str output_file]
                  else [Lit "Failed to create foundation"])],
       state_of r, Normal tt).
Proof. apply main_stage_run. Qed.

Lemma bind_raises {S E R X Y} (m : py S E R X) (k : X -> py S E R Y) (s s' : S)
  (t : list E) (e : exn) :
  m s = (t, s', Raised e) -> bind m k s = (t, s', Raised e).
Proof. intros P. unfold bind. rewrite P. reflexivity. Qed.

(** An optional ratio that is given and is no number. *)
Lemma ratio_block_value_error (argv : list string) (i : nat) (default : A) (a : string)
  (fs : files) :
  nth_error argv i = Some a -> float_of_str a = None ->
  (if (i <? length argv)%nat
   then (x <- subscript argv i ;; float_ float_of_str x)%pym
   else ret default) fs
  = ([] : list (event A), fs,
     Raised (Exn ValueError ("could not convert string to float: " +:+ a))
     : outcome unit A).
Proof.
  intros N F.
  assert (L : (i < length argv)%nat) by (apply nth_error_Some; congruence).
  apply Nat.ltb_lt in L. rewrite L. unfold subscript. rewrite N, bind_ret_l.
  unfold float_. rewrite F. reflexivity.
Qed.

(** X16.  The ratios are converted before the input is looked at: on a
    command line that passes the guard with both paths, a third or a fourth
    argument that is no number ends the tool on [ValueError], with nothing
    printed and nothing asked of the host, whether the input exists or
    not. *)
Theorem main_ratio_value_error (sys_argv : list string) (input_file output_file a : string)
  (rest : list string) (fs : files) :
  (6 <= length sys_argv)%nat ->
  (positional sys_argv = input_file :: output_file :: a :: rest ->
   float_of_str a = None ->
   exists text,
     main gltf_objects glb_file float_of_str (R := unit) sys_argv fs
     = ([], fs, Raised (Exn ValueError text))) /\
  (forall (m : string) (x : A),
     positional sys_argv = input_file :: output_file :: m :: a :: rest ->
     float_of_str m = Some x -> float_of_str a = None ->
     exists text,
       main gltf_objects glb_file float_of_str (R := unit) sys_argv fs
       = ([], fs, Raised (Exn ValueError text))).
Proof.
  intros L. apply Nat.ltb_ge in L. split.
  - intros P F. eexists. unfold main, call. rewrite L, P.
    unfold subscript at 1 2. cbn [nth_error]. rewrite !bind_ret_l.
    erewrite bind_raises; [reflexivity|].
    apply ratio_block_value_error; [reflexivity|exact F].
  - intros m x P Fm F. eexists. unfold main, call. rewrite L, P.
    unfold subscript at 1 2. cbn [nth_error]. rewrite !bind_ret_l.
    rewrite (ToolsProofs.bind_pure _ _ _ x)
      by (apply ToolsProofs.ratio_arg_run; unfold ratio_arg; cbn; exact Fm).
    erewrite bind_raises; [reflexivity|].
    apply ratio_block_value_error; [reflexivity|exact F].
Qed.

End Runs.

Lemma main_runs_the_stage_witness :
  outcome_of (Foundation.main (fun _ => [box_mesh lo_f hi_f]) fitted_glb float_of_ratio (R := unit)
                argv_two_paths {["model.glb"]})
  = Normal tt.
Proof.
  assert (I : "model.glb" ∈ ({["model.glb"]} : files)) by set_solver.
  destruct (main_runs_the_stage (fun _ => [box_mesh lo_f hi_f]) fitted_glb float_of_ratio
              argv_two_paths "model.glb" "model_with_base.stl" []
              lit_0_1 lit_0_05 {["model.glb"]}
              ltac:(cbn; lia) eq_refl eq_refl eq_refl I) as (success & _ & E).
  rewrite E. reflexivity.
Defined.

Lemma main_ratio_value_error_witness :
  exists text,
    Foundation.main (fun _ => [box_mesh lo_f hi_f]) fitted_glb float_of_ratio (R := unit)
      argv_bad_ratio ∅
    = ([], ∅, Raised (Exn ValueError text)).
Proof.
  refine (proj1 (main_ratio_value_error (fun _ => [box_mesh lo_f hi_f]) fitted_glb float_of_ratio
                   argv_bad_ratio "model.glb" "model_with_base.stl" "abc" [] ∅ _)
            eq_refl eq_refl).
  cbn. lia.
Defined.

End FoundationProofs.


(* ================================================================== *)
(** ** Runs of the repair script *)

(** A sequence whose first part falls through goes on from there. *)
Lemma bind_step {S E R X Y} (m : py S E R X) (k : X -> py S E R Y) (s s' : S)
  (t : list E) (x : X) :
  m s = (t, s', Normal x) ->
  bind m k s = let '(t2, s2, o2) := k x s' in (t ++ t2, s2, o2).
Proof. intros P. unfold bind. rewrite P. reflexivity. Qed.

Module RepairRunProofs.
Import Repair Scenario.

Section Runs.
Context {mesh faces : Type}.
Variable w : world mesh faces.

Local Open Scope py_monad_scope.

(** *** Blocks that work on the mesh only *)

Lemma mesh_only_bind {X Y} (m : block (mesh := mesh) X) (k : X -> block (mesh := mesh) Y) :
  mesh_only m -> (forall x, mesh_only (k x)) -> mesh_only (bind m k).
Proof.
  intros Hm Hk fs m0. destruct (Hm fs m0) as (t & m1 & o & E & F).
  unfold bind. rewrite E. destruct o as [x|r|e].
  - destruct (Hk x fs m1) as (t2 & m2 & o2 & E2 & F2). rewrite E2.
    exists (t ++ t2), m2, o2. split; [reflexivity|]. apply Forall_app. split; assumption.
  - exists t, m1, (Return r). split; [reflexivity|exact F].
  - exists t, m1, (Raised e). split; [reflexivity|exact F].
Qed.

Lemma mesh_only_print (line : list piece) :
  mesh_only (emit (Print line) : block (mesh := mesh) unit).
Proof.
  intros fs m. exists [Print line], m, (Normal tt). split; [reflexivity|].
  repeat constructor.
Qed.

Ltac mesh_only_done :=
  do 3 eexists; split; [reflexivity|repeat constructor].

Lemma mesh_only_fill_holes : mesh_only (fill_holes_step w).
Proof.
  intros fs m. rewrite RepairProofs.fill_holes_step_run.
  destruct (fill_holes w m) as [m' [e|]]; [|mesh_only_done].
  destruct (is_Exception e); mesh_only_done.
Qed.

Lemma mesh_only_unique_faces : mesh_only (unique_faces_step w).
Proof.
  intros fs m. rewrite RepairProofs.unique_faces_step_run.
  destruct (unique_faces w m) as [f|e]; [|mesh_only_done].
  destruct (update_faces w m f) as [m' [e|]]; mesh_only_done.
Qed.

Lemma mesh_only_remove_unreferenced : mesh_only (remove_unreferenced_step w).
Proof.
  intros fs m. rewrite RepairProofs.remove_unreferenced_step_run.
  destruct (remove_unreferenced_vertices w m) as [m' [e|]]; mesh_only_done.
Qed.

Lemma fallback_run_mesh_only (fs : files) (m : mesh) :
  exists t m' o, fallback_run w fs m = (t, (fs, Some m'), o)
                 /\ Forall (fun e => is_mesh_step e = true) t.
Proof.
  unfold fallback_run. destruct (import_filter_laplacian w) as [e|].
  - destruct (is_Exception e); mesh_only_done.
  - destruct (filter_laplacian w m) as [m' [e|]]; [|mesh_only_done].
    destruct (is_Exception e); mesh_only_done.
Qed.

Lemma handled_run_mesh_only (fs : files) (m : mesh) (t0 : list (event mesh)) (e : exn) :
  Forall (fun e => is_mesh_step e = true) t0 ->
  exists t m' o, handled_run w fs m t0 e = (t, (fs, Some m'), o)
                 /\ Forall (fun e => is_mesh_step e = true) t.
Proof.
  intros F0. unfold handled_run.
  destruct (is_Exception e); [|do 3 eexists; split; [reflexivity|exact F0]].
  destruct (is_AttributeError e).
  - destruct (fallback_run_mesh_only fs m) as (t & m' & o & E & F). rewrite E.
    do 3 eexists. split; [reflexivity|]. apply Forall_app. split; assumption.
  - do 3 eexists. split; [reflexivity|]. apply Forall_app. split; [exact F0|].
    repeat constructor.
Qed.

Lemma mesh_only_smoothing : mesh_only (smoothing_step w).
Proof.
  intros fs m. rewrite RepairProofs.smoothing_step_run.
  destruct (import_smoothing w) as [e|].
  - apply handled_run_mesh_only. constructor.
  - destruct (smoothed w m) as [m'|e]; [mesh_only_done|].
    apply handled_run_mesh_only. repeat constructor.
Qed.

Lemma mesh_only_repair_steps : mesh_only (repair_steps w).
Proof.
  unfold repair_steps.
  apply mesh_only_bind; [apply mesh_only_fill_holes|intros _].
  apply mesh_only_bind; [apply mesh_only_unique_faces|intros _].
  apply mesh_only_bind; [apply mesh_only_remove_unreferenced|intros _].
  apply mesh_only_bind; [apply mesh_only_print|intros _].
  apply mesh_only_smoothing.
Qed.

(** An event of the repair steps is no removal and no export. *)
Lemma mesh_steps_remove_nothing (t : list (event mesh)) (p : string) :
  Forall (fun e => is_mesh_step e = true) t -> ~ In (Removed p) t.
Proof.
  intros F I. apply (proj1 (List.Forall_forall _ _) F) in I. discriminate I.
Qed.

(** *** The script, stage by stage *)

Lemma script_usage (sys_argv : list string) (st : state) :
  length sys_argv <> 3%nat ->
  script w sys_argv st
  = ([Print [Lit "Usage: python glb_to_stl.py input.glb output.stl"]], st,
     Raised (Exn (SystemExit 1) "1")).
Proof.
  intros L. apply Nat.eqb_neq in L. unfold script. rewrite L. reflexivity.
Qed.

Lemma finish_run (output_stl : string) (fs : files) (m : mesh) :
  finish w output_stl (fs, Some m) =
  match export w m with
  | Some e => ([Export m output_stl], (fs, Some m), Raised e)
  | None =>
      if bool_decide (temp_stl ∈ {[output_stl]} ∪ fs)
      then ([Export m output_stl;
             Print [Lit "Repaired and smoothed STL saved as "; Str output_stl];
             Removed temp_stl],
            (({[output_stl]} ∪ fs) ∖ {[temp_stl]}, Some m), Normal tt)
      else ([Export m output_stl;
             Print [Lit "Repaired and smoothed STL saved as "; Str output_stl]],
            ({[output_stl]} ∪ fs, Some m), Raised (Exn FileNotFoundError temp_stl))
  end.
Proof.
  unfold finish, export_mesh, bind, the_mesh, emit, on_files, os_remove.
  destruct (export w m); [reflexivity|].
  case_bool_decide; reflexivity.
Qed.

Lemma script_run (prog input_glb output_stl : string) (fs : files) (cell : option mesh) :
  script w [prog; input_glb; output_stl] (fs, cell) =
  let head := [Print [Lit "Converting "; Str input_glb; Lit " to STL..."];
               Run ["assimp"; "export"; input_glb; temp_stl]] in
  match assimp w with
  | CannotStart e => (head, (fs, cell), Raised e)
  | Exits code effect =>
      if (code =? 0)%Z then
        let loaded := head ++ [Print [Lit "Loading and repairing mesh..."]; Load temp_stl] in
        match load w with
        | inr e => (loaded, (effect fs, cell), Raised e)
        | inl m0 =>
            let '(t, st, o) := repair_steps w (effect fs, Some m0) in
            match o with
            | Normal _ =>
                let '(t', st', o') := finish w output_stl st in (loaded ++ t ++ t', st', o')
            | Return r => (loaded ++ t, st, Return r)
            | Raised e => (loaded ++ t, st, Raised e)
            end
        end
      else (head, (effect fs, cell),
            Raised (Exn CalledProcessError "returned non-zero exit status"))
  end.
Proof.
  unfold script, finish, subscript. cbn [length Nat.eqb negb nth_error].
  unfold bind, pass, ret, emit, on_files, subprocess_run, assign.
  destruct (assimp w) as [code effect|e]; [|reflexivity].
  destruct (code =? 0)%Z; [|reflexivity].
  destruct (load w) as [m0|e]; [|reflexivity].
  destruct (repair_steps w (effect fs, Some m0)) as [[t st] [[]|[]|e]]; try reflexivity.
  destruct (export_mesh w output_stl st) as [[t1 st1] [[]|[]|e]]; try reflexivity.
  destruct st1 as [fs1 cell1].
  destruct (os_remove Removed temp_stl fs1) as [[t2 fs2] o2]. reflexivity.
Qed.

(** X17.  A run of the script that ends normally, in full: it was given
    two arguments, the converter exited with status 0, the mesh was exported
    to the output path, the line "saved" was printed and ["temp.stl"] was
    removed, in this order and last; the files are those the converter
    left, with the output, without ["temp.stl"].  So an output path that is
    ["temp.stl"] itself is gone when the script ends. *)
Theorem normal_run_in_full (sys_argv : list string) (st : state) :
  outcome_of (script w sys_argv st) = Normal tt ->
  exists (prog input_glb output_stl : string) (effect : files -> files) (m : mesh)
         (t : list (event mesh)),
    sys_argv = [prog; input_glb; output_stl] /\
    assimp w = Exits 0 effect /\
    trace_of (script w sys_argv st)
    = t ++ [Export m output_stl;
            Print [Lit "Repaired and smoothed STL saved as "; Str output_stl];
            Removed temp_stl] /\
    state_of (script w sys_argv st)
    = (({[output_stl]} ∪ effect (fst st)) ∖ {[temp_stl]}, Some m) /\
    (output_stl ∈ fst (state_of (script w sys_argv st)) <-> output_stl <> temp_stl).
Proof.
  intros N.
  destruct (Nat.eq_dec (length sys_argv) 3) as [L|L];
    [|rewrite (script_usage _ _ L) in N; discriminate N].
  destruct sys_argv as [|prog [|input_glb [|output_stl [|extra rest]]]]; try discriminate L.
  clear L. destruct st as [fs cell]. exists prog, input_glb, output_stl.
  rewrite script_run in *. cbv zeta in *.
  destruct (assimp w) as [code effect|e]; [|discriminate N].
  destruct (Z.eqb_spec code 0) as [->|]; [|discriminate N].
  destruct (load w) as [m0|e]; [|discriminate N].
  destruct (mesh_only_repair_steps (effect fs) m0) as (t & m1 & o & E & _).
  rewrite E in *. destruct o as [[]|[]|e]; try discriminate N.
  rewrite finish_run in *.
  destruct (export w m1); [discriminate N|].
  case_bool_decide as I; [|discriminate N].
  exists effect, m1. eexists. split; [reflexivity|]. split; [reflexivity|].
  unfold trace_of, state_of. cbn [fst snd]. split; [|split; [reflexivity|]].
  - rewrite !app_assoc. reflexivity.
  - rewrite elem_of_difference, elem_of_union, !elem_of_singleton. split.
    + intros [_ D]. exact D.
    + intros D. split; [left; reflexivity|exact D].
Qed.

(** The removals among the events of a run. *)
Lemma script_removals (sys_argv : list string) (st : state) (p : string) :
  In (Removed p) (trace_of (script w sys_argv st)) ->
  p = temp_stl /\ outcome_of (script w sys_argv st) = Normal tt.
Proof.
  destruct (Nat.eq_dec (length sys_argv) 3) as [L|L].
  2:{ rewrite (script_usage _ _ L). cbn. intros [E|[]]. discriminate E. }
  destruct sys_argv as [|prog [|input_glb [|output_stl [|extra rest]]]]; try discriminate L.
  clear L. destruct st as [fs cell].
  rewrite script_run. cbv zeta.
  assert (Head : forall l : list (event mesh),
             In (Removed p)
               ([Print [Lit "Converting "; Str input_glb; Lit " to STL..."];
                 Run ["assimp"; "export"; input_glb; temp_stl]] ++ l) ->
             In (Removed p) l)
    by (cbn; intros l [E|[E|I]]; [discriminate E|discriminate E|exact I]).
  destruct (assimp w) as [code effect|e].
  2:{ cbn. intros [E|[E|[]]]; discriminate E. }
  destruct (code =? 0)%Z.
  2:{ cbn. intros [E|[E|[]]]; discriminate E. }
  assert (Loaded : forall l : list (event mesh),
             In (Removed p)
               (([Print [Lit "Converting "; Str input_glb; Lit " to STL..."];
                  Run ["assimp"; "export"; input_glb; temp_stl]]
                 ++ [Print [Lit "Loading and repairing mesh..."]; Load temp_stl]) ++ l) ->
             In (Removed p) l)
    by (cbn; intros l [E|[E|[E|[E|I]]]]; [discriminate E..|exact I]).
  destruct (load w) as [m0|e].
  2:{ cbn. intros [E|[E|[E|[E|[]]]]]; discriminate E. }
  destruct (mesh_only_repair_steps (effect fs) m0) as (t & m1 & o & E & F).
  rewrite E. pose proof (mesh_steps_remove_nothing t p F) as NoRem.
  destruct o as [[]|[]|e].
  - rewrite finish_run.
    destruct (export w m1).
    + unfold trace_of. cbn [fst]. intros I. apply Loaded, in_app_or in I.
      destruct I as [I|[X|[]]]; [contradiction|discriminate X].
    + case_bool_decide.
      * unfold trace_of, outcome_of. cbn [fst snd]. intros I.
        apply Loaded, in_app_or in I.
        destruct I as [I|[X|[X|[X|[]]]]]; [contradiction|discriminate X|discriminate X|].
        injection X as <-. split; reflexivity.
      * unfold trace_of. cbn [fst]. intros I. apply Loaded, in_app_or in I.
        destruct I as [I|[X|[X|[]]]]; [contradiction|discriminate X..].
  - unfold trace_of. cbn [fst]. intros I. apply Loaded in I. contradiction.
  - unfold trace_of. cbn [fst]. intros I. apply Loaded in I. contradiction.
Qed.

(** X18.  The script removes ["temp.stl"] only as the last act of a run
    that ends normally: a removal among the events of a run is that of
    ["temp.stl"], and the run has ended normally; a run that fails, at
    whatever point, has removed nothing. *)
Theorem removal_only_on_success (sys_argv : list string) (st : state) (p : string) :
  In (Removed p) (trace_of (script w sys_argv st)) ->
  p = temp_stl /\ outcome_of (script w sys_argv st) = Normal tt.
Proof. apply script_removals. Qed.

(** X19.  A converter that fails ends the script before the mesh library
    is called: on a status other than zero the script ends on
    [CalledProcessError], hence with status 1, and when the converter cannot
    be started it ends on that exception; in both cases the command was the
    only thing done, nothing is loaded, exported or removed. *)
Theorem converter_failure_ends_script (prog input_glb output_stl : string)
  (fs : files) (cell : option mesh) :
  let r := script w [prog; input_glb; output_stl] (fs, cell) in
  let head := [Print [Lit "Converting "; Str input_glb; Lit " to STL..."];
               Run ["assimp"; "export"; input_glb; temp_stl]] in
  (forall code effect, assimp w = Exits code effect -> code <> 0%Z ->
     exists e, is_CalledProcessError e = true /\
               r = (head, (effect fs, cell), Raised e) /\
               exit_status (outcome_of r) = 1%Z) /\
  (forall e, assimp w = CannotStart e -> r = (head, (fs, cell), Raised e)).
Proof.
  cbv zeta. rewrite script_run. cbv zeta. split.
  - intros code effect A N. rewrite A. apply Z.eqb_neq in N. rewrite N.
    eexists. split; [|split; reflexivity]. reflexivity.
  - intros e A. rewrite A. reflexivity.
Qed.

(** *** Smoothing *)

Lemma in_fallback_run (fs : files) (m : mesh) :
  In FilterLaplacian (trace_of (fallback_run w fs m)) <-> import_filter_laplacian w = None.
Proof.
  unfold fallback_run. destruct (import_filter_laplacian w) as [e|].
  - split; [|discriminate]. destruct (is_Exception e); cbn; intros H; [|destruct H].
    destruct H as [H|[]]. discriminate H.
  - split; [reflexivity|]. intros _.
    destruct (filter_laplacian w m) as [m' [e|]]; [|left; reflexivity].
    destruct (is_Exception e); left; reflexivity.
Qed.

Lemma in_handled_run (fs : files) (m : mesh) (t0 : list (event mesh)) (e : exn) :
  ~ In FilterLaplacian t0 ->
  (In FilterLaplacian (trace_of (handled_run w fs m t0 e)) <->
   is_AttributeError e = true /\ import_filter_laplacian w = None).
Proof.
  intros N0. unfold handled_run.
  assert (AE : is_AttributeError e = true -> is_Exception e = true)
    by (unfold is_AttributeError, is_Exception; destruct (cls e); congruence).
  destruct (is_Exception e) eqn:X.
  - destruct (is_AttributeError e) eqn:Y.
    + pose proof (in_fallback_run fs m) as FB.
      destruct (fallback_run w fs m) as [[t' st] o]. unfold trace_of in *. cbn [fst] in *.
      rewrite in_app_iff. split.
      * intros [I|I]; [contradiction|]. split; [reflexivity|apply FB, I].
      * intros [_ I]. right. apply FB, I.
    + unfold trace_of. cbn [fst]. rewrite in_app_iff. split.
      * intros [I|[I|[]]]; [contradiction|discriminate I].
      * intros [D _]. discriminate D.
  - unfold trace_of. cbn [fst]. split; [contradiction|].
    intros [Y _]. apply AE in Y. discriminate Y.
Qed.

(** X20.  The Laplacian filter is a fallback for [AttributeError] alone:
    it is applied exactly when the first attempt at smoothing (the import of
    [trimesh.smoothing], then [mesh.smoothed()]) raised an [AttributeError]
    and the import of the filter succeeded; after any other exception of the
    first attempt, an [ImportError] among them, no second attempt is
    made. *)
Theorem fallback_for_attribute_error_only (fs : files) (m : mesh) :
  In FilterLaplacian (trace_of (smoothing_step w (fs, Some m))) <->
  (exists e, is_AttributeError e = true /\
             (import_smoothing w = Some e \/
              (import_smoothing w = None /\ smoothed w m = inr e))) /\
  import_filter_laplacian w = None.
Proof.
  rewrite RepairProofs.smoothing_step_run.
  destruct (import_smoothing w) as [e|].
  - rewrite in_handled_run by (intros []). split.
    + intros [Y I]. split; [|exact I]. exists e. split; [exact Y|]. left. reflexivity.
    + intros [(e' & Y & [E|[E _]]) I]; [|discriminate E].
      injection E as <-. split; assumption.
  - destruct (smoothed w m) as [m'|e].
    + unfold trace_of. cbn [fst]. split.
      * intros [I|[]]. discriminate I.
      * intros [(e' & _ & [E|[_ E]]) _]; discriminate E.
    + rewrite in_handled_run by (cbn; intros [I|[]]; discriminate I). split.
      * intros [Y I]. split; [|exact I]. exists e. split; [exact Y|]. right.
        split; reflexivity.
      * intros [(e' & Y & [E|[_ E]]) I]; [discriminate E|].
        injection E as <-. split; assumption.
Qed.

(** *** Whole runs *)

Variables (prog input_glb output_stl : string) (fs : files) (cell : option mesh).
Variable effect : files -> files.
Variables m0 m1 m2 m3 : mesh.
Variable f : faces.

Hypothesis converter_ok : assimp w = Exits 0 effect.
Hypothesis temp_written : temp_stl ∈ {[output_stl]} ∪ effect fs.
Hypothesis load_ok : load w = inl m0.
Hypothesis fill_holes_ok : fill_holes w m0 = (m1, None).
Hypothesis unique_faces_ok : unique_faces w m1 = inl f.
Hypothesis update_faces_ok : update_faces w m1 f = (m2, None).
Hypothesis remove_ok : remove_unreferenced_vertices w m2 = (m3, None).
Hypothesis import_ok : import_smoothing w = None.

(** The run up to the smoothing, when every call succeeds. *)
Lemma repaired_run (k : unit -> block (mesh := mesh) unit) :
  bind (fill_holes_step w)
    (fun _ => bind (unique_faces_step w)
       (fun _ => bind (remove_unreferenced_step w)
          (fun _ => bind (emit (Print [Lit "Smoothing mesh..."])) k)))
    (effect fs, Some m0)
  = let '(t, st, o) := k tt (effect fs, Some m3) in
    ([FillHoles; UniqueFaces; UpdateFaces; RemoveUnreferencedVertices;
      Print [Lit "Smoothing mesh..."]] ++ t, st, o).
Proof.
  erewrite bind_step
    by (rewrite RepairProofs.fill_holes_step_run, fill_holes_ok; reflexivity).
  erewrite bind_step
    by (rewrite RepairProofs.unique_faces_step_run, unique_faces_ok, update_faces_ok;
        reflexivity).
  erewrite bind_step
    by (rewrite RepairProofs.remove_unreferenced_step_run, remove_ok; reflexivity).
  erewrite bind_step by reflexivity.
  destruct (k tt (effect fs, Some m3)) as [[t st] o]. reflexivity.
Qed.

(** X21.  A run in which every call succeeds: the steps come in the order
    of the script, each on the mesh the one before it left, and the mesh
    exported is the smoothed one; the run ends normally, the output is
    written and ["temp.stl"] removed. *)
Theorem all_steps_in_order (m4 : mesh) :
  smoothed w m3 = inl m4 -> export w m4 = None ->
  script w [prog; input_glb; output_stl] (fs, cell)
  = ([Print [Lit "Converting "; Str input_glb; Lit " to STL..."];
      Run ["assimp"; "export"; input_glb; temp_stl];
      Print [Lit "Loading and repairing mesh..."]; Load temp_stl;
      FillHoles; UniqueFaces; UpdateFaces; RemoveUnreferencedVertices;
      Print [Lit "Smoothing mesh..."]; Smoothed;
      Export m4 output_stl;
      Print [Lit "Repaired and smoothed STL saved as "; Str output_stl];
      Removed temp_stl],
     (({[output_stl]} ∪ effect fs) ∖ {[temp_stl]}, Some m4), Normal tt).
Proof.
  intros S X. rewrite script_run, converter_ok, load_ok. cbv zeta. cbn [Z.eqb].
  unfold repair_steps. rewrite repaired_run.
  rewrite RepairProofs.smoothing_step_run, import_ok, S.
  rewrite finish_run, X, (bool_decide_eq_true_2 _ temp_written). reflexivity.
Qed.

(** X22.  A smoothing that fails does not cost the output: when
    [mesh.smoothed()] raises an [Exception] that is no [AttributeError], the
    script warns, exports the repaired mesh as it stood before the smoothing
    and ends normally, with ["temp.stl"] removed. *)
Theorem unsmoothed_mesh_is_exported (e : exn) :
  smoothed w m3 = inr e -> is_Exception e = true -> is_AttributeError e = false ->
  export w m3 = None ->
  script w [prog; input_glb; output_stl] (fs, cell)
  = ([Print [Lit "Converting "; Str input_glb; Lit " to STL..."];
      Run ["assimp"; "export"; input_glb; temp_stl];
      Print [Lit "Loading and repairing mesh..."]; Load temp_stl;
      FillHoles; UniqueFaces; UpdateFaces; RemoveUnreferencedVertices;
      Print [Lit "Smoothing mesh..."]; Smoothed;
      Print [Lit "Warning: Could not smooth mesh: "; Exc e];
      Export m3 output_stl;
      Print [Lit "Repaired and smoothed STL saved as "; Str output_stl];
      Removed temp_stl],
     (({[output_stl]} ∪ effect fs) ∖ {[temp_stl]}, Some m3), Normal tt).
Proof.
  intros S Ex NA X. rewrite script_run, converter_ok, load_ok. cbv zeta. cbn [Z.eqb].
  unfold repair_steps. rewrite repaired_run.
  rewrite RepairProofs.smoothing_step_run, import_ok, S. unfold handled_run.
  rewrite Ex, NA.
  rewrite finish_run, X, (bool_decide_eq_true_2 _ temp_written). reflexivity.
Qed.

End Runs.

Lemma normal_run_in_full_witness :
  exists (prog input_glb output_stl : string) (effect : files -> files) (m : nat)
         (t : list (event nat)),
    ["glb_to_stl.py"; "in.glb"; "out.stl"] = [prog; input_glb; output_stl] /\
    assimp healthy = Exits 0 effect /\
    trace_of (script healthy ["glb_to_stl.py"; "in.glb"; "out.stl"] (∅, @None nat))
    = t ++ [Export m output_stl;
            Print [Lit "Repaired and smoothed STL saved as "; Str output_stl];
            Removed temp_stl] /\
    state_of (script healthy ["glb_to_stl.py"; "in.glb"; "out.stl"] (∅, @None nat))
    = (({[output_stl]} ∪ effect (fst (∅, @None nat))) ∖ {[temp_stl]}, Some m) /\
    (output_stl ∈ fst (state_of (script healthy ["glb_to_stl.py"; "in.glb"; "out.stl"]
                                   (∅, @None nat)))
     <-> output_stl <> temp_stl).
Proof.
  exact (normal_run_in_full healthy ["glb_to_stl.py"; "in.glb"; "out.stl"] (∅, @None nat)
           eq_refl).
Defined.

Lemma removal_only_on_success_witness :
  "temp.stl" = temp_stl /\
  outcome_of (script healthy ["glb_to_stl.py"; "in.glb"; "out.stl"] (∅, @None nat)) = Normal tt.
Proof.
  refine (removal_only_on_success healthy ["glb_to_stl.py"; "in.glb"; "out.stl"] (∅, @None nat)
            "temp.stl" _).
  vm_compute. do 12 right. left. reflexivity.
Defined.

Lemma converter_failure_ends_script_witness :
  exists e, is_CalledProcessError e = true /\
    script converter_fails ["glb_to_stl.py"; "in.glb"; "out.stl"] (∅, @None nat)
    = ([Print [Lit "Converting "; Str "in.glb"; Lit " to STL..."];
        Run ["assimp"; "export"; "in.glb"; temp_stl]], (∅, None), Raised e) /\
    exit_status
      (outcome_of (script converter_fails ["glb_to_stl.py"; "in.glb"; "out.stl"]
                     (∅, @None nat))) = 1%Z.
Proof.
  refine (proj1 (converter_failure_ends_script converter_fails
                   "glb_to_stl.py" "in.glb" "out.stl" ∅ (@None nat))
            2%Z (fun fs => fs) eq_refl _).
  discriminate.
Defined.

Lemma all_steps_in_order_witness :
  outcome_of (script healthy ["glb_to_stl.py"; "in.glb"; "out.stl"] (∅, @None nat)) = Normal tt.
Proof.
  assert (T : temp_stl ∈ ({["out.stl"]} ∪ ({["temp.stl"]} ∪ ∅) : files)) by set_solver.
  rewrite (all_steps_in_order healthy "glb_to_stl.py" "in.glb" "out.stl" ∅ (@None nat)
             (fun fs => {["temp.stl"]} ∪ fs) 0%nat 1%nat 2%nat 3%nat tt
             eq_refl T eq_refl eq_refl eq_refl eq_refl eq_refl eq_refl
             4%nat eq_refl eq_refl).
  reflexivity.
Defined.

Lemma unsmoothed_mesh_is_exported_witness :
  outcome_of (script smoothing_fails ["glb_to_stl.py"; "in.glb"; "out.stl"] (∅, @None nat))
  = Normal tt.
Proof.
  assert (T : temp_stl ∈ ({["out.stl"]} ∪ ({["temp.stl"]} ∪ ∅) : files)) by set_solver.
  rewrite (unsmoothed_mesh_is_exported smoothing_fails "glb_to_stl.py" "in.glb" "out.stl"
             ∅ (@None nat) (fun fs => {["temp.stl"]} ∪ fs) 0%nat 1%nat 2%nat 3%nat tt
             eq_refl T eq_refl eq_refl eq_refl eq_refl eq_refl eq_refl
             (Exn RuntimeError "smoothing failed") eq_refl eq_refl eq_refl eq_refl).
  reflexivity.
Defined.

End RepairRunProofs.


(* ================================================================== *)
(** ** Runs of the driver *)

Module DriverProofs.
Import Pipeline Scenario.

Section Driver.
Context {mesh faces : Type}.
Variable w : world mesh faces.

Local Open Scope py_monad_scope.

(** *** The temporary names *)

Lemma temp_smoothed_not_glb : temp_smoothed_stl w <> temp_glb w.
Proof. apply PathProofs.path_join_differ; [reflexivity|reflexivity|discriminate]. Qed.

Lemma temp_smoothed_not_temp : temp_smoothed_stl w <> Repair.temp_stl.
Proof.
  intros E. apply (f_equal String.length) in E.
  pose proof (PathProofs.path_join_length (tempdir w) "smoothed_temp.stl" eq_refl) as L.
  unfold temp_smoothed_stl in E. rewrite E in L. cbn in L. lia.
Qed.

Lemma temp_glb_not_temp : temp_glb w <> Repair.temp_stl.
Proof.
  intros E. apply (f_equal String.length) in E.
  pose proof (PathProofs.path_join_length (tempdir w) "smoothed_temp.glb" eq_refl) as L.
  unfold temp_glb in E. rewrite E in L. cbn in L. lia.
Qed.

(** X23.  The three temporary names never coincide, whatever the
    temporary directory: the smoothed STL, the temporary GLB and the
    ["temp.stl"] of the repair script are three different paths, so that
    removing one never removes another. *)
Theorem temp_names_differ :
  temp_smoothed_stl w <> temp_glb w /\
  temp_smoothed_stl w <> Repair.temp_stl /\
  temp_glb w <> Repair.temp_stl.
Proof.
  split; [exact temp_smoothed_not_glb|]. split; [exact temp_smoothed_not_temp|].
  exact temp_glb_not_temp.
Qed.

(** *** Step 3 and the cleanup *)

Lemma run_blender_run (output_stl margin_ratio thickness_ratio : string) (fs : files) :
  run_blender w output_stl margin_ratio thickness_ratio fs =
  let cmd := Run (blender_cmd w output_stl margin_ratio thickness_ratio) in
  match blender w with
  | Exits code effect =>
      if (code =? 0)%Z
      then ([cmd; Print [Lit "✓ Final STL with foundation created: "; Str output_stl]],
            effect fs, Normal tt)
      else ([cmd; Print [Lit "Error adding foundation: ";
                         Exc (Exn CalledProcessError "returned non-zero exit status")]],
            effect fs, Return tt)
  | CannotStart e =>
      if is_CalledProcessError e
      then ([cmd; Print [Lit "Error adding foundation: "; Exc e]], fs, Return tt)
      else ([cmd], fs, Raised e)
  end.
Proof.
  unfold run_blender, blender_cmd, try_except, bind, subprocess_run, print, emit, return_.
  destruct (blender w) as [code effect|e].
  - destruct (code =? 0)%Z; reflexivity.
  - destruct (is_CalledProcessError e); reflexivity.
Qed.

Lemma difference_absent (p : string) (fs : files) : p ∉ fs -> fs ∖ {[p]} = fs.
Proof. intros N. apply difference_disjoint_L, disjoint_singleton_r, N. Qed.

Lemma cleanup_run (fs : files) :
  cleanup w fs
  = (cleanup_events w fs, fs ∖ {[temp_smoothed_stl w]} ∖ {[temp_glb w]}, Normal tt).
Proof.
  unfold cleanup, cleanup_events. generalize (temp_smoothed_stl w) (temp_glb w).
  intros ts tg. unfold for_each. unfold bind at 1.
  rewrite PipelineProofs.remove_if_exists_run.
  case_bool_decide as M1.
  - unfold print at 1, emit. unfold bind at 1.
    rewrite PipelineProofs.remove_if_exists_run.
    case_bool_decide as M2; unfold print, emit, ret; cbn; [reflexivity|].
    rewrite (difference_absent _ _ M2). reflexivity.
  - rewrite (difference_absent _ _ M1). unfold bind at 1.
    rewrite PipelineProofs.remove_if_exists_run.
    case_bool_decide as M2; unfold print, emit, ret; cbn; [reflexivity|].
    rewrite (difference_absent _ _ M2). reflexivity.
Qed.

Lemma step3_full_run (output_stl margin_ratio thickness_ratio : string) (fs : files) :
  step3 w output_stl margin_ratio thickness_ratio fs =
  let started := [Print [Lit "Step 3: Adding foundation with Blender..."];
                  Run (blender_cmd w output_stl margin_ratio thickness_ratio)] in
  let gone (fs' : files) := fs' ∖ {[temp_smoothed_stl w]} ∖ {[temp_glb w]} in
  match blender w with
  | Exits code effect =>
      if (code =? 0)%Z
      then (started
            ++ Print [Lit "✓ Final STL with foundation created: "; Str output_stl]
               :: cleanup_events w (effect fs),
            gone (effect fs), Normal tt)
      else (started
            ++ Print [Lit "Error adding foundation: ";
                      Exc (Exn CalledProcessError "returned non-zero exit status")]
               :: cleanup_events w (effect fs),
            gone (effect fs), Return tt)
  | CannotStart e =>
      if is_CalledProcessError e
      then (started ++ Print [Lit "Error adding foundation: "; Exc e] :: cleanup_events w fs,
            gone fs, Return tt)
      else (started ++ cleanup_events w fs, gone fs, Raised e)
  end.
Proof.
  rewrite PipelineProofs.step3_run, run_blender_run. cbv zeta.
  destruct (blender w) as [code effect|e].
  - destruct (code =? 0)%Z; rewrite cleanup_run; reflexivity.
  - destruct (is_CalledProcessError e); rewrite cleanup_run; reflexivity.
Qed.

(** *** The driver, in full *)

(** A run of the driver on an input that exists, by what the three
    processes do. *)
Lemma main_full_run (prog input_glb output_stl : string) (rest : list string) (fs : files) :
  input_glb ∈ fs ->
  main w (R := unit) (prog :: input_glb :: output_stl :: rest) fs =
  let '(t1, (fs1, _), o1) := repair_run w input_glb fs in
  let ts := temp_smoothed_stl w in
  let tg := temp_glb w in
  let gone (fs' : files) := fs' ∖ {[ts]} ∖ {[tg]} in
  let out (tail : list (event mesh)) (fs' : files) (o : outcome unit unit) :=
    (Print [Lit "Step 1: Smoothing GLB with trimesh..."]
     :: Run [executable w; glb_to_stl_script w; input_glb; ts]
     :: map Child t1 ++ tail, fs', o) in
  let called_process_error := Exn CalledProcessError "returned non-zero exit status" in
  if (exit_status o1 =? 0)%Z then
    let step2_started :=
      [Print [Lit "✓ Smoothed STL created: "; Str ts];
       Print [Lit "Step 2: Converting smoothed STL to temporary GLB..."];
       Run ["assimp"; "export"; ts; tg]] in
    let failed2 (e : exn) (fs' : files) :=
      out (step2_started
           ++ Print [Lit "Error converting STL to GLB: "; Exc e]
              :: (if bool_decide (ts ∈ fs') then [Removed ts] else []))
          (fs' ∖ {[ts]}) (Normal tt) in
    match assimp w with
    | Exits code e2 =>
        if (code =? 0)%Z then
          let step3_started :=
            step2_started
            ++ [Print [Lit "✓ Temporary GLB created: "; Str tg];
                Print [Lit "Step 3: Adding foundation with Blender..."];
                Run (blender_cmd w output_stl (arg_or rest 0 "0.1") (arg_or rest 1 "0.05"))] in
          match blender w with
          | Exits code3 e3 =>
              if (code3 =? 0)%Z then
                out (step3_started
                     ++ Print [Lit "✓ Final STL with foundation created: "; Str output_stl]
                        :: cleanup_events w (e3 (e2 fs1))
                     ++ [Print [Lit (newline +:+ "🎉 Success! Process completed:")];
                         Print [Lit "   Input:  "; Str input_glb];
                         Print [Lit "   Output: "; Str output_stl];
                         Print [Lit "   Applied trimesh smoothing + circular foundation"]])
                    (gone (e3 (e2 fs1))) (Normal tt)
              else
                out (step3_started
                     ++ Print [Lit "Error adding foundation: "; Exc called_process_error]
                        :: cleanup_events w (e3 (e2 fs1)))
                    (gone (e3 (e2 fs1))) (Normal tt)
          | CannotStart e =>
              if is_CalledProcessError e then
                out (step3_started
                     ++ Print [Lit "Error adding foundation: "; Exc e]
                        :: cleanup_events w (e2 fs1))
                    (gone (e2 fs1)) (Normal tt)
              else out (step3_started ++ cleanup_events w (e2 fs1)) (gone (e2 fs1)) (Raised e)
          end
        else failed2 called_process_error (e2 fs1)
    | CannotStart e =>
        if is_CalledProcessError e then failed2 e fs1 else out step2_started fs1 (Raised e)
    end
  else out [Print [Lit "Error in trimesh smoothing: "; Exc called_process_error]]
           fs1 (Normal tt).
Proof.
  intros I. rewrite (PipelineProofs.main_run w prog input_glb output_stl rest fs I).
  unfold call. unfold bind at 1. rewrite PipelineProofs.step1_run.
  destruct (repair_run w input_glb fs) as [[t1 [fs1 cell1]] o1]. cbv zeta.
  destruct (exit_status o1 =? 0)%Z; [|reflexivity].
  unfold bind at 1. rewrite PipelineProofs.step2_run. cbv zeta.
  assert (Failed : forall (l : list (event mesh)) (e : exn) (fs' : files),
             step2_failed w l e fs'
             = (l ++ Print [Lit "Error converting STL to GLB: "; Exc e]
                     :: (if bool_decide (temp_smoothed_stl w ∈ fs')
                         then [Removed (temp_smoothed_stl w)] else []),
                fs' ∖ {[temp_smoothed_stl w]}, Return tt)).
  { intros l e fs'. unfold step2_failed. case_bool_decide as M.
    - rewrite <- app_assoc. reflexivity.
    - rewrite (difference_absent _ _ M). reflexivity. }
  destruct (assimp w) as [code e2|e].
  - destruct (code =? 0)%Z.
    + unfold bind at 1. rewrite step3_full_run. cbv zeta.
      destruct (blender w) as [code3 e3|e].
      * destruct (code3 =? 0)%Z.
        -- unfold bind, print, emit. cbn [app]. rewrite <- !app_assoc. cbn [app].
           reflexivity.
        -- cbn [app]. rewrite <- !app_assoc. cbn [app]. reflexivity.
      * destruct (is_CalledProcessError e);
          cbn [app]; rewrite <- !app_assoc; cbn [app]; reflexivity.
    + rewrite Failed. cbn [app]. rewrite <- !app_assoc. cbn [app]. reflexivity.
  - destruct (is_CalledProcessError e).
    + rewrite Failed. cbn [app]. rewrite <- !app_assoc. cbn [app]. reflexivity.
    + cbn [app]. rewrite <- !app_assoc. cbn [app]. reflexivity.
Qed.

(** Among the events of the driver, the commands are its own. *)
Lemma filter_run_children (t : list (Repair.event mesh)) :
  List.filter is_run (map Child t) = [].
Proof. induction t as [|e t IH]; [reflexivity|exact IH]. Qed.

Lemma filter_run_cleanup (fs : files) : List.filter is_run (cleanup_events w fs) = [].
Proof. unfold cleanup_events. do 2 case_bool_decide; reflexivity. Qed.

(** X24.  The stages stop at the first failure.  On an input that exists
    the driver starts the repair script; it starts the converter only when
    that child has exited with status 0, and the host only when the converter
    has exited with status 0 as well; no command is started twice and none
    after a failure. *)
Theorem stages_stop_at_first_failure (prog input_glb output_stl : string)
  (rest : list string) (fs : files) :
  input_glb ∈ fs ->
  List.filter is_run
    (trace_of (main w (R := unit) (prog :: input_glb :: output_stl :: rest) fs))
  = Run [executable w; glb_to_stl_script w; input_glb; temp_smoothed_stl w]
    :: (if (exit_status (outcome_of (repair_run w input_glb fs)) =? 0)%Z
        then Run ["assimp"; "export"; temp_smoothed_stl w; temp_glb w]
             :: match assimp w with
                | Exits code _ =>
                    if (code =? 0)%Z
                    then [Run (blender_cmd w output_stl
                                 (arg_or rest 0 "0.1") (arg_or rest 1 "0.05"))]
                    else []
                | CannotStart _ => []
                end
        else []).
Proof.
  intros I. rewrite (main_full_run _ _ _ _ _ I).
  destruct (repair_run w input_glb fs) as [[t1 [fs1 cell1]] o1]. cbv zeta.
  unfold outcome_of. cbn [snd].
  destruct (exit_status o1 =? 0)%Z.
  2:{ unfold trace_of. cbn [fst List.filter is_run].
      rewrite List.filter_app, filter_run_children. reflexivity. }
  destruct (assimp w) as [code e2|e].
  - destruct (code =? 0)%Z.
    + destruct (blender w) as [code3 e3|e].
      * destruct (code3 =? 0)%Z; unfold trace_of; cbn [fst List.filter is_run];
          rewrite List.filter_app, filter_run_children; cbn [app List.filter is_run];
          rewrite ?List.filter_app, filter_run_cleanup; reflexivity.
      * destruct (is_CalledProcessError e); unfold trace_of; cbn [fst List.filter is_run];
          rewrite List.filter_app, filter_run_children; cbn [app List.filter is_run];
          rewrite ?List.filter_app, filter_run_cleanup; reflexivity.
    + unfold trace_of. cbn [fst List.filter is_run].
      rewrite List.filter_app, filter_run_children. cbn [app List.filter is_run].
      case_bool_decide; reflexivity.
  - destruct (is_CalledProcessError e); unfold trace_of; cbn [fst List.filter is_run];
      rewrite List.filter_app, filter_run_children; cbn [app List.filter is_run];
      [case_bool_decide|]; reflexivity.
Qed.

(** X25.  A failed stage is reported by a message, not by the way the
    driver ends: whatever the command line and the files, the driver ends
    normally (exit status 0), unless a process could not be started and the
    exception of that is no [CalledProcessError], which then leaves the
    driver. *)
Theorem driver_ends_normally_unless_no_start (sys_argv : list string) (fs : files) :
  outcome_of (main w (R := unit) sys_argv fs) = Normal tt \/
  exists e, outcome_of (main w (R := unit) sys_argv fs) = Raised e /\
            is_CalledProcessError e = false /\
            (assimp w = CannotStart e \/ blender w = CannotStart e).
Proof.
  destruct sys_argv as [|prog [|input_glb [|output_stl rest]]]; try (left; reflexivity).
  destruct (decide (input_glb ∈ fs)) as [I|I].
  2:{ left. rewrite ToolsProofs.driver_not_found; [reflexivity|discriminate|exact I]. }
  rewrite (main_full_run _ _ _ _ _ I).
  destruct (repair_run w input_glb fs) as [[t1 [fs1 cell1]] o1]. cbv zeta.
  destruct (exit_status o1 =? 0)%Z; [|left; reflexivity].
  destruct (assimp w) as [code e2|e].
  - destruct (code =? 0)%Z; [|left; reflexivity].
    destruct (blender w) as [code3 e3|e].
    + destruct (code3 =? 0)%Z; left; reflexivity.
    + destruct (is_CalledProcessError e) eqn:C; [left; reflexivity|].
      right. exists e. split; [reflexivity|]. split; [exact C|]. right. reflexivity.
  - destruct (is_CalledProcessError e) eqn:C; [left; reflexivity|].
    right. exists e. split; [reflexivity|]. split; [exact C|]. left. reflexivity.
Qed.

(** X26.  A run in which the three stages succeed: the driver ends
    normally on the four lines of its success message; the files are those
    the host left, without the two temporary files; so the output is there
    if the host wrote it, unless the output path is one of the two temporary
    names, in which case the cleanup has removed it. *)
Theorem three_stages_succeed (prog input_glb output_stl : string) (rest : list string)
  (fs : files) (e2 e3 : files -> files) :
  input_glb ∈ fs ->
  exit_status (outcome_of (repair_run w input_glb fs)) = 0%Z ->
  assimp w = Exits 0 e2 -> blender w = Exits 0 e3 ->
  let r := main w (R := unit) (prog :: input_glb :: output_stl :: rest) fs in
  let fs3 := e3 (e2 (fst (state_of (repair_run w input_glb fs)))) in
  outcome_of r = Normal tt /\
  state_of r = fs3 ∖ {[temp_smoothed_stl w]} ∖ {[temp_glb w]} /\
  (exists t, trace_of r
             = t ++ [Print [Lit (newline +:+ "🎉 Success! Process completed:")];
                     Print [Lit "   Input:  "; Str input_glb];
                     Print [Lit "   Output: "; Str output_stl];
                     Print [Lit "   Applied trimesh smoothing + circular foundation"]]) /\
  (output_stl ∈ state_of r <->
   output_stl ∈ fs3 /\ output_stl <> temp_smoothed_stl w /\ output_stl <> temp_glb w).
Proof.
  intros I X A B r fs3. subst r fs3. rewrite (main_full_run _ _ _ _ _ I).
  destruct (repair_run w input_glb fs) as [[t1 [fs1 cell1]] o1]. cbv zeta.
  unfold outcome_of, state_of in *. cbn [fst snd] in *.
  rewrite X, A, B. cbn [Z.eqb fst snd].
  split; [reflexivity|]. split; [reflexivity|]. split.
  - unfold trace_of. cbn [fst]. eexists.
    rewrite !app_comm_cons, !app_assoc. reflexivity.
  - rewrite !elem_of_difference, !elem_of_singleton. tauto.
Qed.

(** X27.  Step 1 hands the smoothed STL over to step 2: when the repair
    script the driver runs ends normally, it was given the driver's input as
    its input and the smoothed STL as its output; that file is then in
    place, where the converter of step 2 reads it, and ["temp.stl"] is
    gone. *)
Theorem smoothed_stl_is_handed_over (input_glb : string) (fs : files) :
  outcome_of (repair_run w input_glb fs) = Normal tt ->
  In (Repair.Run ["assimp"; "export"; input_glb; Repair.temp_stl])
     (trace_of (repair_run w input_glb fs)) /\
  (exists m, In (Repair.Export m (temp_smoothed_stl w))
                (trace_of (repair_run w input_glb fs))) /\
  (temp_smoothed_stl w ∈ fst (state_of (repair_run w input_glb fs))) /\
  (Repair.temp_stl ∉ fst (state_of (repair_run w input_glb fs))).
Proof.
  unfold repair_run. rewrite RepairRunProofs.script_run. cbv zeta.
  destruct (Repair.assimp (repair w)) as [code effect|e]; [|discriminate].
  destruct (code =? 0)%Z; [|discriminate].
  destruct (Repair.load (repair w)) as [m0|e]; [|discriminate].
  destruct (RepairRunProofs.mesh_only_repair_steps (repair w) (effect fs) m0)
    as (t & m1 & o & E & _).
  rewrite E. destruct o as [[]|[]|e]; try discriminate.
  rewrite RepairRunProofs.finish_run.
  destruct (Repair.export (repair w) m1); [discriminate|].
  case_bool_decide as I; [|discriminate].
  intros _. unfold trace_of, state_of. cbn [fst snd].
  split; [cbn; right; left; reflexivity|]. split; [|split].
  - exists m1. apply in_or_app. right. apply in_or_app. right. left. reflexivity.
  - apply elem_of_difference. split.
    + apply elem_of_union. left. apply elem_of_singleton. reflexivity.
    + rewrite elem_of_singleton. apply temp_smoothed_not_temp.
  - apply removed_gone.
Qed.

(** X28.  A conversion that fails leaves the temporary GLB alone.  When
    step 2 exits with a status other than zero, the driver removes the
    smoothed STL and nothing else: the files are those the converter left,
    without the smoothed STL, so a temporary GLB the converter wrote before
    failing stays behind. *)
Theorem failed_conversion_leaves_glb (prog input_glb output_stl : string)
  (rest : list string) (fs : files) (code : Z) (e2 : files -> files) :
  input_glb ∈ fs ->
  exit_status (outcome_of (repair_run w input_glb fs)) = 0%Z ->
  assimp w = Exits code e2 -> code <> 0%Z ->
  let r := main w (R := unit) (prog :: input_glb :: output_stl :: rest) fs in
  let fs2 := e2 (fst (state_of (repair_run w input_glb fs))) in
  state_of r = fs2 ∖ {[temp_smoothed_stl w]} /\
  (temp_glb w ∈ state_of r <-> temp_glb w ∈ fs2) /\
  ~ In (Removed (temp_glb w)) (trace_of r).
Proof.
  intros I X A N r fs2. subst r fs2. rewrite (main_full_run _ _ _ _ _ I).
  destruct (repair_run w input_glb fs) as [[t1 [fs1 cell1]] o1]. cbv zeta.
  unfold outcome_of, state_of, trace_of in *. cbn [fst snd] in *.
  apply Z.eqb_neq in N. rewrite X, A, N. cbn [Z.eqb fst snd].
  split; [reflexivity|]. split.
  - rewrite elem_of_difference, elem_of_singleton. split; [tauto|].
    intros J. split; [exact J|]. intros E. exact (temp_smoothed_not_glb (eq_sym E)).
  - intros [E|[E|J]]; [discriminate E..|].
    apply in_app_or in J as [J|J].
    + apply in_map_iff in J as (x & E & _). discriminate E.
    + cbn [app] in J. repeat (destruct J as [E|J]; [discriminate E|]).
      case_bool_decide; [|destruct J]. destruct J as [E|[]].
      injection E as E. exact (temp_smoothed_not_glb E).
Qed.

(** The removals of the cleanup are those of the two temporary files. *)
Lemma cleanup_removals (fs : files) (e : event mesh) :
  In e (cleanup_events w fs) -> is_removed e = true ->
  e = Removed (temp_smoothed_stl w) \/ e = Removed (temp_glb w).
Proof.
  unfold cleanup_events. intros I R. apply in_app_or in I.
  destruct I as [I|I]; case_bool_decide; cbn in I;
    try destruct I as [<-|[<-|[]]]; try destruct I; try discriminate R; auto.
Qed.

(** X29.  The driver removes nothing but temporary files: in every run,
    whatever the command line, a file removed by the driver is the smoothed
    STL or the temporary GLB, and a file removed by the repair script it
    runs is ["temp.stl"]; the input is never removed, unless it goes by one
    of these names. *)
Theorem driver_removes_only_temporaries (sys_argv : list string) (fs : files)
  (e : event mesh) :
  In e (trace_of (main w (R := unit) sys_argv fs)) -> is_removed e = true ->
  e = Removed (temp_smoothed_stl w) \/ e = Removed (temp_glb w) \/
  e = Child (Repair.Removed Repair.temp_stl).
Proof.
  destruct sys_argv as [|prog [|input_glb [|output_stl rest]]];
    try (cbn; intros [<-|[<-|[]]] R; discriminate R).
  destruct (decide (input_glb ∈ fs)) as [I|I].
  2:{ rewrite ToolsProofs.driver_not_found; [|discriminate|exact I].
      cbn. intros [<-|[]] R. discriminate R. }
  rewrite (main_full_run _ _ _ _ _ I). unfold repair_run.
  pose proof (fun p => RepairRunProofs.script_removals (repair w)
                         [glb_to_stl_script w; input_glb; temp_smoothed_stl w]
                         (fs, None) p) as Script.
  destruct (Repair.script _ _ _) as [[t1 [fs1 cell1]] o1]. cbv zeta.
  unfold trace_of in *. cbn [fst] in Script.
  assert (Children : In e (map Child t1) -> is_removed e = true ->
                     e = Child (Repair.Removed Repair.temp_stl)).
  { intros J R. apply in_map_iff in J as (x & <- & J).
    destruct x; try discriminate R. destruct (Script _ J) as [-> _]. reflexivity. }
  assert (Start : forall tail : list (event mesh),
             (In e tail -> is_removed e = true ->
              e = Removed (temp_smoothed_stl w) \/ e = Removed (temp_glb w)) ->
             In e (Print [Lit "Step 1: Smoothing GLB with trimesh..."]
                   :: Run [executable w; glb_to_stl_script w; input_glb;
                           temp_smoothed_stl w]
                   :: map Child t1 ++ tail) ->
             is_removed e = true ->
             e = Removed (temp_smoothed_stl w) \/ e = Removed (temp_glb w) \/
             e = Child (Repair.Removed Repair.temp_stl)).
  { intros tail T [<-|[<-|J]] R; try discriminate R.
    apply in_app_or in J as [J|J]; [right; right; apply Children; assumption|].
    destruct (T J R); auto. }
  assert (Cleanup := cleanup_removals).
  destruct (exit_status o1 =? 0)%Z.
  2:{ cbn [fst]. apply Start. intros [<-|[]] R. discriminate R. }
  destruct (assimp w) as [code e2|x].
  - destruct (code =? 0)%Z.
    + destruct (blender w) as [code3 e3|x].
      * destruct (code3 =? 0)%Z; cbn [fst]; apply Start; cbn [app];
          intros J R; repeat (destruct J as [<-|J]; [discriminate R|]).
        -- apply in_app_or in J as [J|J]; [eauto|].
           repeat (destruct J as [<-|J]; [discriminate R|]). destruct J.
        -- eauto.
      * destruct (is_CalledProcessError x); cbn [fst]; apply Start; cbn [app];
          intros J R; repeat (destruct J as [<-|J]; [discriminate R|]); eauto.
    + cbn [fst]. apply Start. cbn [app]. intros J R.
      repeat (destruct J as [<-|J]; [discriminate R|]).
      case_bool_decide; [destruct J as [<-|[]]; left; reflexivity|destruct J].
  - destruct (is_CalledProcessError x); cbn [fst]; apply Start; cbn [app]; intros J R.
    + repeat (destruct J as [<-|J]; [discriminate R|]).
      case_bool_decide; [destruct J as [<-|[]]; left; reflexivity|destruct J].
    + repeat (destruct J as [<-|J]; [discriminate R|]). destruct J.
Qed.

End Driver.

Lemma stages_stop_at_first_failure_witness :
  List.filter is_run
    (trace_of (main (driver_world healthy (Exits 1 (fun fs => fs)) (writes "out.stl"))
                 (R := unit) driver_argv {["model.glb"]}))
  = [Run ["/usr/bin/python3"; "/opt/blender-scripts/glb_to_stl.py"; "model.glb";
          "/tmp/smoothed_temp.stl"];
     Run ["assimp"; "export"; "/tmp/smoothed_temp.stl"; "/tmp/smoothed_temp.glb"]].
Proof.
  assert (I : "model.glb" ∈ ({["model.glb"]} : files)) by (apply elem_of_singleton; reflexivity).
  exact (stages_stop_at_first_failure
           (driver_world healthy (Exits 1 (fun fs => fs)) (writes "out.stl"))
           "process_with_foundation.py" "model.glb" "out.stl" [] {["model.glb"]} I).
Defined.

Lemma smoothed_stl_is_handed_over_witness :
  "/tmp/smoothed_temp.stl"
  ∈ fst (state_of (repair_run (driver_world healthy (writes "x") (writes "y"))
                     "model.glb" {["model.glb"]})).
Proof.
  exact (proj1 (proj2 (proj2
           (smoothed_stl_is_handed_over (driver_world healthy (writes "x") (writes "y"))
              "model.glb" {["model.glb"]} eq_refl)))).
Defined.

Lemma failed_conversion_leaves_glb_witness :
  let w := driver_world healthy (Exits 1 (fun fs => {["/tmp/smoothed_temp.glb"]} ∪ fs))
             (writes "out.stl") in
  temp_glb w ∈ state_of (main w (R := unit) driver_argv {["model.glb"]}) <->
  temp_glb w ∈ {["/tmp/smoothed_temp.glb"]}
               ∪ fst (state_of (repair_run w "model.glb" {["model.glb"]})).
Proof.
  assert (I : "model.glb" ∈ ({["model.glb"]} : files)) by (apply elem_of_singleton; reflexivity).
  refine (proj1 (proj2
            (failed_conversion_leaves_glb
               (driver_world healthy (Exits 1 (fun fs => {["/tmp/smoothed_temp.glb"]} ∪ fs))
                  (writes "out.stl"))
               "process_with_foundation.py" "model.glb" "out.stl" [] {["model.glb"]}
               1%Z (fun fs => {["/tmp/smoothed_temp.glb"]} ∪ fs) I eq_refl eq_refl _))).
  discriminate.
Defined.

Lemma three_stages_succeed_witness :
  outcome_of (main (driver_world healthy (writes "/tmp/smoothed_temp.glb") (writes "out.stl"))
                (R := unit) driver_argv {["model.glb"]})
  = Normal tt.
Proof.
  assert (I : "model.glb" ∈ ({["model.glb"]} : files)) by (apply elem_of_singleton; reflexivity).
  exact (proj1 (three_stages_succeed
                  (driver_world healthy (writes "/tmp/smoothed_temp.glb") (writes "out.stl"))
                  "process_with_foundation.py" "model.glb" "out.stl" [] {["model.glb"]}
                  (fun fs => {["/tmp/smoothed_temp.glb"]} ∪ fs) (fun fs => {["out.stl"]} ∪ fs)
                  I eq_refl eq_refl eq_refl)).
Defined.

Lemma driver_removes_only_temporaries_witness :
  @Removed nat "/tmp/smoothed_temp.stl"
  = Removed (temp_smoothed_stl
               (driver_world healthy (Exits 1 (fun fs => fs)) (writes "out.stl"))) \/
  @Removed nat "/tmp/smoothed_temp.stl"
  = Removed (temp_glb (driver_world healthy (Exits 1 (fun fs => fs)) (writes "out.stl"))) \/
  @Removed nat "/tmp/smoothed_temp.stl" = Child (Repair.Removed Repair.temp_stl).
Proof.
  refine (driver_removes_only_temporaries
            (driver_world healthy (Exits 1 (fun fs => fs)) (writes "out.stl"))
            driver_argv {["model.glb"]} (Removed "/tmp/smoothed_temp.stl") _ eq_refl).
  vm_compute. do 19 right. left. reflexivity.
Defined.

(** *** From the driver to the stage *)

Section Composition.
Context {mesh faces : Type} {A : Type} `{PyFloat A}.
Variable w : world mesh faces.
Variable gltf_objects : string -> list (Foundation.object A).
Variable glb_file : string -> string.
Variable float_of_str : string -> option A.

Lemma add_foundation_script_not_separator : (add_foundation_script w =? "--") = false.
Proof.
  apply String.eqb_neq. intros E. apply (f_equal String.length) in E.
  pose proof (PathProofs.path_join_length (script_dir w) "add_foundation_blender.py" eq_refl)
    as L.
  unfold add_foundation_script in E. rewrite E in L. cbn in L. lia.
Qed.

Lemma positional_blender_cmd (output_stl margin_ratio thickness_ratio : string) :
  Foundation.positional (blender_cmd w output_stl margin_ratio thickness_ratio)
  = [temp_glb w; output_stl; margin_ratio; thickness_ratio].
Proof.
  unfold Foundation.positional, blender_cmd. cbn [index_of String.eqb Ascii.eqb Bool.eqb].
  rewrite add_foundation_script_not_separator. reflexivity.
Qed.

(** X30.  The command line the driver builds for step 3 is one the
    foundation tool accepts: it passes the guard, and what follows its
    ["--"] is the temporary GLB, the output path and the two ratios, in this
    order.  Run on it with ratios that parse and the temporary GLB in place,
    the tool runs the stage from the temporary GLB to the driver's output
    path with these ratios, and reports its answer. *)
Theorem driver_command_runs_the_stage (output_stl margin_ratio thickness_ratio : string)
  (m t : A) (fs : files) :
  float_of_str margin_ratio = Some m -> float_of_str thickness_ratio = Some t ->
  temp_glb w ∈ fs ->
  let cmd := blender_cmd w output_stl margin_ratio thickness_ratio in
  let r := Foundation.add_circular_foundation gltf_objects glb_file (R := unit)
             (temp_glb w) output_stl m t Foundation.lit_0_05 fs in
  (6 <= length cmd)%nat /\
  Foundation.positional cmd = [temp_glb w; output_stl; margin_ratio; thickness_ratio] /\
  exists success : bool,
    outcome_of r = Normal success /\
    Foundation.main gltf_objects glb_file float_of_str (R := unit) cmd fs
    = (trace_of r
       ++ [Foundation.Print
             (if success then [Lit "Successfully created "; Str output_stl]
              else [Lit "Failed to create foundation"])],
       state_of r, Normal tt).
Proof.
  intros M T I cmd r. subst cmd r.
  split; [cbn; lia|]. split; [apply positional_blender_cmd|].
  apply (FoundationProofs.main_stage_run gltf_objects glb_file float_of_str
           (blender_cmd w output_stl margin_ratio thickness_ratio)
           (temp_glb w) output_stl [margin_ratio; thickness_ratio] m t fs).
  - cbn. lia.
  - apply positional_blender_cmd.
  - rewrite positional_blender_cmd. unfold Foundation.ratio_arg. cbn. exact M.
  - rewrite positional_blender_cmd. unfold Foundation.ratio_arg. cbn. exact T.
  - exact I.
Qed.

End Composition.

Lemma driver_command_runs_the_stage_witness :
  Foundation.positional
    (blender_cmd (driver_world healthy (writes "/tmp/smoothed_temp.glb") (writes "out.stl"))
       "out.stl" "0.15" "0.08")
  = ["/tmp/smoothed_temp.glb"; "out.stl"; "0.15"; "0.08"].
Proof.
  assert (I : "/tmp/smoothed_temp.glb" ∈ ({["/tmp/smoothed_temp.glb"]} : files))
    by (apply elem_of_singleton; reflexivity).
  exact (proj1 (proj2 (driver_command_runs_the_stage
                         (driver_world healthy (writes "/tmp/smoothed_temp.glb")
                            (writes "out.stl"))
                         (fun _ => [box_mesh lo_f hi_f]) fitted_glb float_of_ratio
                         "out.stl" "0.15" "0.08" 0.15%float 0.08%float
                         {["/tmp/smoothed_temp.glb"]} eq_refl eq_refl I))).
Defined.

End DriverProofs.
